(** * RoosterScan: the server's handlers, embedded and verified

  The development follows the Express server of the repository:
  - [Js]      : the JavaScript values and operators the handlers use;
  - [Auth]    : [getUserIdFromAuth] of [server/lib/supabase];
  - [Json]    : a reader of JSON text, to run [JSON.parse] with;
  - [Http]    : the responses the handlers send;
  - [Pose]    : the [POST /api/pose/detect] handler of [server/routes/pose];
  - [Scans]   : the row mappers of [server/routes/scans];
  - [Reports] : [createReport] of [server/routes/reports];
  - [ScanRoutes], [Roosters], [Upload], [Education] : the other route
    handlers, each over the table or bucket it reads and writes;
  - [PoseAnalysis] : [analyzePoseForInjuries];
  - [Cors], [AuthRoutes] : the CORS middleware and [requireAuth], with the
    routes behind it.

  A query the database can answer with an error takes the error's code
  as an argument; an insert or a delete it can refuse takes the refusal
  from the table's own record.

  Strings are sequences of bytes, the UTF-8 encoding of the text.  Numbers
  are rationals; where the code compares two numbers, both sides are
  first rounded to the doubles they are at run time ([Js.double]), and so
  is a number read from JSON text.  Arithmetic between numbers is exact. *)

From Stdlib Require Import String Ascii ZArith QArith Qabs List Bool Lia Permutation.
From stdpp Require Import base gmap strings list.

Set Warnings "-register-all".
Local Open Scope string_scope.

(** ** JavaScript values *)

Module Js.

Inductive JsValue : Type :=
| JUndefined
| JNull
| JBool (b : bool)
| JNum (q : Q)
| JStr (s : string)
| JArr (items : list JsValue)
| JObj (fields : list (string * JsValue)).

(** What a [throw] carries: the constructor and the [message]. *)
Inductive JsError : Type :=
| TypeError (message : string)
| SyntaxError (message : string)
| Error (message : string).

Definition message (e : JsError) : string :=
  match e with
  | TypeError m | SyntaxError m | Error m => m
  end.

(** A computation either returns or throws. *)
Inductive Completion (A : Type) : Type :=
| Normal (a : A)
| Throw (e : JsError).
Arguments Normal {A} a.
Arguments Throw {A} e.

#[export] Instance completion_ret : MRet Completion := fun A a => Normal a.

#[export] Instance completion_bind : MBind Completion := fun A B k c =>
  match c with
  | Normal a => k a
  | Throw e => Throw e
  end.

(** ToBoolean. *)
Definition truthy (v : JsValue) : bool :=
  match v with
  | JUndefined | JNull => false
  | JBool b => b
  | JNum q => negb (Qeq_bool q 0)
  | JStr s => negb (String.eqb s "")
  | JArr _ | JObj _ => true
  end.

(** [a || b] *)
Definition or (a b : JsValue) : JsValue := if truthy a then a else b.

(** [v === 'lit'] *)
Definition is_str (v : JsValue) (lit : string) : bool :=
  match v with
  | JStr s => String.eqb s lit
  | _ => false
  end.

Fixpoint assoc (k : string) (fields : list (string * JsValue)) : JsValue :=
  match fields with
  | [] => JUndefined
  | (k', v) :: rest => if String.eqb k k' then v else assoc k rest
  end.

(** [v.k]: a TypeError on [null] and [undefined] (with V8's message),
    the own property of an object, and [undefined] on a primitive or an
    array.  Of the names the handlers read, [sub] alone is defined on a
    primitive (a string has the method of that name); it is read of a
    token's payload only, and nothing reads what [requireAuth] makes of
    it. *)
Definition get (v : JsValue) (k : string) : Completion JsValue :=
  match v with
  | JUndefined =>
      Throw (TypeError ("Cannot read properties of undefined (reading '" +:+ k +:+ "')"))
  | JNull =>
      Throw (TypeError ("Cannot read properties of null (reading '" +:+ k +:+ "')"))
  | JObj fields => Normal (assoc k fields)
  | _ => Normal JUndefined
  end.

(** [v?.k] *)
Definition get_opt (v : JsValue) (k : string) : JsValue :=
  match v with
  | JObj fields => assoc k fields
  | _ => JUndefined
  end.

(** [Array.isArray(v)] *)
Definition isArray (v : JsValue) : bool :=
  match v with
  | JArr _ => true
  | _ => false
  end.

(** [items.some(f)]: stops at the first element [f] accepts. *)
Fixpoint some (f : JsValue -> Completion bool) (items : list JsValue) : Completion bool :=
  match items with
  | [] => Normal false
  | x :: rest => b ← f x; if (b : bool) then Normal true else some f rest
  end.

(** [items.filter(f)] *)
Fixpoint filter (f : JsValue -> Completion bool) (items : list JsValue)
  : Completion (list JsValue) :=
  match items with
  | [] => Normal []
  | x :: rest =>
      b ← f x; kept ← filter f rest; Normal (if (b : bool) then x :: kept else kept)
  end.

(** [items.map(f)] *)
Fixpoint map (f : JsValue -> Completion JsValue) (items : list JsValue)
  : Completion (list JsValue) :=
  match items with
  | [] => Normal []
  | x :: rest => y ← f x; ys ← map f rest; Normal (y :: ys)
  end.

(** [2^e] *)
Definition pow2 (e : Z) : Q :=
  if (0 <=? e)%Z then inject_Z (2 ^ e) else 1 # Z.to_pos (2 ^ (- e)).

(** The integer nearest to [n / d], the even one of two that are equally
    near; [0 <= n] and [0 < d]. *)
Definition round_half_even (n d : Z) : Z :=
  let m := (n / d)%Z in
  match (2 * (n mod d) ?= d)%Z with
  | Lt => m
  | Gt => (m + 1)%Z
  | Eq => if Z.even m then m else (m + 1)%Z
  end.

(** The double nearest to a positive [q]: 53 significant bits, the least
    exponent that of the subnormals, and [Infinity], which [2^1024] stands
    for, from [2^1024 - 2^970] on. *)
Definition nearest (q : Q) : Q :=
  let n := Qnum q in
  let d := Z.pos (Qden q) in
  let e := (Z.log2 n - Z.log2 d)%Z in
  let e := if Qle_bool (pow2 e) q then e else (e - 1)%Z in
  let u := Z.max (e - 52) (-1074) in
  let m := if (0 <=? u)%Z then round_half_even n (d * 2 ^ u)
           else round_half_even (n * 2 ^ (- u)) d in
  let r := (inject_Z m * pow2 u)%Q in
  if Qle_bool (pow2 1024) r then pow2 1024 else Qred r.

(** The double that a decimal denotes, in a literal of the code and in a
    JSON text alike: the nearest one, ties to even. *)
Definition double (q : Q) : Q :=
  match Qnum q with
  | Z0 => 0
  | Zpos _ => nearest q
  | Zneg _ => - nearest (- q)
  end.

(** [x > c], on a nullable number read from the database and a literal:
    [null] converts to 0, and both sides are doubles. *)
Definition gt (x : option Q) (c : Q) : bool :=
  match x with
  | Some q => negb (Qle_bool (double q) (double c))
  | None => negb (Qle_bool 0 (double c))
  end.

Definition of_num (x : option Q) : JsValue :=
  match x with
  | Some q => JNum q
  | None => JNull
  end.

(** The entries of an array, none for anything else. *)
Definition elements (v : JsValue) : list JsValue :=
  match v with
  | JArr items => items
  | _ => []
  end.

Definition of_nat (n : nat) : JsValue := JNum (inject_Z (Z.of_nat n)).

(** A nullable column. *)
Definition of_text (x : option string) : JsValue :=
  match x with
  | Some s => JStr s
  | None => JNull
  end.

(** An optional field of a request body. *)
Definition of_str (x : option string) : JsValue :=
  match x with
  | Some s => JStr s
  | None => JUndefined
  end.

End Js.

(** ** The identity every handler resolves *)

Module Auth.

(** [authHeader.startsWith(p)] *)
Definition startsWith (s p : string) : bool := String.prefix p s.

(** [s.substring(n)] *)
Definition substring (n : nat) (s : string) : string :=
  String.substring n (String.length s - n) s.

Definition getUserIdFromAuth (authHeader : option string) : string :=
  match authHeader with
  | None => "00000000-0000-0000-0000-000000000001"
  | Some h =>
      if negb (Js.truthy (Js.JStr h)) || negb (startsWith h "Bearer ") then
        "00000000-0000-0000-0000-000000000001"
      else
        let token := substring 7 h in
        "00000000-0000-0000-0000-000000000001"
  end.

End Auth.

(** ** [JSON.parse]

    The handlers take the runtime's [JSON.parse] as a parameter; this
    recursive-descent reader of the JSON grammar (RFC 8259) is the instance
    the examples run on.  An object keeps the last value of a repeated key
    and lists its keys in the order of the text (an engine lists the keys
    that are array indices first; nothing here reads the order), a number
    is the double nearest to its decimal, and the two escapes of a
    surrogate pair make one character.  The text of a [SyntaxError] is the
    engine's and is not reproduced. *)

Module Json.

Import Js.

Definition dquote : ascii := "034"%char.

Definition is_ws (c : ascii) : bool :=
  Ascii.eqb c " " || Ascii.eqb c "009" || Ascii.eqb c "010" || Ascii.eqb c "013".

Fixpoint skip_ws (s : string) : string :=
  match s with
  | String c r => if is_ws c then skip_ws r else s
  | EmptyString => s
  end.

Definition digit (c : ascii) : option Z :=
  let n := Z.of_nat (nat_of_ascii c) in
  if (48 <=? n)%Z && (n <=? 57)%Z then Some (n - 48)%Z else None.

Definition hex (c : ascii) : option Z :=
  let n := Z.of_nat (nat_of_ascii c) in
  if (48 <=? n)%Z && (n <=? 57)%Z then Some (n - 48)%Z
  else if (65 <=? n)%Z && (n <=? 70)%Z then Some (n - 55)%Z
  else if (97 <=? n)%Z && (n <=? 102)%Z then Some (n - 87)%Z
  else None.

(** A run of decimal digits: its value continued from [acc], how many
    digits were read, and the rest. *)
Fixpoint digits (acc : Z) (count : nat) (s : string) : Z * nat * string :=
  match s with
  | String c r =>
      match digit c with
      | Some d => digits (10 * acc + d)%Z (S count) r
      | None => (acc, count, s)
      end
  | EmptyString => (acc, count, s)
  end.

Definition pow10 (n : Z) : positive := Z.to_pos (10 ^ n).

(** [-? int frac? exp?] *)
Definition number (s : string) : option (Q * string) :=
  let '(neg, s1) :=
    match s with
    | String "-" r => (true, r)
    | _ => (false, s)
    end in
  let '(ip, n1, s2) := digits 0 0 s1 in
  let leading_zero :=
    match s1 with
    | String "0" _ => Nat.ltb 1 n1
    | _ => false
    end in
  if Nat.eqb n1 0 || leading_zero then None else
  let frac :=
    match s2 with
    | String "." r =>
        let '(m, n2, s3) := digits ip 0 r in
        if Nat.eqb n2 0 then None else Some (m, n2, s3)
    | _ => Some (ip, 0%nat, s2)
    end in
  match frac with
  | None => None
  | Some (m, n2, s3) =>
      let expo :=
        match s3 with
        | String c r =>
            if Ascii.eqb c "e" || Ascii.eqb c "E" then
              let '(eneg, r1) :=
                match r with
                | String "-" r' => (true, r')
                | String "+" r' => (false, r')
                | _ => (false, r)
                end in
              let '(e, n3, s4) := digits 0 0 r1 in
              if Nat.eqb n3 0 then None
              else Some ((if eneg then - e else e)%Z, s4)
            else Some (0%Z, s3)
        | EmptyString => Some (0%Z, s3)
        end in
      match expo with
      | None => None
      | Some (e, s4) =>
          let scale := (e - Z.of_nat n2)%Z in
          let m' := if neg then (- m)%Z else m in
          let q :=
            if (0 <=? scale)%Z then Qmake (m' * 10 ^ scale) 1
            else Qmake m' (pow10 (- scale)) in
          Some (double (Qred q), s4)
      end
  end.

(** The UTF-8 bytes of a code point; a surrogate that stands alone is
    written like a code point of three bytes. *)
Definition utf8 (n : Z) : string :=
  let byte (z : Z) := ascii_of_nat (Z.to_nat z) in
  if (n <? 128)%Z then String (byte n) ""
  else if (n <? 2048)%Z then
    String (byte (192 + n / 64)%Z) (String (byte (128 + n mod 64)%Z) "")
  else if (n <? 65536)%Z then
    String (byte (224 + n / 4096)%Z)
      (String (byte (128 + (n / 64) mod 64)%Z) (String (byte (128 + n mod 64)%Z) ""))
  else
    String (byte (240 + n / 262144)%Z)
      (String (byte (128 + (n / 4096) mod 64)%Z)
         (String (byte (128 + (n / 64) mod 64)%Z) (String (byte (128 + n mod 64)%Z) ""))).

(** The code unit of four hexadecimal digits. *)
Definition unit (h1 h2 h3 h4 : ascii) : option Z :=
  match hex h1, hex h2, hex h3, hex h4 with
  | Some a, Some b, Some c, Some d => Some (4096 * a + 256 * b + 16 * c + d)%Z
  | _, _, _, _ => None
  end.

(** The characters of a string literal after its opening quote. *)
Fixpoint chars (s : string) : option (string * string) :=
  match s with
  | EmptyString => None
  | String c r =>
      if Ascii.eqb c dquote then Some ("", r)
      else if Ascii.eqb c "\" then
        match r with
        | String e r1 =>
            let plain (x : ascii) :=
              match chars r1 with
              | Some (t, r2) => Some (String x t, r2)
              | None => None
              end in
            if Ascii.eqb e dquote then plain dquote
            else if Ascii.eqb e "\" then plain "\"%char
            else if Ascii.eqb e "/" then plain "/"%char
            else if Ascii.eqb e "b" then plain "008"%char
            else if Ascii.eqb e "f" then plain "012"%char
            else if Ascii.eqb e "n" then plain "010"%char
            else if Ascii.eqb e "r" then plain "013"%char
            else if Ascii.eqb e "t" then plain "009"%char
            else if Ascii.eqb e "u" then
              match r1 with
              | String h1 (String h2 (String h3 (String h4 r2))) =>
                  match unit h1 h2 h3 h4 with
                  | Some high =>
                      let alone :=
                        match chars r2 with
                        | Some (t, r3) => Some (utf8 high +:+ t, r3)
                        | None => None
                        end in
                      match r2 with
                      | String b1 (String b2
                          (String l1 (String l2 (String l3 (String l4 r3))))) =>
                          match unit l1 l2 l3 l4 with
                          | Some low =>
                              if Ascii.eqb b1 "\" && Ascii.eqb b2 "u"
                                 && (55296 <=? high)%Z && (high <=? 56319)%Z
                                 && (56320 <=? low)%Z && (low <=? 57343)%Z
                              then
                                match chars r3 with
                                | Some (t, r4) =>
                                    Some (utf8 (65536 + (high - 55296) * 1024
                                                  + (low - 56320))%Z +:+ t, r4)
                                | None => None
                                end
                              else alone
                          | None => alone
                          end
                      | _ => alone
                      end
                  | None => None
                  end
              | _ => None
              end
            else None
        | EmptyString => None
        end
      else if Nat.ltb (nat_of_ascii c) 32 then None
      else
        match chars r with
        | Some (t, r1) => Some (String c t, r1)
        | None => None
        end
  end.

(** [fields] with [k] bound to [v]: in place when [k] is bound already. *)
Fixpoint put (k : string) (v : JsValue) (fields : list (string * JsValue))
  : list (string * JsValue) :=
  match fields with
  | [] => [(k, v)]
  | (k', v') :: rest =>
      if String.eqb k k' then (k, v) :: rest else (k', v') :: put k v rest
  end.

Definition literal (word : string) (v : JsValue) (s : string) : option (JsValue * string) :=
  if String.prefix word s
  then Some (v, String.substring (String.length word) (String.length s - String.length word) s)
  else None.

Fixpoint value (fuel : nat) (s : string) {struct fuel} : option (JsValue * string) :=
  match fuel with
  | O => None
  | S n =>
      match skip_ws s with
      | EmptyString => None
      | String c r as s1 =>
          if Ascii.eqb c "{" then
            match skip_ws r with
            | String "}" r1 => Some (JObj [], r1)
            | r1 => members n [] r1
            end
          else if Ascii.eqb c "[" then
            match skip_ws r with
            | String "]" r1 => Some (JArr [], r1)
            | r1 => elements n [] r1
            end
          else if Ascii.eqb c dquote then
            match chars r with
            | Some (t, r1) => Some (JStr t, r1)
            | None => None
            end
          else if Ascii.eqb c "t" then literal "true" (JBool true) s1
          else if Ascii.eqb c "f" then literal "false" (JBool false) s1
          else if Ascii.eqb c "n" then literal "null" JNull s1
          else
            match number s1 with
            | Some (q, r1) => Some (JNum q, r1)
            | None => None
            end
      end
  end
with members (fuel : nat) (acc : list (string * JsValue)) (s : string) {struct fuel}
  : option (JsValue * string) :=
  match fuel with
  | O => None
  | S n =>
      match skip_ws s with
      | String c r =>
          if Ascii.eqb c dquote then
            match chars r with
            | Some (k, r1) =>
                match skip_ws r1 with
                | String ":" r2 =>
                    match value n r2 with
                    | Some (v, r3) =>
                        match skip_ws r3 with
                        | String "," r4 => members n (put k v acc) r4
                        | String "}" r4 => Some (JObj (put k v acc), r4)
                        | _ => None
                        end
                    | None => None
                    end
                | _ => None
                end
            | None => None
            end
          else None
      | EmptyString => None
      end
  end
with elements (fuel : nat) (acc : list JsValue) (s : string) {struct fuel}
  : option (JsValue * string) :=
  match fuel with
  | O => None
  | S n =>
      match value n s with
      | Some (v, r1) =>
          match skip_ws r1 with
          | String "," r2 => elements n (acc ++ [v]) r2
          | String "]" r2 => Some (JArr (acc ++ [v]), r2)
          | _ => None
          end
      | None => None
      end
  end.

Definition parse (text : string) : Completion JsValue :=
  match value (S (String.length text)) text with
  | Some (v, rest) =>
      match skip_ws rest with
      | EmptyString => Normal v
      | _ => Throw (SyntaxError "Unexpected non-whitespace character after JSON")
      end
  | None => Throw (SyntaxError "Unexpected token in JSON")
  end.

(** [s] between double quotes, to write JSON text with. *)
Definition quoted (s : string) : string := String dquote (s +:+ String dquote "").

End Json.

(** ** Express responses *)

Module Http.

Import Js.

Record Response : Type := { status : nat; body : JsValue }.

(** [res.json(b)] and [res.status(n).json(b)] *)
Definition json (b : JsValue) : Response := {| status := 200; body := b |}.
Definition status_json (n : nat) (b : JsValue) : Response := {| status := n; body := b |}.

End Http.

(** ** [POST /api/pose/detect] *)

Module Pose.

Import Js.
Export Http.

(** The longest prefix of [s] that ends in a closing brace: what [.*\}]
    matches, greedy and with the [s] flag. *)
Fixpoint upto_last_close (s : string) : option string :=
  match s with
  | EmptyString => None
  | String c r =>
      match upto_last_close r with
      | Some m => Some (String c m)
      | None => if Ascii.eqb c "}" then Some (String c "") else None
      end
  end.

(** [output.match(/\{.*\}/s)]: the match at the leftmost position where
    one starts, [None] for [null]. *)
Fixpoint jsonMatch (output : string) : option string :=
  match output with
  | EmptyString => None
  | String c r =>
      if Ascii.eqb c "{" then
        match upto_last_close r with
        | Some m => Some (String c m)
        | None => jsonMatch r
        end
      else jsonMatch r
  end.

Inductive Effect : Type :=
| Spawn (command : string) (args : list string)
| Unlink (path : string).

(** What the spawned process does: it closes with an exit code ([None]
    for [null], a death by signal) after writing its chunks, it never
    closes, or it cannot be started, which emits an [error] event that
    has no listener. *)
Inductive ChildProcess : Type :=
| Closes (code : option Z) (stdout stderr : list string)
| Hangs
| FailsToStart (error : JsError).

(** A request's outcome: the response sent (if any), the files left on
    disk, the calls made, and an exception no handler caught. *)
Record Outcome : Type := {
  response : option Response;
  files : gset string;
  effects : list Effect;
  uncaught : option JsError
}.

Definition existsSync (disk : gset string) (p : string) : bool := bool_decide (p ∈ disk).

Definition mockRecommendations : JsValue :=
  JArr [JStr "AI models not deployed - showing mock data";
        JStr "Upload successful - frontend integration working";
        JStr "Deploy AI models to Railway to enable real analysis"].

Definition keypoint (name : string) (x y confidence : Q) : JsValue :=
  JObj [("name", JStr name); ("x", JNum x); ("y", JNum y); ("confidence", JNum confidence)].

Definition mockPayload : JsValue :=
  JObj [("success", JBool true);
        ("keypoints", JArr [keypoint "beak_tip" 100 50 (9 # 10);
                            keypoint "eye" 120 60 (85 # 100);
                            keypoint "comb_top" 110 30 (8 # 10)]);
        ("confidence", JNum (85 # 100));
        ("pose_confidence", JNum (85 # 100));
        ("health_assessment", JStr "healthy");
        ("recommendations", mockRecommendations);
        ("combined_analysis",
           JObj [("health_assessment", JStr "healthy");
                 ("combined_confidence", JNum (85 # 100));
                 ("recommendations", mockRecommendations);
                 ("specific_findings", JArr [])]);
        ("injury_analysis",
           JObj [("risk_level", JStr "low");
                 ("detected_issues", JArr []);
                 ("recommendations", mockRecommendations)])].

Definition failure (error : string) : JsValue :=
  JObj [("success", JBool false); ("error", JStr error)].

Section Handler.

(** The runtime: [JSON.parse], [path.join] and [__dirname]. *)
Variable JSON_parse : string -> Completion JsValue.
Variable path_join : string -> string -> string.
Variable dirname : string.

Definition modelPath : string := path_join dirname "../../rooster_pose_model.pt".
Definition bumblefootModelPath : string := path_join dirname "../../rooster_bumblefoot_model.pt".
Definition sequentialScriptPath : string := path_join dirname "../scripts/sequential_analysis.py".

(** The [try] block of the [close] listener. *)
Definition parse_output (output : string) : Completion Response :=
  match jsonMatch output with
  | None => Throw (Error "No JSON found in output")
  | Some text =>
      result ← JSON_parse text;
      success ← get result "success";
      if truthy success then
        analysis_type ← get result "analysis_type";
        overall_status ← get result "overall_status";
        pose_detection ← get result "pose_detection";
        injury_classification ← get result "injury_classification";
        health_assessment ← get result "health_assessment";
        combined_confidence ← get result "combined_confidence";
        recommendations ← get result "recommendations";
        specific_findings ← get result "specific_findings";
        Normal (json (JObj [
          ("success", JBool true);
          ("analysis_type", or analysis_type (JStr "sequential_validation"));
          ("overall_status", overall_status);
          ("keypoints", or (get_opt pose_detection "keypoints") (JArr []));
          ("confidence", or (get_opt pose_detection "pose_confidence") (JNum 0));
          ("pose_detection", pose_detection);
          ("injury_classification", injury_classification);
          ("combined_analysis",
             JObj [("health_assessment", health_assessment);
                   ("combined_confidence", combined_confidence);
                   ("recommendations", recommendations);
                   ("specific_findings", specific_findings)]);
          ("injury_analysis",
             JObj [("risk_level",
                      JStr (if is_str health_assessment "injured" then "high" else "low"));
                   ("detected_issues", or specific_findings (JArr []));
                   ("recommendations", or recommendations (JArr []))])]))
      else
        error ← get result "error";
        stage ← get result "stage";
        Normal (status_json 500 (JObj [
          ("success", JBool false);
          ("error", or error (JStr "Sequential analysis failed"));
          ("stage", or stage (JStr "unknown"))]))
  end.

(** The [close] listener.  [fs.unlinkSync] throws when the file is gone,
    and nothing catches what a listener throws. *)
Definition on_close (disk : gset string) (imagePath output error : string)
    (code : option Z) : Outcome :=
  if existsSync disk imagePath then
    let respond (r : Response) :=
      {| response := Some r; files := disk ∖ {[imagePath]};
         effects := [Unlink imagePath]; uncaught := None |} in
    match code with
    | Some 0%Z =>
        match parse_output output with
        | Normal r => respond r
        | Throw parseError =>
            respond (status_json 500 (failure
              ("Failed to parse sequential analysis results: " +:+ message parseError
                 +:+ ". Output: " +:+ output)))
        end
    | _ => respond (status_json 500 (failure ("Pose detection failed: " +:+ error)))
    end
  else
    {| response := None; files := disk; effects := [Unlink imagePath];
       uncaught := Some (Error ("ENOENT: no such file or directory, unlink '"
                                  +:+ imagePath +:+ "'")) |}.

(** The handler, on [req.file?.path], the disk and the child's behaviour. *)
Definition detect (disk : gset string) (file : option string) (child : ChildProcess)
  : Outcome :=
  let reply (r : Response) :=
    {| response := Some r; files := disk; effects := []; uncaught := None |} in
  match file with
  | None => reply (status_json 400 (failure "No image file provided"))
  | Some imagePath =>
      if negb (existsSync disk modelPath) then reply (json mockPayload)
      else if negb (existsSync disk bumblefootModelPath) then
        reply (status_json 500 (failure "Bumblefoot classification model not found"))
      else if negb (existsSync disk sequentialScriptPath) then
        reply (status_json 500 (failure "Sequential analysis script not found"))
      else
        let python :=
          Spawn "python" [sequentialScriptPath; imagePath; modelPath; bumblefootModelPath] in
        match child with
        | Hangs =>
            {| response := None; files := disk; effects := [python]; uncaught := None |}
        | FailsToStart error =>
            {| response := None; files := disk; effects := [python];
               uncaught := Some error |}
        | Closes code stdout stderr =>
            let closed :=
              on_close disk imagePath (String.concat "" stdout) (String.concat "" stderr) code in
            {| response := response closed; files := files closed;
               effects := python :: effects closed; uncaught := uncaught closed |}
        end
  end.

End Handler.

(** [path.join] on the segments the handler joins, without resolving
    [..]: the instance the examples run on. *)
Definition join (a b : string) : string := a +:+ "/" +:+ b.

End Pose.


(** ** The scan mappers of [server/routes/scans] *)

Module Scans.

Import Js.

(** A row of the [scans] table. *)
Record ScanRow : Type := {
  id : string;
  rooster_id : JsValue;
  user_id : string;
  session_name : JsValue;
  scan_type : JsValue;
  duration_seconds : JsValue;
  video_url : JsValue;
  thumbnail_url : JsValue;
  status : JsValue;
  pose_data : JsValue;
  injury_detections : JsValue;
  analysis_confidence : option Q;
  fps : JsValue;
  resolution : JsValue;
  camera_settings : JsValue;
  processing_time_ms : JsValue;
  model_version : JsValue;
  notes : JsValue;
  created_at : JsValue;
  updated_at : JsValue
}.

Definition normalResults : JsValue :=
  JObj [("posture", JStr "normal"); ("wing", JStr "normal");
        ("legs", JStr "normal"); ("movement", JStr "normal")].

(** [(inj) => inj.type || 'Unknown'] *)
Definition injury_type (inj : JsValue) : Completion JsValue :=
  type ← get inj "type"; Normal (or type (JStr "Unknown")).

(** [(inj) => inj.severity === 'severe'] *)
Definition is_severe (inj : JsValue) : Completion bool :=
  severity ← get inj "severity"; Normal (is_str severity "severe").

(** The legacy [injuries] field, the same in the three mappers. *)
Definition injuries (scan : ScanRow) : Completion JsValue :=
  if isArray (injury_detections scan)
  then names ← map injury_type (elements (injury_detections scan)); Normal (JArr names)
  else Normal (JArr []).

(** The fields the three mappers share, before the legacy ones. *)
Definition columns (scan : ScanRow) : list (string * JsValue) :=
  [("id", JStr (id scan));
   ("roosterId", rooster_id scan);
   ("userId", JStr (user_id scan));
   ("sessionName", session_name scan);
   ("scanType", or (scan_type scan) (JStr "live_video"));
   ("duration", duration_seconds scan);
   ("videoUrl", video_url scan);
   ("thumbnailUrl", thumbnail_url scan);
   ("status", or (status scan) (JStr "completed"));
   ("poseData", pose_data scan);
   ("injuryDetections", injury_detections scan);
   ("analysisConfidence", of_num (analysis_confidence scan));
   ("fps", fps scan);
   ("resolution", resolution scan);
   ("cameraSettings", camera_settings scan);
   ("processingTimeMs", processing_time_ms scan);
   ("modelVersion", model_version scan);
   ("notes", notes scan);
   ("createdAt", created_at scan);
   ("updatedAt", updated_at scan)].

(** The mapper of [getScans]. *)
Definition getScans_map (scan : ScanRow) : Completion JsValue :=
  injuries ← injuries scan;
  severity ←
    (if truthy (injury_detections scan) && isArray (injury_detections scan)
        && Nat.ltb 0 (length (elements (injury_detections scan)))
     then
       severe ← some is_severe (elements (injury_detections scan));
       Normal (if (severe : bool) then "high" else "medium")
     else Normal "low");
  Normal (JObj (columns scan ++
    [("results", or (pose_data scan) normalResults);
     ("overlay", JBool false);
     ("injuries", injuries);
     ("severity", JStr severity)])).

(** The mapper of [getScanById]. *)
Definition getScanById_map (scan : ScanRow) : Completion JsValue :=
  injuries ← injuries scan;
  Normal (JObj (columns scan ++
    [("results", or (pose_data scan) normalResults);
     ("overlay", JBool (is_str (status scan) "completed"));
     ("injuries", injuries);
     ("severity",
        JStr (if gt (analysis_confidence scan) (8 # 10) then "high"
              else if gt (analysis_confidence scan) (5 # 10) then "medium"
              else "low"))])).

(** The mapper of [createScan], applied to the row the insert returns. *)
Definition createScan_map (scan : ScanRow) : Completion JsValue :=
  injuries ← injuries scan;
  Normal (JObj (columns scan ++
    [("results", or (pose_data scan) normalResults);
     ("overlay", JBool (is_str (status scan) "completed"));
     ("injuries", injuries);
     ("severity",
        JStr (if gt (analysis_confidence scan) (8 # 10) then "high"
              else if gt (analysis_confidence scan) (5 # 10) then "medium"
              else "low"))])).

(** The [severity] of a mapped scan. *)
Definition severity (mapped : JsValue) : JsValue := get_opt mapped "severity".

End Scans.

(** ** [createReport] of [server/routes/reports] *)

Module Reports.

Import Js.
Import Http.

Module Request.

(** [CreateReportRequest], a field absent when [None]. *)
Record CreateReportRequest : Type := {
  scanId : option string;
  roosterId : option string;
  title : option string;
  summary : option string;
  detailedAnalysis : option string;
  recommendations : option string;
  overallHealthScore : option Q;
  mobilityScore : option Q;
  postureScore : option Q;
  reportType : option string
}.

End Request.

Abbreviation CreateReportRequest := Request.CreateReportRequest.

(** The row the handler inserts. *)
Record ReportData : Type := {
  scan_id : string;
  rooster_id : string;
  user_id : string;
  title : string;
  summary : option string;
  detailed_analysis : option string;
  recommendations : option string;
  overall_health_score : option Q;
  mobility_score : option Q;
  posture_score : option Q;
  total_injuries_detected : nat;
  high_priority_injuries : nat;
  report_type : string;
  status : string
}.

(** The columns the database fills in on insert. *)
Record Generated : Type := {
  id : string;
  pdf_url : JsValue;
  images : JsValue;
  created_at : string;
  updated_at : string
}.

(** A row of [health_reports]. *)
Record ReportRow : Type := { data : ReportData; generated : Generated }.

(** The hosted database: the two tables the handler touches, the
    constraints a new [health_reports] row must pass, and the values the
    database generates for it. *)
Record Database : Type := {
  scans : list Scans.ScanRow;
  health_reports : list ReportRow;
  accepts : ReportData -> bool;
  generate : ReportData -> Generated
}.

(** The white space and line terminators [s.trim()] strips, in UTF-8.
    One byte: the tab, the line feed, the vertical tab, the form feed, the
    carriage return and the space. *)
Definition is_space (c : ascii) : bool :=
  let n := nat_of_ascii c in (Nat.leb 9 n && Nat.leb n 13) || Nat.eqb n 32.

(** Two bytes: the no-break space U+00A0. *)
Definition is_space2 (c d : ascii) : bool :=
  Nat.eqb (nat_of_ascii c) 194 && Nat.eqb (nat_of_ascii d) 160.

(** Three bytes: U+1680, U+2000 to U+200A, the line and paragraph
    separators U+2028 and U+2029, U+202F, U+205F, U+3000 and the byte order
    mark U+FEFF. *)
Definition is_space3 (c d e : ascii) : bool :=
  let c := nat_of_ascii c in
  let d := nat_of_ascii d in
  let e := nat_of_ascii e in
  Nat.eqb c 225 && Nat.eqb d 154 && Nat.eqb e 128
  || Nat.eqb c 226 && Nat.eqb d 128
     && (Nat.leb 128 e && Nat.leb e 138 || Nat.eqb e 168 || Nat.eqb e 169 || Nat.eqb e 175)
  || Nat.eqb c 226 && Nat.eqb d 129 && Nat.eqb e 159
  || Nat.eqb c 227 && Nat.eqb d 128 && Nat.eqb e 128
  || Nat.eqb c 239 && Nat.eqb d 187 && Nat.eqb e 191.

(** What follows the white space character [s] starts with, if it starts
    with one. *)
Definition skip_space (s : string) : option string :=
  match s with
  | String c r =>
      if is_space c then Some r
      else match r with
           | String d r1 =>
               if is_space2 c d then Some r1
               else match r1 with
                    | String e r2 => if is_space3 c d e then Some r2 else None
                    | EmptyString => None
                    end
           | EmptyString => None
           end
  | EmptyString => None
  end.

Fixpoint trimStart (s : string) : string :=
  match s with
  | String c r =>
      if is_space c then trimStart r
      else match r with
           | String d r1 =>
               if is_space2 c d then trimStart r1
               else match r1 with
                    | String e r2 => if is_space3 c d e then trimStart r2 else s
                    | EmptyString => s
                    end
           | EmptyString => s
           end
  | EmptyString => s
  end.

(** [s] is white space throughout. *)
Fixpoint all_space (s : string) : bool :=
  match s with
  | String c r =>
      if is_space c then all_space r
      else match r with
           | String d r1 =>
               if is_space2 c d then all_space r1
               else match r1 with
                    | String e r2 => is_space3 c d e && all_space r2
                    | EmptyString => false
                    end
           | EmptyString => false
           end
  | EmptyString => true
  end.

(** The text up to the white space [s] ends with. *)
Fixpoint trimEnd (s : string) : string :=
  match s with
  | EmptyString => s
  | String c r => if all_space s then "" else String c (trimEnd r)
  end.

(** [s.trim()] *)
Definition trim (s : string) : string := trimEnd (trimStart s).

(** [x?.trim() || null] *)
Definition trimmed_or_null (x : option string) : option string :=
  match x with
  | Some s => if truthy (JStr (trim s)) then Some (trim s) else None
  | None => None
  end.

(** [x || null] on an optional number *)
Definition number_or_null (x : option Q) : option Q :=
  match x with
  | Some q => if truthy (JNum q) then Some q else None
  | None => None
  end.

(** [.from('scans').select('id, injury_detections').eq('id', scanId)
     .eq('user_id', userId).single()]: the row when exactly one matches. *)
Definition select_scan (db : Database) (scanId userId : string) : option Scans.ScanRow :=
  match List.filter (fun row => String.eqb (Scans.id row) scanId
                                && String.eqb (Scans.user_id row) userId) (scans db) with
  | [scan] => Some scan
  | _ => None
  end.

(** [.from('health_reports').insert([reportData]).select().single()] *)
Definition insert_report (db : Database) (reportData : ReportData)
  : Completion (ReportRow * Database) :=
  if accepts db reportData then
    let report := {| data := reportData; generated := generate db reportData |} in
    Normal (report,
            {| scans := scans db; health_reports := health_reports db ++ [report];
               accepts := accepts db; generate := generate db |})
  else Throw (Error "new row violates a constraint").

Definition apiError (error : string) : JsValue :=
  JObj [("error", JStr error); ("success", JBool false)].

(** The mapping of a row to the front end's format, written out in
    [getReports] and in [createReport] alike. *)
Definition mappedReport (report : ReportRow) : JsValue :=
  JObj [("id", JStr (id (generated report)));
        ("scanId", JStr (scan_id (data report)));
        ("roosterId", JStr (rooster_id (data report)));
        ("userId", JStr (user_id (data report)));
        ("title", JStr (title (data report)));
        ("summary", of_text (summary (data report)));
        ("detailedAnalysis", of_text (detailed_analysis (data report)));
        ("recommendations", of_text (recommendations (data report)));
        ("overallHealthScore", of_num (overall_health_score (data report)));
        ("mobilityScore", of_num (mobility_score (data report)));
        ("postureScore", of_num (posture_score (data report)));
        ("totalInjuriesDetected", of_nat (total_injuries_detected (data report)));
        ("highPriorityInjuries", of_nat (high_priority_injuries (data report)));
        ("reportType", JStr (report_type (data report)));
        ("status", JStr (status (data report)));
        ("pdfUrl", pdf_url (generated report));
        ("images", images (generated report));
        ("createdAt", JStr (created_at (generated report)));
        ("updatedAt", JStr (updated_at (generated report)))].

(** The injury counts the handler computes from the scan it read. *)
Definition injury_counts (scan : Scans.ScanRow) : Completion (nat * nat) :=
  let injuryDetections := or (Scans.injury_detections scan) (JArr []) in
  let totalInjuries :=
    if isArray injuryDetections then length (elements injuryDetections) else 0 in
  highPriorityInjuries ←
    (if isArray injuryDetections
     then severe ← filter Scans.is_severe (elements injuryDetections); Normal (length severe)
     else Normal 0);
  Normal (totalInjuries, highPriorityInjuries).

(** The body of the handler's [try]. *)
Definition createReport_try (db : Database) (authorization : option string)
    (body : CreateReportRequest) : Completion (Response * Database) :=
  let userId := Auth.getUserIdFromAuth authorization in
  if negb (truthy (of_str (Request.scanId body)))
     || negb (truthy (of_str (Request.roosterId body)))
     || negb (truthy (of_str (option_map trim (Request.title body))))
  then Normal (status_json 400 (apiError "scanId, roosterId, and title are required"), db)
  else
    match select_scan db (default "" (Request.scanId body)) userId with
    | None => Normal (status_json 404 (apiError "Scan not found or access denied"), db)
    | Some scan =>
        counts ← injury_counts scan;
        let reportData :=
          {| scan_id := default "" (Request.scanId body);
             rooster_id := default "" (Request.roosterId body);
             user_id := userId;
             title := trim (default "" (Request.title body));
             summary := trimmed_or_null (Request.summary body);
             detailed_analysis := trimmed_or_null (Request.detailedAnalysis body);
             recommendations := trimmed_or_null (Request.recommendations body);
             overall_health_score := number_or_null (Request.overallHealthScore body);
             mobility_score := number_or_null (Request.mobilityScore body);
             posture_score := number_or_null (Request.postureScore body);
             total_injuries_detected := fst counts;
             high_priority_injuries := snd counts;
             report_type := default "automated"
                              (if truthy (of_str (Request.reportType body))
                               then Request.reportType body else None);
             status := "draft" |} in
        inserted ← insert_report db reportData;
        Normal (status_json 201
                  (JObj [("data", mappedReport (fst inserted)); ("success", JBool true)]),
                snd inserted)
    end.

Definition createReport (db : Database) (authorization : option string)
    (body : CreateReportRequest) : Response * Database :=
  match createReport_try db authorization body with
  | Normal done => done
  | Throw error => (status_json 500 (apiError "Failed to create report"), db)
  end.

End Reports.

(** ** The handlers of [server/routes/scans] *)

Module ScanRoutes.

Import Js.
Import Http.

Module Request.

(** [CreateScanRequest], with the fields the handler reads. *)
Record CreateScanRequest : Type := {
  roosterId : option string;
  results : JsValue;
  injuries : option (list string);
  notes : option string;
  duration : option Q
}.

End Request.

Abbreviation CreateScanRequest := Request.CreateScanRequest.

(** The row the handler inserts. *)
Record ScanData : Type := {
  user_id : string;
  rooster_id : option string;
  duration_seconds : option Q;
  pose_data : JsValue;
  injury_detections : list JsValue;
  analysis_confidence : JsValue;
  processing_time_ms : JsValue;
  model_version : JsValue;
  fps : Q;
  resolution : string;
  status : string;
  notes : option string
}.

(** The columns of [scans] the handler leaves to the database. *)
Record Generated : Type := {
  id : string;
  session_name : JsValue;
  scan_type : JsValue;
  video_url : JsValue;
  thumbnail_url : JsValue;
  camera_settings : JsValue;
  created_at : JsValue;
  updated_at : JsValue
}.

(** The [scans] table of the hosted database: its rows, the constraints a
    new row must pass, the values the database generates for it, and the
    number its numeric column keeps of the confidence it is given.  The
    JSON columns come back as they were written. *)
Record ScanStore : Type := {
  scans : list Scans.ScanRow;
  accepts : ScanData -> bool;
  generate : ScanData -> Generated;
  numeric : JsValue -> option Q
}.

Definition stored (store : ScanStore) (scanData : ScanData) : Scans.ScanRow :=
  let g := generate store scanData in
  {| Scans.id := id g;
     Scans.rooster_id := of_text (rooster_id scanData);
     Scans.user_id := user_id scanData;
     Scans.session_name := session_name g;
     Scans.scan_type := scan_type g;
     Scans.duration_seconds := of_num (duration_seconds scanData);
     Scans.video_url := video_url g;
     Scans.thumbnail_url := thumbnail_url g;
     Scans.status := JStr (status scanData);
     Scans.pose_data := pose_data scanData;
     Scans.injury_detections := JArr (injury_detections scanData);
     Scans.analysis_confidence := numeric store (analysis_confidence scanData);
     Scans.fps := JNum (fps scanData);
     Scans.resolution := JStr (resolution scanData);
     Scans.camera_settings := camera_settings g;
     Scans.processing_time_ms := processing_time_ms scanData;
     Scans.model_version := model_version scanData;
     Scans.notes := of_text (notes scanData);
     Scans.created_at := created_at g;
     Scans.updated_at := updated_at g |}.

(** [.from('scans').insert([scanData]).select().single()] *)
Definition insert_scan (store : ScanStore) (scanData : ScanData)
  : Completion (Scans.ScanRow * ScanStore) :=
  if accepts store scanData then
    let scan := stored store scanData in
    Normal (scan,
            {| scans := (scans store ++ [scan])%list; accepts := accepts store;
               generate := generate store; numeric := numeric store |})
  else Throw (Error "new row violates a constraint").

(** The rows of [userId], as [.eq('user_id', userId)] selects them. *)
Definition of_user (userId : string) (rows : list Scans.ScanRow) : list Scans.ScanRow :=
  List.filter (fun row => String.eqb (Scans.user_id row) userId) rows.

Fixpoint map_rows (f : Scans.ScanRow -> Completion JsValue) (rows : list Scans.ScanRow)
  : Completion (list JsValue) :=
  match rows with
  | [] => Normal []
  | row :: rest => y ← f row; ys ← map_rows f rest; Normal (y :: ys)
  end.

Definition apiError (error : string) : JsValue :=
  JObj [("error", JStr error); ("success", JBool false)].

Definition apiResponse (data : JsValue) : JsValue :=
  JObj [("data", data); ("success", JBool true)].

(** [getScans]; [order] is the database's
    [.order('created_at', { ascending: false })], and [error] the [code]
    of the error the database answers the query with, when it answers
    with one instead of the rows. *)
Definition getScans (order : list Scans.ScanRow -> list Scans.ScanRow)
    (store : ScanStore) (error : option string) (authorization : option string)
  : Response :=
  let userId := Auth.getUserIdFromAuth authorization in
  let failed := status_json 500 (apiError "Failed to fetch scans") in
  match error with
  | Some code => failed
  | None =>
      match map_rows Scans.getScans_map (order (of_user userId (scans store))) with
      | Normal mappedScans => json (apiResponse (JArr mappedScans))
      | Throw thrown => failed
      end
  end.

(** [getScanById]; [error] is the [code] of the error the database
    answers the query with, when it does, and [.single()] makes one of its
    own, [PGRST116], unless exactly one row matches. *)
Definition getScanById (store : ScanStore) (error : option string)
    (authorization : option string) (id : string) : Response :=
  let userId := Auth.getUserIdFromAuth authorization in
  let failed := status_json 500 (apiError "Failed to get scan") in
  let missing := status_json 404 (apiError "Scan not found") in
  match error with
  | Some code => if String.eqb code "PGRST116" then missing else failed
  | None =>
      match List.filter (fun row => String.eqb (Scans.id row) id)
              (of_user userId (scans store)) with
      | [scan] =>
          match Scans.getScanById_map scan with
          | Normal mappedScan => json (apiResponse mappedScan)
          | Throw thrown => failed
          end
      | _ => missing
      end
  end.

(** The row [createScan] builds from the request; [results] is truthy
    here. *)
Definition scanData (userId : string) (body : CreateScanRequest) : Completion ScanData :=
  pose_confidence ← get (Request.results body) "pose_confidence";
  combined_confidence ← get (Request.results body) "combined_confidence";
  let poseConfidence := or (or pose_confidence combined_confidence) (JNum (75 # 100)) in
  keypoints_detected ← get (Request.results body) "keypoints_detected";
  let keypointsDetected := or keypoints_detected (JNum 0) in
  analysis_type ← get (Request.results body) "analysis_type";
  let analysisType := or analysis_type (JStr "basic_scan") in
  health_assessment ← get (Request.results body) "health_assessment";
  let healthAssessment := or health_assessment (JStr "unknown") in
  processing_time_estimate ← get (Request.results body) "processing_time_estimate";
  let processingTime :=
    or processing_time_estimate
       (JNum (if is_str analysisType "sequential_validation" then 2500 else 1000)) in
  model_version ← get (Request.results body) "model_version";
  let modelVersion :=
    or model_version
       (JStr (if is_str analysisType "sequential_validation"
              then "YOLO-v8-Sequential-1.0" else "YOLO-v8-Basic-1.0")) in
  let injuryDetections :=
    match Request.injuries body with
    | Some names =>
        List.map (fun injury => JObj [("type", JStr injury);
                                      ("confidence", poseConfidence);
                                      ("source", analysisType)]) names
    | None => []
    end in
  injury_classification ← get (Request.results body) "injury_classification";
  injuryDetections ←
    (if truthy injury_classification then
       confidence ← get injury_classification "confidence";
       Normal (injuryDetections ++
                 [JObj [("type", JStr "classification_result");
                        ("confidence", or confidence poseConfidence);
                        ("source", analysisType);
                        ("classification_data", injury_classification)]])%list
     else Normal injuryDetections);
  Normal {| user_id := userId;
            rooster_id := if truthy (of_str (Request.roosterId body)) then Request.roosterId body else None;
            duration_seconds := Reports.number_or_null (Request.duration body);
            pose_data := or (Request.results body) (JObj []);
            injury_detections := injuryDetections;
            analysis_confidence := poseConfidence;
            processing_time_ms := processingTime;
            model_version := modelVersion;
            fps := 30;
            resolution := "640x480";
            status := "completed";
            notes := Reports.trimmed_or_null (Request.notes body) |}.

Definition createScan (store : ScanStore) (authorization : option string)
    (body : CreateScanRequest) : Response * ScanStore :=
  let userId := Auth.getUserIdFromAuth authorization in
  let failed := status_json 500 (apiError "Failed to create scan") in
  if negb (truthy (Request.results body)) then
    (status_json 400 (apiError "Scan results are required"), store)
  else
    match scanData userId body with
    | Throw error => (failed, store)
    | Normal data =>
        match insert_scan store data with
        | Throw error => (failed, store)
        | Normal (scan, store') =>
            match Scans.createScan_map scan with
            | Normal mappedScan => (status_json 201 (apiResponse mappedScan), store')
            | Throw error => (failed, store')
            end
        end
    end.

End ScanRoutes.

(** ** The handlers of [server/routes/roosters] *)

Module Roosters.

Import Js.
Import Http.

Module Request.

(** [CreateRoosterRequest]; [UpdateRoosterRequest] is its [Partial]. *)
Record CreateRoosterRequest : Type := {
  name : option string;
  breed : option string;
  ageMonths : JsValue;
  weightGrams : JsValue;
  color : option string;
  gender : option string;
  registrationNumber : option string;
  bloodline : option string;
  birthDate : option string;
  acquisitionDate : option string;
  status : option string;
  notes : option string;
  avatarImageUrl : option string
}.

End Request.

Abbreviation CreateRoosterRequest := Request.CreateRoosterRequest.
Abbreviation UpdateRoosterRequest := Request.CreateRoosterRequest.

(** The row [createRooster] inserts. *)
Record RoosterData : Type := {
  user_id : string;
  name : string;
  breed : option string;
  age_months : JsValue;
  weight_grams : JsValue;
  color : option string;
  gender : option string;
  registration_number : option string;
  bloodline : option string;
  birth_date : option string;
  acquisition_date : option string;
  status : string;
  notes : option string;
  avatar_image_url : option string
}.

(** The columns the database fills in on insert. *)
Record Generated : Type := { id : string; created_at : string; updated_at : string }.

(** A row of [roosters]. *)
Record RoosterRow : Type := { data : RoosterData; generated : Generated }.

(** The [roosters] table of the hosted database: its rows, the
    constraints a new row must pass, the values the database generates for
    it, and the rows a foreign key keeps from being deleted. *)
Record RoosterStore : Type := {
  roosters : list RoosterRow;
  accepts : RoosterData -> bool;
  generate : RoosterData -> Generated;
  restricted : RoosterRow -> bool
}.

Definition apiError (error : string) : JsValue :=
  JObj [("error", JStr error); ("success", JBool false)].

Definition apiResponse (data : JsValue) : JsValue :=
  JObj [("data", data); ("success", JBool true)].

(** The mapping of a row to the front end's format, written out in
    [getRoosters] and in [createRooster] alike. *)
Definition mappedRooster (rooster : RoosterRow) : JsValue :=
  JObj [("id", JStr (id (generated rooster)));
        ("name", JStr (name (data rooster)));
        ("breed", of_text (breed (data rooster)));
        ("ageMonths", age_months (data rooster));
        ("weightGrams", weight_grams (data rooster));
        ("color", of_text (color (data rooster)));
        ("gender", of_text (gender (data rooster)));
        ("registrationNumber", of_text (registration_number (data rooster)));
        ("bloodline", of_text (bloodline (data rooster)));
        ("birthDate", of_text (birth_date (data rooster)));
        ("acquisitionDate", of_text (acquisition_date (data rooster)));
        ("status", JStr (status (data rooster)));
        ("notes", of_text (notes (data rooster)));
        ("avatarImageUrl", of_text (avatar_image_url (data rooster)));
        ("createdAt", JStr (created_at (generated rooster)));
        ("updatedAt", JStr (updated_at (generated rooster)))].

(** [getRoosters]; [order] is the database's
    [.order('created_at', { ascending: false })], and [error] the [code]
    of the error the database answers the query with, when it answers
    with one instead of the rows. *)
Definition getRoosters (order : list RoosterRow -> list RoosterRow)
    (store : RoosterStore) (error : option string) (authorization : option string)
  : Response :=
  let userId := Auth.getUserIdFromAuth authorization in
  match error with
  | Some code => status_json 500 (apiError "Failed to fetch roosters")
  | None =>
      let roosters :=
        order (List.filter (fun row => String.eqb (user_id (data row)) userId)
                 (roosters store)) in
      json (apiResponse (JArr (List.map mappedRooster roosters)))
  end.

(** [x || null] on a field that is a string when it is there *)
Definition text_or_null (x : option string) : option string :=
  match x with
  | Some s => if truthy (JStr s) then Some s else None
  | None => None
  end.

Definition roosterData (userId : string) (body : CreateRoosterRequest) : RoosterData :=
  {| user_id := userId;
     name := Reports.trim (default "" (Request.name body));
     breed := Reports.trimmed_or_null (Request.breed body);
     age_months := or (Request.ageMonths body) JNull;
     weight_grams := or (Request.weightGrams body) JNull;
     color := Reports.trimmed_or_null (Request.color body);
     gender := Reports.trimmed_or_null (Request.gender body);
     registration_number := Reports.trimmed_or_null (Request.registrationNumber body);
     bloodline := Reports.trimmed_or_null (Request.bloodline body);
     birth_date := text_or_null (Request.birthDate body);
     acquisition_date := text_or_null (Request.acquisitionDate body);
     status := default "active" (Reports.trimmed_or_null (Request.status body));
     notes := Reports.trimmed_or_null (Request.notes body);
     avatar_image_url := Reports.trimmed_or_null (Request.avatarImageUrl body) |}.

Definition createRooster (store : RoosterStore) (authorization : option string)
    (body : CreateRoosterRequest) : Response * RoosterStore :=
  let userId := Auth.getUserIdFromAuth authorization in
  if negb (truthy (of_str (option_map Reports.trim (Request.name body)))) then
    (status_json 400 (apiError "Name is required"), store)
  else
    let roosterData := roosterData userId body in
    if accepts store roosterData then
      let rooster := {| data := roosterData; generated := generate store roosterData |} in
      (status_json 201 (apiResponse (mappedRooster rooster)),
       {| roosters := (roosters store ++ [rooster])%list;
          accepts := accepts store; generate := generate store;
          restricted := restricted store |})
    else (status_json 500 (apiError "Failed to create rooster"), store).

(** [if (x?.trim()) updateData.column = x.trim()] *)
Definition set_trimmed (column : string) (x : option string)
    (updateData : list (string * JsValue)) : list (string * JsValue) :=
  match Reports.trimmed_or_null x with
  | Some s => Json.put column (JStr s) updateData
  | None => updateData
  end.

(** [if (x !== undefined) updateData.column = x] *)
Definition set_defined (column : string) (x : JsValue)
    (updateData : list (string * JsValue)) : list (string * JsValue) :=
  match x with
  | JUndefined => updateData
  | _ => Json.put column x updateData
  end.

(** [if (x) updateData.column = x] *)
Definition set_truthy (column : string) (x : option string)
    (updateData : list (string * JsValue)) : list (string * JsValue) :=
  match text_or_null x with
  | Some s => Json.put column (JStr s) updateData
  | None => updateData
  end.

(** The object [updateRooster] hands to [.update(...)]. *)
Definition updateData (body : UpdateRoosterRequest) : list (string * JsValue) :=
  let u := [] in
  let u := set_trimmed "name" (Request.name body) u in
  let u := set_trimmed "breed" (Request.breed body) u in
  let u := set_defined "age_months" (Request.ageMonths body) u in
  let u := set_defined "weight_grams" (Request.weightGrams body) u in
  let u := set_trimmed "color" (Request.color body) u in
  let u := set_trimmed "gender" (Request.gender body) u in
  let u := set_trimmed "registration_number" (Request.registrationNumber body) u in
  let u := set_trimmed "bloodline" (Request.bloodline body) u in
  let u := set_truthy "birth_date" (Request.birthDate body) u in
  let u := set_truthy "acquisition_date" (Request.acquisitionDate body) u in
  let u := set_trimmed "status" (Request.status body) u in
  let u := set_trimmed "notes" (Request.notes body) u in
  set_trimmed "avatar_image_url" (Request.avatarImageUrl body) u.

(** [deleteRooster]: [.delete().eq('id', id).eq('user_id', userId)] takes
    the matching rows away, reports no error when there is none, and
    fails as a whole when the database keeps one of them. *)
Definition deleteRooster (store : RoosterStore) (authorization : option string)
    (id_ : string) : Response * RoosterStore :=
  let userId := Auth.getUserIdFromAuth authorization in
  let matches (row : RoosterRow) :=
    String.eqb (id (generated row)) id_ && String.eqb (user_id (data row)) userId in
  if existsb (restricted store) (List.filter matches (roosters store)) then
    (status_json 500 (apiError "Failed to delete rooster"), store)
  else
    (json (apiResponse (JObj [("deleted", JBool true)])),
     {| roosters := List.filter (fun row => negb (matches row)) (roosters store);
        accepts := accepts store; generate := generate store;
        restricted := restricted store |}).

End Roosters.

(** ** [analyzePoseForInjuries] of [server/routes/pose] *)

Module PoseAnalysis.

Record PoseKeypoint : Type := { name : string; x : Q; y : Q; confidence : Q }.

Record InjuryAnalysis : Type := {
  risk_level : string;
  detected_issues : list string;
  recommendations : list string
}.

(** [a > b] on numbers, which are doubles *)
Definition gt (a b : Q) : bool := negb (Qle_bool (Js.double a) (Js.double b)).

(** [s.includes(t)] *)
Fixpoint includes (s t : string) : bool :=
  String.prefix t s
  || match s with
     | EmptyString => false
     | String _ r => includes r t
     end.

(** [names.join(sep)] *)
Fixpoint join (sep : string) (names : list string) : string :=
  match names with
  | [] => ""
  | [n] => n
  | n :: rest => n +:+ sep +:+ join sep rest
  end.

Definition criticalPoints : list string := ["eye"; "beak_tip"; "left_foot"; "right_foot"].

Section Math.

(** [Math.atan2] and [Math.PI] of the runtime. *)
Variable Math_atan2 : Q -> Q -> Q.
Variable Math_PI : Q.

Definition analyzePoseForInjuries (keypoints : list PoseKeypoint) : InjuryAnalysis :=
  let issues : list string := [] in
  let recommendations : list string := [] in
  let riskLevel := "low" in
  let missingCritical :=
    List.filter
      (fun name_ =>
         negb (existsb (fun kp => String.eqb (name kp) name_ && gt (confidence kp) (5 # 10))
                 keypoints))
      criticalPoints in
  let '(issues, riskLevel) :=
    if Nat.ltb 0 (length missingCritical) then
      ((issues ++ ["Unable to detect critical body parts: " +:+ join ", " missingCritical])%list,
       "medium")
    else (issues, riskLevel) in
  let leftWing := List.filter (fun kp => includes (name kp) "left_wing") keypoints in
  let rightWing := List.filter (fun kp => includes (name kp) "right_wing") keypoints in
  let '(issues, recommendations, riskLevel) :=
    if negb (Nat.eqb (length leftWing) (length rightWing)) then
      ((issues ++ ["Wing asymmetry detected - possible wing injury"])%list,
       (recommendations ++ ["Examine wings for injuries or deformities"])%list,
       "high")
    else (issues, recommendations, riskLevel) in
  let leftFoot := List.find (fun kp => String.eqb (name kp) "left_foot") keypoints in
  let rightFoot := List.find (fun kp => String.eqb (name kp) "right_foot") keypoints in
  let '(issues, recommendations, riskLevel) :=
    match leftFoot, rightFoot with
    | Some leftFoot, Some rightFoot =>
        let footDistance := Qabs (y leftFoot - y rightFoot) in
        if gt footDistance 50 then
          ((issues ++ ["Uneven leg positioning detected"])%list,
           (recommendations ++ ["Check for leg injuries or lameness"])%list,
           if String.eqb riskLevel "low" then "medium" else riskLevel)
        else (issues, recommendations, riskLevel)
    | _, _ => (issues, recommendations, riskLevel)
    end in
  let eye := List.find (fun kp => String.eqb (name kp) "eye") keypoints in
  let beak := List.find (fun kp => String.eqb (name kp) "beak_tip") keypoints in
  let '(issues, recommendations, riskLevel) :=
    match eye, beak with
    | Some eye, Some beak =>
        let headAngle := (Math_atan2 (y beak - y eye) (x beak - x eye) * 180 / Math_PI)%Q in
        if gt (Qabs headAngle) 45 then
          ((issues ++ ["Abnormal head positioning detected"])%list,
           (recommendations ++ ["Monitor for neurological issues or neck injuries"])%list,
           "medium")
        else (issues, recommendations, riskLevel)
    | _, _ => (issues, recommendations, riskLevel)
    end in
  let recommendations :=
    if Nat.eqb (length issues) 0 then
      (recommendations ++ ["Rooster appears healthy based on pose analysis";
                           "Continue regular health monitoring"])%list
    else
      (recommendations ++ ["Consult with veterinarian for detailed examination";
                           "Monitor rooster behavior and movement patterns"])%list in
  {| risk_level := riskLevel; detected_issues := issues; recommendations := recommendations |}.

End Math.

End PoseAnalysis.

(** ** The CORS middleware of [createServer] *)

Module Cors.

(** [s.startsWith(p)] *)
Fixpoint startsWith (s p : string) : bool :=
  match p, s with
  | EmptyString, _ => true
  | String a p', String b s' => Ascii.eqb a b && startsWith s' p'
  | String _ _, EmptyString => false
  end.

(** [/ngrok-free\.dev$/.test(s)]: some suffix of [s] is the text. *)
Fixpoint ends_with (suffix s : string) : bool :=
  String.eqb s suffix
  || match s with
     | String _ r => ends_with suffix r
     | EmptyString => false
     end.

(** A line terminator, which [.] does not match; an [Origin] header has
    one character for each byte. *)
Definition line_terminator (c : ascii) : bool := Ascii.eqb c "010" || Ascii.eqb c "013".

(** [.*-josh-lacags-projects\.vercel\.app$] from the start of [s] *)
Fixpoint any_then_projects (s : string) : bool :=
  String.eqb s "-josh-lacags-projects.vercel.app"
  || match s with
     | String c r => negb (line_terminator c) && any_then_projects r
     | EmptyString => false
     end.

(** What follows [p] at the start of [s], when [s] starts with [p]. *)
Fixpoint after (p s : string) : option string :=
  match p, s with
  | EmptyString, _ => Some s
  | String a p', String b s' => if Ascii.eqb a b then after p' s' else None
  | String _ _, EmptyString => None
  end.

(** [/rooster-scan-.*-josh-lacags-projects\.vercel\.app$/.test(s)] *)
Fixpoint preview_deployment (s : string) : bool :=
  match after "rooster-scan-" s with
  | Some rest => any_then_projects rest
  | None => false
  end
  || match s with
     | String _ r => preview_deployment r
     | EmptyString => false
     end.

Inductive Allowed : Type :=
| Exactly (origin : string)
| Matching (test : string -> bool).

Definition allowedOrigins : list Allowed :=
  [Exactly "http://localhost:5173";
   Exactly "http://localhost:8080";
   Exactly "https://rooster-scan.vercel.app";
   Exactly "https://rooster-scan-git-main-josh-lacags-projects.vercel.app";
   Exactly "https://rooster-scan-fej9guyqx-josh-lacags-projects.vercel.app";
   Matching preview_deployment;
   Matching (ends_with "ngrok-free.dev")].

(** What the middleware does with the request: it ends it with a status,
    or hands it on. *)
Inductive Step : Type :=
| End_ (status : nat)
| Next.

(** The middleware, on [req.headers.origin] and [req.method]: the
    headers it sets, in order, and what it does then. *)
Definition cors (origin_header : option string) (method : string)
  : list (string * string) * Step :=
  let origin := default "" origin_header in
  let allow_origin :=
    if existsb (fun o => match o with
                         | Matching test => test origin
                         | Exactly o => String.eqb o origin
                         end) allowedOrigins
    then [("Access-Control-Allow-Origin", origin)] else [] in
  let headers :=
    (allow_origin ++
       [("Access-Control-Allow-Methods", "GET, POST, PUT, DELETE, OPTIONS");
        ("Access-Control-Allow-Headers",
         "Content-Type, Authorization, ngrok-skip-browser-warning");
        ("Access-Control-Allow-Credentials", "true")])%list in
  if String.eqb method "OPTIONS" then (headers, End_ 200) else (headers, Next).

End Cors.

(** ** [server/routes/auth] and the routes behind it *)

Module AuthRoutes.

Import Js.
Import Http.

Section Jwt.

(** [jwt.verify(token, JWT_SECRET)], with the secret the server was
    started with. *)
Variable jwt_verify : string -> Completion JsValue.

Definition getSession (authHeader : option string) : Response :=
  let nobody := json (JObj [("user", JNull)]) in
  match authHeader with
  | Some h =>
      if negb (Cors.startsWith h "Bearer ") then nobody
      else
        let token := Auth.substring 7 h in
        match decoded ← jwt_verify token; get decoded "email" with
        | Normal email => json (JObj [("user", JObj [("email", email)])])
        | Throw error => nobody
        end
  | None => nobody
  end.

(** [requireAuth]: the answer it ends the request with, or the user it
    attaches before calling [next()]. *)
Definition requireAuth (authHeader : option string) : Response + JsValue :=
  match authHeader with
  | Some h =>
      if negb (Cors.startsWith h "Bearer ") then
        inl (status_json 401
               (JObj [("error", JStr "Authentication required. Provide Bearer token.");
                      ("success", JBool false)]))
      else
        let token := Auth.substring 7 h in
        match decoded ← jwt_verify token;
              sub ← get decoded "sub";
              email ← get decoded "email";
              Normal (JObj [("id", sub); ("email", email)]) with
        | Normal user => inr user
        | Throw error =>
            inl (status_json 401
                   (JObj [("error", JStr "Invalid or expired token.");
                          ("success", JBool false)]))
        end
  | None =>
      inl (status_json 401
             (JObj [("error", JStr "Authentication required. Provide Bearer token.");
                    ("success", JBool false)]))
  end.

(** [app.post("/api/reports", requireAuth, createReport)] *)
Definition post_reports (db : Reports.Database) (authorization : option string)
    (body : Reports.CreateReportRequest) : Response * Reports.Database :=
  match requireAuth authorization with
  | inl rejected => (rejected, db)
  | inr user => Reports.createReport db authorization body
  end.

(** [app.post("/api/scans", requireAuth, createScan)] *)
Definition post_scans (store : ScanRoutes.ScanStore) (authorization : option string)
    (body : ScanRoutes.CreateScanRequest) : Response * ScanRoutes.ScanStore :=
  match requireAuth authorization with
  | inl rejected => (rejected, store)
  | inr user => ScanRoutes.createScan store authorization body
  end.

(** [app.post("/api/roosters", requireAuth, createRooster)] *)
Definition post_roosters (store : Roosters.RoosterStore) (authorization : option string)
    (body : Roosters.CreateRoosterRequest) : Response * Roosters.RoosterStore :=
  match requireAuth authorization with
  | inl rejected => (rejected, store)
  | inr user => Roosters.createRooster store authorization body
  end.

End Jwt.

End AuthRoutes.

(** ** [uploadImage] of [server/routes/upload] *)

Module Upload.

Import Js.
Import Http.

(** [req.file], as multer's memory storage leaves it. *)
Record File : Type := { originalname : string; mimetype : string; buffer : string }.

(** [s.split('.')] *)
Fixpoint split_dot (s : string) : list string :=
  match s with
  | EmptyString => [""]
  | String c r =>
      if Ascii.eqb c "." then "" :: split_dot r
      else match split_dot r with
           | segment :: rest => String c segment :: rest
           | [] => [String c ""]
           end
  end.

(** [segments.pop()] of an array that is not empty *)
Definition pop (segments : list string) : string := List.last segments "".

(** The [images] bucket is a map from paths to objects, each with its
    bytes and its content type. *)

Section Handler.

(** [uuidv4()] for this request, the bucket's [getPublicUrl], and the
    objects the bucket takes (its limits on size and content type). *)
Variable uuid : string.
Variable getPublicUrl : string -> string.
Variable takes : string -> string -> bool.

(** [.upload(filePath, buffer, { contentType, upsert: false })]: refused
    when the path is taken or the bucket does not take the object. *)
Definition upload (bucket : gmap string (string * string)) (filePath buffer contentType : string)
  : option (gmap string (string * string)) :=
  match bucket !! filePath with
  | Some _ => None
  | None =>
      if takes buffer contentType
      then Some (<[filePath := (buffer, contentType)]> bucket)
      else None
  end.

Definition filePath (file : File) : string :=
  let fileExt := pop (split_dot (originalname file)) in
  let fileName := uuid +:+ "." +:+ fileExt in
  "roosters/" +:+ fileName.

Definition uploadImage (bucket : gmap string (string * string)) (file : option File)
  : Response * gmap string (string * string) :=
  match file with
  | None => (status_json 400 (JObj [("error", JStr "No file provided");
                                    ("success", JBool false)]), bucket)
  | Some file =>
      match upload bucket (filePath file) (buffer file) (mimetype file) with
      | None => (status_json 500 (JObj [("error", JStr "Failed to upload image");
                                        ("success", JBool false)]), bucket)
      | Some bucket' =>
          (json (JObj [("data", JObj [("url", JStr (getPublicUrl (filePath file)))]);
                       ("success", JBool true)]), bucket')
      end
  end.

End Handler.

End Upload.

(** ** [server/routes/education] *)

Module Education.

Import Js.
Import Http.

(** The [category] of [EducationalContent]. *)
Inductive Category : Type :=
| anatomy | injury_prevention | treatment | breeding | general.

#[global] Instance category_eq_dec : EqDecision Category.
Proof. solve_decision. Defined.

Definition category_code (c : Category) : nat :=
  match c with
  | anatomy => 0 | injury_prevention => 1 | treatment => 2 | breeding => 3 | general => 4
  end.

Definition category_of_code (n : nat) : Category :=
  match n with
  | 0 => anatomy | 1 => injury_prevention | 2 => treatment | 3 => breeding | _ => general
  end.

#[global] Instance category_countable : Countable Category :=
  inj_countable' category_code category_of_code
    (fun c => match c with
              | anatomy | injury_prevention | treatment | breeding | general => eq_refl
              end).

(** The columns of [educational_content] the handlers read, and the rest
    as it is passed on. *)
Record Content : Type := {
  id : string;
  category : Category;
  is_published : bool;
  view_count : option Q;
  columns : list (string * JsValue)
}.

(** The reducer of [/meta/categories]:
    [acc[item.category] = (acc[item.category] || 0) + 1]. *)
Definition count_category (acc : gmap Category nat) (item : Content) : gmap Category nat :=
  <[category item := default 0 (acc !! category item) + 1]> acc.

Definition categoryCounts (categories : list Content) : gmap Category nat :=
  foldl count_category ∅ categories.

Definition category_name (c : Category) : string :=
  match c with
  | anatomy => "anatomy"
  | injury_prevention => "injury_prevention"
  | treatment => "treatment"
  | breeding => "breeding"
  | general => "general"
  end.

(** A row as the database returns it. *)
Definition row (content : Content) : JsValue :=
  JObj (("id", JStr (id content))
        :: ("category", JStr (category_name (category content)))
        :: ("is_published", JBool (is_published content))
        :: ("view_count", of_num (view_count content))
        :: columns content).

(** [.update({ view_count }).eq('id', id)] *)
Definition set_view_count (id_ : string) (count : Q) (table : list Content) : list Content :=
  List.map (fun content =>
              if String.eqb (id content) id_
              then {| id := id content; category := category content;
                      is_published := is_published content;
                      view_count := Some count; columns := columns content |}
              else content) table.

(** [GET /api/education/:id].  [error] is the [code] of the error the
    database answers the select with, when it does; [.single()] makes one
    of its own, [PGRST116], unless exactly one row matches.  [counted]
    says whether the update of [view_count] went through: the handler
    awaits it and does not look at its outcome. *)
Definition getContent (table : list Content) (error : option string) (counted : bool)
    (id_ : string) : Response * list Content :=
  let missing :=
    status_json 404 (JObj [("error", JStr "Educational content not found");
                           ("success", JBool false)]) in
  let failed :=
    status_json 500 (JObj [("error", JStr "Failed to fetch educational content");
                           ("success", JBool false)]) in
  match error with
  | Some code => if String.eqb code "PGRST116" then (missing, table) else (failed, table)
  | None =>
      match List.filter (fun content => String.eqb (id content) id_ && is_published content)
              table with
      | [content] =>
          (json (JObj [("data", row content); ("success", JBool true)]),
           if counted
           then set_view_count id_
                  (default 0%Q (Reports.number_or_null (view_count content)) + 1)%Q table
           else table)
      | _ => (missing, table)
      end
  end.

End Education.

(** * Properties *)

Import Js.

(** ** What the properties speak of *)

(** [c] occurs in [s]. *)
Fixpoint occurs (c : ascii) (s : string) : bool :=
  match s with
  | EmptyString => false
  | String c' r => Ascii.eqb c' c || occurs c r
  end.

(** [t] is a substring of [s]. *)
Definition contains (s t : string) : Prop := exists a b, s = a +:+ t +:+ b.

(** [s] has an opening brace with a closing brace somewhere after it. *)
Definition has_braces (s : string) : Prop :=
  exists a b c, s = a +:+ String "{" b +:+ String "}" c.

(** Both models and the analysis script are on disk. *)
Definition deployed (path_join : string -> string -> string) (dirname : string)
    (disk : gset string) : Prop :=
  Pose.modelPath path_join dirname ∈ disk
  /\ Pose.bumblefootModelPath path_join dirname ∈ disk
  /\ Pose.sequentialScriptPath path_join dirname ∈ disk.

(** How often [fs.unlinkSync(path)] was called, and how many processes
    were spawned. *)
Definition unlinks (path : string) (effects : list Pose.Effect) : nat :=
  length (List.filter (fun e => match e with
                                | Pose.Unlink p => String.eqb p path
                                | Pose.Spawn _ _ => false
                                end) effects).

Definition spawns (effects : list Pose.Effect) : nat :=
  length (List.filter (fun e => match e with
                                | Pose.Spawn _ _ => true
                                | Pose.Unlink _ => false
                                end) effects).

(** [injury_analysis.risk_level] of a response body. *)
Definition risk_level (body : JsValue) : JsValue :=
  get_opt (get_opt body "injury_analysis") "risk_level".

(** An installation to run the handler on. *)
Definition app_dir : string := "/app/dist/server/routes".
Definition upload : string := "uploads/image-1700000000000.jpg".

Definition bare_disk : gset string := {[ upload ]}.

Definition pose_only_disk : gset string :=
  {[ upload; Pose.modelPath Pose.join app_dir ]}.

Definition deployed_disk : gset string :=
  {[ upload; Pose.modelPath Pose.join app_dir;
     Pose.bumblefootModelPath Pose.join app_dir;
     Pose.sequentialScriptPath Pose.join app_dir ]}.



(** [inj.severity === 'severe'] on an entry that is not [null]. *)
Definition severe (inj : JsValue) : bool := is_str (get_opt inj "severity") "severe".

(** The analysis confidence as the comparison sees it: [null] is 0. *)
Definition confidence (scan : Scans.ScanRow) : Q :=
  default 0%Q (Scans.analysis_confidence scan).

(** A field of a request body is there and not empty. *)
Definition provided (x : option string) : Prop := exists s, x = Some s /\ s <> "".

(** [db] has a scan [scanId] that belongs to [userId]. *)
Definition owned (db : Reports.Database) (scanId userId : string) : Prop :=
  exists scan, In scan (Reports.scans db)
    /\ Scans.id scan = scanId /\ Scans.user_id scan = userId.

(** Rows to run the mappers and [createReport] on. *)
Definition scan_row (id user_id : string) (injury_detections : JsValue)
    (analysis_confidence : option Q) : Scans.ScanRow :=
  {| Scans.id := id; Scans.rooster_id := JNull; Scans.user_id := user_id;
     Scans.session_name := JNull; Scans.scan_type := JStr "live_video";
     Scans.duration_seconds := JNull; Scans.video_url := JNull;
     Scans.thumbnail_url := JNull; Scans.status := JStr "completed";
     Scans.pose_data := JObj [("health_assessment", JStr "bumblefoot")];
     Scans.injury_detections := injury_detections;
     Scans.analysis_confidence := analysis_confidence;
     Scans.fps := JNum 30; Scans.resolution := JStr "640x480";
     Scans.camera_settings := JNull; Scans.processing_time_ms := JNum 2500;
     Scans.model_version := JStr "YOLO-v8-Sequential-1.0"; Scans.notes := JNull;
     Scans.created_at := JStr "2025-01-01T00:00:00Z";
     Scans.updated_at := JStr "2025-01-01T00:00:00Z" |}.

Definition placeholder : string := "00000000-0000-0000-0000-000000000001".
Definition somebody_else : string := "11111111-1111-1111-1111-111111111111".

Definition severe_scan : Scans.ScanRow :=
  scan_row "scan-1" placeholder
    (JArr [JObj [("type", JStr "bumblefoot"); ("severity", JStr "severe")];
           JObj [("type", JStr "classification_result"); ("confidence", JNum (3 # 10))]])
    (Some (3 # 10)).

Definition mild_scan : Scans.ScanRow :=
  scan_row "scan-3" placeholder
    (JArr [JObj [("type", JStr "limp"); ("severity", JStr "mild")]]) (Some (9 # 10)).

Definition foreign_scan : Scans.ScanRow :=
  scan_row "scan-2" somebody_else (JArr []) (Some (9 # 10)).

Definition example_db : Reports.Database :=
  {| Reports.scans := [severe_scan; foreign_scan];
     Reports.health_reports := [];
     Reports.accepts := fun _ => true;
     Reports.generate := fun _ =>
       {| Reports.id := "report-1"; Reports.pdf_url := JNull; Reports.images := JNull;
          Reports.created_at := "2025-01-02T00:00:00Z";
          Reports.updated_at := "2025-01-02T00:00:00Z" |} |}.

Definition report_request (scanId roosterId title : option string)
  : Reports.CreateReportRequest :=
  {| Reports.Request.scanId := scanId; Reports.Request.roosterId := roosterId;
     Reports.Request.title := title; Reports.Request.summary := None;
     Reports.Request.detailedAnalysis := None; Reports.Request.recommendations := None;
     Reports.Request.overallHealthScore := None; Reports.Request.mobilityScore := None;
     Reports.Request.postureScore := None; Reports.Request.reportType := None |}.

(** A row of [health_reports] as [createReport] writes them: it names a
    scan and a rooster, belongs to the placeholder user, is a draft, and
    its texts are trimmed and not empty (the optional ones are [null]
    otherwise). *)
Definition trimmed (s : string) : Prop := s <> "" /\ Reports.trim s = s.

Definition optional_trimmed (x : option string) : Prop :=
  forall s, x = Some s -> trimmed s.

Definition well_formed_report (report : Reports.ReportRow) : Prop :=
  let d := Reports.data report in
  Reports.scan_id d <> "" /\ Reports.rooster_id d <> ""
  /\ Reports.user_id d = "00000000-0000-0000-0000-000000000001"
  /\ trimmed (Reports.title d)
  /\ optional_trimmed (Reports.summary d)
  /\ optional_trimmed (Reports.detailed_analysis d)
  /\ optional_trimmed (Reports.recommendations d)
  /\ Reports.report_type d <> ""
  /\ Reports.status d = "draft".

(** [null] or [undefined]: what a property cannot be read of. *)
Definition nullish (v : JsValue) : bool :=
  match v with
  | JNull | JUndefined => true
  | _ => false
  end.

(** A scan row whose [injury_detections] is an array with a [null] or
    [undefined] entry. *)
Definition has_null_injury (scan : Scans.ScanRow) : bool :=
  isArray (Scans.injury_detections scan)
  && existsb nullish (elements (Scans.injury_detections scan)).

(** A [scans] table for the examples: it takes every row and keeps the
    number it is given. *)
Definition example_store : ScanRoutes.ScanStore :=
  {| ScanRoutes.scans := [severe_scan; foreign_scan];
     ScanRoutes.accepts := fun _ => true;
     ScanRoutes.generate := fun _ =>
       {| ScanRoutes.id := "scan-9"; ScanRoutes.session_name := JNull;
          ScanRoutes.scan_type := JStr "live_video"; ScanRoutes.video_url := JNull;
          ScanRoutes.thumbnail_url := JNull; ScanRoutes.camera_settings := JNull;
          ScanRoutes.created_at := JStr "2025-01-03T00:00:00Z";
          ScanRoutes.updated_at := JStr "2025-01-03T00:00:00Z" |};
     ScanRoutes.numeric := fun v => match v with JNum q => Some q | _ => None end |}.

Definition scan_request (results : JsValue) (injuries : option (list string))
  : ScanRoutes.CreateScanRequest :=
  {| ScanRoutes.Request.roosterId := Some "rooster-1";
     ScanRoutes.Request.results := results;
     ScanRoutes.Request.injuries := injuries;
     ScanRoutes.Request.notes := Some "  after the fight ";
     ScanRoutes.Request.duration := None |}.

Definition bumblefoot_results : JsValue :=
  JObj [("posture", JStr "abnormal"); ("pose_confidence", JNum (9 # 10));
        ("analysis_type", JStr "sequential_validation");
        ("health_assessment", JStr "bumblefoot");
        ("injury_classification",
           JObj [("classification", JStr "bumblefoot"); ("confidence", JNum (97 # 100))])].

Definition broken_scan : Scans.ScanRow :=
  scan_row "scan-4" placeholder (JArr [JObj [("type", JStr "limp")]; JNull]) (Some (9 # 10)).

(** A [roosters] table and requests for the examples. *)
Definition rooster_request (name : option string) (breed notes : option string)
  : Roosters.CreateRoosterRequest :=
  {| Roosters.Request.name := name; Roosters.Request.breed := breed;
     Roosters.Request.ageMonths := JNum 14; Roosters.Request.weightGrams := JUndefined;
     Roosters.Request.color := None; Roosters.Request.gender := None;
     Roosters.Request.registrationNumber := None; Roosters.Request.bloodline := None;
     Roosters.Request.birthDate := None; Roosters.Request.acquisitionDate := None;
     Roosters.Request.status := None; Roosters.Request.notes := notes;
     Roosters.Request.avatarImageUrl := None |}.

Definition rooster_row (id user_id name : string) : Roosters.RoosterRow :=
  {| Roosters.data :=
       Roosters.roosterData user_id (rooster_request (Some name) None None);
     Roosters.generated :=
       {| Roosters.id := id; Roosters.created_at := "2025-01-01T00:00:00Z";
          Roosters.updated_at := "2025-01-01T00:00:00Z" |} |}.

Definition example_roosters : Roosters.RoosterStore :=
  {| Roosters.roosters := [rooster_row "rooster-1" placeholder "Red";
                           rooster_row "rooster-2" somebody_else "Blue"];
     Roosters.accepts := fun _ => true;
     Roosters.generate := fun _ =>
       {| Roosters.id := "rooster-3"; Roosters.created_at := "2025-01-04T00:00:00Z";
          Roosters.updated_at := "2025-01-04T00:00:00Z" |};
     Roosters.restricted := fun _ => false |}.



(** The id of a mapped rooster or scan. *)
Definition id_of (mapped : JsValue) : JsValue := get_opt mapped "id".

(** A [jwt.verify] for the examples: it accepts one token, for a user of
    its own. *)
Definition example_verify (token : string) : Completion JsValue :=
  if String.eqb token "good-token"
  then Normal (JObj [("sub", JStr somebody_else); ("email", JStr "ana@example.org")])
  else Throw (Error "invalid signature").

(** Blank text that is not ASCII: a no-break space (U+00A0), a line
    separator (U+2028) and a byte order mark (U+FEFF), in UTF-8. *)
Definition blank : string :=
  String "194" (String "160"
    (String "226" (String "128" (String "168"
      (String "239" (String "187" (String "191" ""))))))).

(** The report of a script that found no rooster. *)
Definition failed_report : string :=
  "{" +:+ Json.quoted "success" +:+ ": false, "
      +:+ Json.quoted "error" +:+ ": " +:+ Json.quoted "No rooster detected" +:+ "}".

(** What the columns of an update hold: a text column is absent or a
    trimmed, non-empty string; the columns that identify the row are
    absent. *)
Definition text_columns : list string :=
  ["name"; "breed"; "color"; "gender"; "registration_number"; "bloodline"; "status";
   "notes"; "avatar_image_url"].

Definition key_columns : list string := ["id"; "user_id"; "created_at"; "updated_at"].

Definition settled (u : list (string * JsValue)) : Prop :=
  (forall k, In k text_columns ->
     assoc k u = JUndefined \/ exists s, assoc k u = JStr s /\ trimmed s)
  /\ (forall k, In k key_columns -> assoc k u = JUndefined).

(** The analysis is settled by four findings: the message on missing
    critical points (if any), and whether the wings, the feet and the head
    are found abnormal. *)
Definition findings (missing : option string) (wing foot head : bool)
  : PoseAnalysis.InjuryAnalysis :=
  let issues :=
    ((match missing with Some m => [m] | None => [] end)
     ++ (if wing then ["Wing asymmetry detected - possible wing injury"] else [])
     ++ (if foot then ["Uneven leg positioning detected"] else [])
     ++ (if head then ["Abnormal head positioning detected"] else []))%list in
  {| PoseAnalysis.risk_level :=
       if head then "medium"
       else if wing then "high"
       else if foot then "medium"
       else match missing with Some _ => "medium" | None => "low" end;
     PoseAnalysis.detected_issues := issues;
     PoseAnalysis.recommendations :=
       ((if wing then ["Examine wings for injuries or deformities"] else [])
        ++ (if foot then ["Check for leg injuries or lameness"] else [])
        ++ (if head then ["Monitor for neurological issues or neck injuries"] else [])
        ++ (match issues with
            | [] => ["Rooster appears healthy based on pose analysis";
                     "Continue regular health monitoring"]
            | _ => ["Consult with veterinarian for detailed examination";
                    "Monitor rooster behavior and movement patterns"]
            end))%list |}.

(** The published rows of an id: what the select of
    [GET /api/education/:id] matches. *)
Definition published (id : string) (table : list Education.Content)
  : list Education.Content :=
  List.filter (fun content => String.eqb (Education.id content) id
                              && Education.is_published content) table.

(** A table of articles for the examples: one published, never viewed,
    and a draft. *)
Definition example_content : list Education.Content :=
  [{| Education.id := "article-1"; Education.category := Education.anatomy;
      Education.is_published := true; Education.view_count := None;
      Education.columns := [("title", JStr "The comb")] |};
   {| Education.id := "article-2"; Education.category := Education.treatment;
      Education.is_published := false; Education.view_count := Some 3%Q;
      Education.columns := [("title", JStr "Bumblefoot")] |}].

(** The rows of a category. *)
Definition in_category (c : Education.Category) (rows : list Education.Content)
  : list Education.Content :=
  List.filter (fun item => bool_decide (Education.category item = c)) rows.

(** ** Strings *)

#[local] Arguments String.append !_ _ / : simpl nomatch.
#[local] Arguments Ascii.eqb : simpl never.
#[local] Arguments Reports.is_space : simpl never.
#[local] Arguments Reports.is_space2 : simpl never.
#[local] Arguments Reports.is_space3 : simpl never.
#[local] Arguments Js.double : simpl never.

Lemma append_assoc (a b c : string) : (a +:+ b) +:+ c = a +:+ (b +:+ c).
Proof. induction a as [|x a IH]; simpl; [reflexivity | now rewrite IH]. Qed.

Lemma contains_suffix (a t : string) : contains (a +:+ t) t.
Proof.
  exists a, "". f_equal. induction t as [|x t IH]; simpl; [reflexivity | now rewrite <- IH].
Qed.

Lemma contains_append (a s t : string) : contains s t -> contains (a +:+ s) t.
Proof. intros (u & v & ->). exists (a +:+ u), v. now rewrite append_assoc. Qed.

(** ** The identity *)

(** C10: [getUserIdFromAuth] returns the placeholder whatever the
    [Authorization] header is (absent, malformed or a bearer token), so any
    two headers resolve to the same user and [createReport] answers the
    same way under both. *)
Theorem getUserIdFromAuth_constant :
  (forall authHeader : option string,
     Auth.getUserIdFromAuth authHeader = "00000000-0000-0000-0000-000000000001")
  /\ (forall h1 h2 : option string,
        Auth.getUserIdFromAuth h1 = Auth.getUserIdFromAuth h2)
  /\ (forall db (h1 h2 : option string) body,
        Reports.createReport db h1 body = Reports.createReport db h2 body).
Proof.
  assert (K : forall h, Auth.getUserIdFromAuth h = "00000000-0000-0000-0000-000000000001").
  { intros [h|]; [|reflexivity]. unfold Auth.getUserIdFromAuth.
    now destruct (negb _ || negb _). }
  split; [exact K|]. split.
  - intros h1 h2. now rewrite !K.
  - intros db h1 h2 body. unfold Reports.createReport, Reports.createReport_try.
    now rewrite !K.
Qed.

(** ** The regular expression *)

Lemma upto_last_close_absent (s : string) :
  occurs "}" s = false -> Pose.upto_last_close s = None.
Proof.
  induction s as [|c r IH]; simpl; [reflexivity|].
  intros H. apply orb_false_iff in H as [Hc Hr].
  now rewrite (IH Hr), Hc.
Qed.

Lemma upto_last_close_prefix (s m : string) :
  Pose.upto_last_close s = Some m -> exists b c, m = b +:+ "}" /\ s = m +:+ c.
Proof.
  revert m. induction s as [|x r IH]; simpl; intros m H; [discriminate|].
  destruct (Pose.upto_last_close r) as [m'|] eqn:E.
  - injection H as <-. destruct (IH m' eq_refl) as (b & c & -> & ->).
    exists (String x b), c. split; reflexivity.
  - destruct (Ascii.eqb x "}") eqn:Ex; [|discriminate].
    apply Ascii.eqb_eq in Ex as ->. injection H as <-.
    exists "", r. split; reflexivity.
Qed.

Lemma upto_last_close_last (mid post : string) :
  occurs "}" post = false ->
  Pose.upto_last_close (mid +:+ String "}" post) = Some (mid +:+ "}").
Proof.
  intros H. induction mid as [|x mid IH]; simpl.
  - now rewrite (upto_last_close_absent post H).
  - now rewrite IH.
Qed.

Lemma jsonMatch_skip (pre s : string) :
  occurs "{" pre = false -> Pose.jsonMatch (pre +:+ s) = Pose.jsonMatch s.
Proof.
  induction pre as [|x pre IH]; simpl; [reflexivity|].
  intros H. apply orb_false_iff in H as [Hx Hpre].
  rewrite Hx. now apply IH.
Qed.

(** A match is a brace-delimited piece of the output. *)
Lemma jsonMatch_Some (s m : string) :
  Pose.jsonMatch s = Some m ->
  exists a b c, m = String "{" (b +:+ "}") /\ s = a +:+ m +:+ c.
Proof.
  revert m. induction s as [|x r IH]; simpl; intros m H; [discriminate|].
  assert (K : Pose.jsonMatch r = Some m ->
              exists a b c, m = String "{" (b +:+ "}") /\ String x r = a +:+ m +:+ c).
  { intros Hr. destruct (IH m Hr) as (a & b & c & Hm & ->).
    exists (String x a), b, c. split; [exact Hm | reflexivity]. }
  destruct (Ascii.eqb x "{") eqn:Ex; [|now apply K].
  destruct (Pose.upto_last_close r) as [m'|] eqn:E; [|now apply K].
  apply Ascii.eqb_eq in Ex as ->. injection H as <-.
  destruct (upto_last_close_prefix r m' E) as (b & c & -> & ->).
  exists "", b, c. split; reflexivity.
Qed.

Lemma upto_last_close_None (s : string) :
  Pose.upto_last_close s = None -> forall a b, s <> a +:+ String "}" b.
Proof.
  induction s as [|x r IH]; simpl; intros H a b E.
  - destruct a; discriminate.
  - destruct (Pose.upto_last_close r) eqn:Er; [discriminate|].
    destruct a as [|y a]; simpl in E; injection E as -> E.
    + simpl in H. discriminate.
    + exact (IH eq_refl a b E).
Qed.

(** The handler finds no match exactly when the output has no brace pair. *)
Lemma jsonMatch_None (s : string) : Pose.jsonMatch s = None <-> ~ has_braces s.
Proof.
  split.
  - induction s as [|x r IH]; simpl; intros H (a & b & c & E).
    + destruct a; discriminate.
    + destruct a as [|y a]; simpl in E; injection E as -> E.
      * simpl in H. destruct (Pose.upto_last_close r) eqn:Er; [discriminate|].
        exact (upto_last_close_None r Er b c E).
      * apply IH; [|now exists a, b, c].
        destruct (Ascii.eqb y "{"); [|exact H].
        now destruct (Pose.upto_last_close r).
  - intros H. destruct (Pose.jsonMatch s) as [m|] eqn:E; [|reflexivity].
    exfalso. apply H. destruct (jsonMatch_Some s m E) as (a & b & c & -> & ->).
    exists a, b, c. simpl. now rewrite append_assoc.
Qed.

(** ** The pose handler *)

Section PoseFacts.

Variable JSON_parse : string -> Completion JsValue.
Variable path_join : string -> string -> string.
Variable dirname : string.

Let detect := Pose.detect JSON_parse path_join dirname.
Let on_close := Pose.on_close JSON_parse.

Lemma existsSync_true (disk : gset string) (p : string) :
  p ∈ disk -> Pose.existsSync disk p = true.
Proof. intros H. now apply bool_decide_eq_true_2. Qed.

Lemma existsSync_false (disk : gset string) (p : string) :
  p ∉ disk -> Pose.existsSync disk p = false.
Proof. intros H. now apply bool_decide_eq_false_2. Qed.

(** With everything deployed the handler spawns the script, and what it
    answers is what the [close] listener answers. *)
Lemma detect_closes (disk : gset string) (imagePath : string)
    (code : option Z) (stdout stderr : list string) :
  deployed path_join dirname disk ->
  let closed := on_close disk imagePath (String.concat "" stdout)
                  (String.concat "" stderr) code in
  detect disk (Some imagePath) (Pose.Closes code stdout stderr) =
  {| Pose.response := Pose.response closed;
     Pose.files := Pose.files closed;
     Pose.effects :=
       Pose.Spawn "python" [Pose.sequentialScriptPath path_join dirname; imagePath;
                            Pose.modelPath path_join dirname;
                            Pose.bumblefootModelPath path_join dirname]
       :: Pose.effects closed;
     Pose.uncaught := Pose.uncaught closed |}.
Proof.
  intros (Hm & Hb & Hs). unfold detect, Pose.detect.
  now rewrite !existsSync_true.
Qed.

(** Before the spawn every answer leaves the disk as it was. *)
Lemma detect_not_deployed (disk : gset string) (imagePath : string)
    (child : Pose.ChildProcess) :
  ~ deployed path_join dirname disk ->
  Pose.files (detect disk (Some imagePath) child) = disk
  /\ Pose.effects (detect disk (Some imagePath) child) = [].
Proof.
  intros H. unfold detect, Pose.detect, Pose.existsSync.
  repeat (case_bool_decide; simpl; [|now split]).
  exfalso. apply H. now repeat split.
Qed.

(** The [close] listener deletes the upload, once. *)
Lemma on_close_unlinks (disk : gset string) (imagePath output error : string)
    (code : option Z) :
  imagePath ∈ disk ->
  Pose.files (on_close disk imagePath output error code) = disk ∖ {[imagePath]}
  /\ Pose.effects (on_close disk imagePath output error code) = [Pose.Unlink imagePath]
  /\ Pose.uncaught (on_close disk imagePath output error code) = None.
Proof.
  intros H. unfold on_close, Pose.on_close. rewrite (existsSync_true _ _ H).
  destruct code as [[| |]|]; try (now repeat split).
  now destruct (Pose.parse_output JSON_parse output).
Qed.

End PoseFacts.

Lemma deployed_disk_deployed : deployed Pose.join app_dir deployed_disk.
Proof. repeat split; compute_done. Qed.

Lemma upload_on_deployed_disk : upload ∈ deployed_disk.
Proof. compute_done. Qed.

(** C1, as the code has it: when the pose model is absent the handler
    answers the canned success payload, whatever the image and whatever
    else is on disk; when the pose model is present and the bumblefoot
    model is absent it answers 500 with "Bumblefoot classification model
    not found".  In both cases no process is spawned and the disk is left
    as it was. *)
Theorem detect_model_absent
    (JSON_parse : string -> Completion JsValue)
    (path_join : string -> string -> string) (dirname : string)
    (disk : gset string) (imagePath : string) (child : Pose.ChildProcess) :
  Pose.modelPath path_join dirname ∉ disk
  \/ Pose.bumblefootModelPath path_join dirname ∉ disk ->
  let outcome := Pose.detect JSON_parse path_join dirname disk (Some imagePath) child in
  spawns (Pose.effects outcome) = 0
  /\ Pose.effects outcome = []
  /\ Pose.files outcome = disk
  /\ (Pose.modelPath path_join dirname ∉ disk ->
      Pose.response outcome = Some (Http.json Pose.mockPayload))
  /\ (Pose.modelPath path_join dirname ∈ disk ->
      Pose.response outcome =
      Some (Http.status_json 500
              (Pose.failure "Bumblefoot classification model not found"))).
Proof.
  intros H outcome.
  assert (N : ~ deployed path_join dirname disk).
  { intros (Hm & Hb & _). destruct H as [H|H]; now apply H. }
  destruct (detect_not_deployed JSON_parse path_join dirname disk imagePath child N)
    as [Hf He].
  fold outcome in Hf, He. rewrite He, Hf. repeat split.
  - intros Hm. unfold outcome, Pose.detect. now rewrite (existsSync_false _ _ Hm).
  - intros Hm. destruct H as [H|H]; [contradiction|].
    unfold outcome, Pose.detect.
    now rewrite (existsSync_true _ _ Hm), (existsSync_false _ _ H).
Qed.

Lemma detect_model_absent_witness :
  (Pose.modelPath Pose.join app_dir ∉ bare_disk
   \/ Pose.bumblefootModelPath Pose.join app_dir ∉ bare_disk)
  /\ Pose.response (Pose.detect Json.parse Pose.join app_dir bare_disk (Some upload) Pose.Hangs)
     = Some (Http.json Pose.mockPayload).
Proof.
  assert (H : Pose.modelPath Pose.join app_dir ∉ bare_disk).
  { compute_done. }
  split; [left; exact H|].
  exact (proj1 (proj2 (proj2 (proj2
    (detect_model_absent Json.parse Pose.join app_dir bare_disk upload Pose.Hangs
       (or_introl H))))) H).
Defined.

(** C1 fails as stated: with the pose model on disk and the bumblefoot
    model missing, the answer is a 500 failure, not the canned payload. *)
Lemma detect_bumblefoot_absent_fails :
  (Pose.bumblefootModelPath Pose.join app_dir ∉ pose_only_disk)
  /\ Pose.response
       (Pose.detect Json.parse Pose.join app_dir pose_only_disk (Some upload) Pose.Hangs)
     = Some {| Http.status := 500;
               Http.body := JObj [("success", JBool false);
                                  ("error", JStr "Bumblefoot classification model not found")] |}
  /\ (Pose.response
        (Pose.detect Json.parse Pose.join app_dir pose_only_disk (Some upload) Pose.Hangs)
      <> Some (Http.json Pose.mockPayload)).
Proof.
  split; [compute_done|].
  split; [vm_compute; reflexivity|].
  vm_compute. discriminate.
Qed.

(** C2 fails on the code: in the degraded mode the handler answers and
    returns before any [fs.unlinkSync], so the upload stays on disk. *)
Theorem detect_mock_leaves_upload :
  let outcome :=
    Pose.detect Json.parse Pose.join app_dir bare_disk (Some upload)
      (Pose.Closes (Some 0%Z) [] []) in
  upload ∈ bare_disk
  /\ Pose.response outcome = Some (Http.json Pose.mockPayload)
  /\ unlinks upload (Pose.effects outcome) = 0
  /\ upload ∈ Pose.files outcome.
Proof.
  repeat split; try (vm_compute; reflexivity);
    compute_done.
Qed.

(** After the spawn the upload is deleted exactly once, whatever the exit
    code and the output are. *)
Lemma detect_closed_unlinks_once
    (JSON_parse : string -> Completion JsValue)
    (path_join : string -> string -> string) (dirname : string)
    (disk : gset string) (imagePath : string)
    (code : option Z) (stdout stderr : list string) :
  deployed path_join dirname disk -> imagePath ∈ disk ->
  let outcome := Pose.detect JSON_parse path_join dirname disk (Some imagePath)
                   (Pose.Closes code stdout stderr) in
  unlinks imagePath (Pose.effects outcome) = 1
  /\ imagePath ∉ Pose.files outcome.
Proof.
  intros D H outcome. unfold outcome. rewrite (detect_closes _ _ _ _ _ _ _ _ D). simpl.
  destruct (on_close_unlinks JSON_parse disk imagePath (String.concat "" stdout)
              (String.concat "" stderr) code H) as (-> & -> & _).
  split.
  - unfold unlinks. simpl. now rewrite String.eqb_refl.
  - intros Hin. apply elem_of_difference in Hin as [_ Hn].
    apply Hn. now apply elem_of_singleton.
Qed.

(** C6: when the spawned process closes with a non-zero status (or with
    none, killed by a signal), the answer is a 500 with [success: false]
    whose error is "Pose detection failed: " followed by the captured
    standard error, and the upload is no longer on disk. *)
Theorem detect_nonzero_exit
    (JSON_parse : string -> Completion JsValue)
    (path_join : string -> string -> string) (dirname : string)
    (disk : gset string) (imagePath : string)
    (code : option Z) (stdout stderr : list string) :
  deployed path_join dirname disk -> imagePath ∈ disk -> code <> Some 0%Z ->
  let outcome := Pose.detect JSON_parse path_join dirname disk (Some imagePath)
                   (Pose.Closes code stdout stderr) in
  let error := "Pose detection failed: " +:+ String.concat "" stderr in
  Pose.response outcome =
    Some {| Http.status := 500;
            Http.body := JObj [("success", JBool false); ("error", JStr error)] |}
  /\ contains error (String.concat "" stderr)
  /\ imagePath ∉ Pose.files outcome.
Proof.
  intros D H Hc outcome error.
  split; [|split; [apply contains_suffix|]].
  - unfold outcome. rewrite (detect_closes _ _ _ _ _ _ _ _ D). simpl.
    unfold Pose.on_close. rewrite (existsSync_true _ _ H).
    destruct code as [[| |]|]; try reflexivity. now exfalso.
  - now apply detect_closed_unlinks_once.
Qed.

Lemma detect_nonzero_exit_witness :
  let outcome := Pose.detect Json.parse Pose.join app_dir deployed_disk (Some upload)
                   (Pose.Closes (Some 1%Z) ["loading "; "model"] ["Traceback: "; "no torch"]) in
  Pose.response outcome =
    Some {| Http.status := 500;
            Http.body := JObj [("success", JBool false);
                               ("error", JStr "Pose detection failed: Traceback: no torch")] |}
  /\ contains "Pose detection failed: Traceback: no torch" "Traceback: no torch"
  /\ upload ∉ Pose.files outcome.
Proof.
  apply (detect_nonzero_exit Json.parse Pose.join app_dir deployed_disk upload (Some 1%Z)
           ["loading "; "model"] ["Traceback: "; "no torch"]).
  - exact deployed_disk_deployed.
  - exact upload_on_deployed_disk.
  - discriminate.
Defined.

(** C7: when the process closes with status zero and its output has no
    opening brace followed by a closing one, the answer is a 500 with
    [success: false] whose error says "No JSON found in output" and ends
    with the raw output; the upload is no longer on disk. *)
Theorem detect_no_json
    (JSON_parse : string -> Completion JsValue)
    (path_join : string -> string -> string) (dirname : string)
    (disk : gset string) (imagePath : string) (stdout stderr : list string) :
  deployed path_join dirname disk -> imagePath ∈ disk ->
  ~ has_braces (String.concat "" stdout) ->
  let outcome := Pose.detect JSON_parse path_join dirname disk (Some imagePath)
                   (Pose.Closes (Some 0%Z) stdout stderr) in
  let error := "Failed to parse sequential analysis results: No JSON found in output. Output: "
               +:+ String.concat "" stdout in
  Pose.response outcome =
    Some {| Http.status := 500;
            Http.body := JObj [("success", JBool false); ("error", JStr error)] |}
  /\ contains error "No JSON found"
  /\ contains error (String.concat "" stdout)
  /\ imagePath ∉ Pose.files outcome.
Proof.
  intros D H Hn outcome error.
  split; [|split; [|split; [apply contains_suffix|]]].
  - unfold outcome. rewrite (detect_closes _ _ _ _ _ _ _ _ D). simpl.
    unfold Pose.on_close, Pose.parse_output. rewrite (existsSync_true _ _ H).
    apply jsonMatch_None in Hn. rewrite Hn. reflexivity.
  - exists "Failed to parse sequential analysis results: ",
      (" in output. Output: " +:+ String.concat "" stdout). reflexivity.
  - now apply detect_closed_unlinks_once.
Qed.

Lemma no_braces_example : ~ has_braces (String.concat "" ["Killed"; " } {"]).
Proof. apply jsonMatch_None. reflexivity. Qed.

Lemma detect_no_json_witness :
  let outcome := Pose.detect Json.parse Pose.join app_dir deployed_disk (Some upload)
                   (Pose.Closes (Some 0%Z) ["Killed"; " } {"] []) in
  Pose.response outcome =
    Some {| Http.status := 500;
            Http.body := JObj [("success", JBool false);
                               ("error", JStr "Failed to parse sequential analysis results: No JSON found in output. Output: Killed } {")] |}
  /\ contains "Failed to parse sequential analysis results: No JSON found in output. Output: Killed } {" "No JSON found"
  /\ contains "Failed to parse sequential analysis results: No JSON found in output. Output: Killed } {" "Killed } {"
  /\ upload ∉ Pose.files outcome.
Proof.
  apply (detect_no_json Json.parse Pose.join app_dir deployed_disk upload
           ["Killed"; " } {"] []).
  - exact deployed_disk_deployed.
  - exact upload_on_deployed_disk.
  - exact no_braces_example.
Defined.

(** What the [try] block yields depends on the output through the match
    alone. *)
Lemma parse_output_match (JSON_parse : string -> Completion JsValue) (o1 o2 : string) :
  Pose.jsonMatch o1 = Pose.jsonMatch o2 ->
  Pose.parse_output JSON_parse o1 = Pose.parse_output JSON_parse o2.
Proof. intros H. unfold Pose.parse_output. now rewrite H. Qed.

(** On a parsed object the [try] block does not throw: it reshapes the
    object when its [success] is truthy and reports a failure otherwise. *)
Lemma parse_output_object (JSON_parse : string -> Completion JsValue)
    (output text : string) (fields : list (string * JsValue)) :
  Pose.jsonMatch output = Some text ->
  JSON_parse text = Normal (JObj fields) ->
  exists r, Pose.parse_output JSON_parse output = Normal r
    /\ (truthy (assoc "success" fields) = true ->
        Http.status r = 200
        /\ risk_level (Http.body r) =
           JStr (if is_str (assoc "health_assessment" fields) "injured"
                 then "high" else "low"))
    /\ (truthy (assoc "success" fields) = false ->
        Http.status r = 500 /\ get_opt (Http.body r) "success" = JBool false).
Proof.
  intros Hm Hp. unfold Pose.parse_output. rewrite Hm, Hp. simpl.
  destruct (truthy (assoc "success" fields)); simpl; eexists; split; try reflexivity.
  - split; [|discriminate]. intros _. split; reflexivity.
  - split; [discriminate|]. intros _. split; reflexivity.
Qed.




Lemma append_close (mid post : string) :
  (mid +:+ "}") +:+ post = mid +:+ String "}" post.
Proof. now rewrite append_assoc. Qed.

(** The match on an object between brace-free text is the object. *)
Lemma jsonMatch_between (pre mid post : string) :
  occurs "{" pre = false -> occurs "}" post = false ->
  Pose.jsonMatch (pre +:+ String "{" (mid +:+ "}") +:+ post)
  = Some (String "{" (mid +:+ "}")).
Proof.
  intros Hpre Hpost. rewrite (jsonMatch_skip pre _ Hpre). simpl.
  rewrite append_close.
  now rewrite (upto_last_close_last mid post Hpost).
Qed.

Lemma append_empty (s : string) : s +:+ "" = s.
Proof. induction s as [|x s IH]; simpl; [reflexivity | now rewrite IH]. Qed.

(** The text around the JSON that the handler does tolerate: when the
    output is one brace-delimited text that [JSON.parse] reads as an
    object, after text without an opening brace and before text without a
    closing brace, the handler extracts exactly that text and answers as
    it does for the object alone: a 200 when the object's [success] is
    truthy. *)
Lemma detect_json_between_text
    (JSON_parse : string -> Completion JsValue)
    (path_join : string -> string -> string) (dirname : string)
    (disk : gset string) (imagePath : string) (stdout stderr : list string)
    (pre mid post : string) (fields : list (string * JsValue)) :
  deployed path_join dirname disk -> imagePath ∈ disk ->
  String.concat "" stdout = pre +:+ String "{" (mid +:+ "}") +:+ post ->
  occurs "{" pre = false -> occurs "}" post = false ->
  JSON_parse (String "{" (mid +:+ "}")) = Normal (JObj fields) ->
  let outcome := Pose.detect JSON_parse path_join dirname disk (Some imagePath)
                   (Pose.Closes (Some 0%Z) stdout stderr) in
  Pose.jsonMatch (String.concat "" stdout) = Some (String "{" (mid +:+ "}"))
  /\ exists r,
       Pose.response outcome = Some r
       /\ Pose.parse_output JSON_parse (String "{" (mid +:+ "}")) = Normal r
       /\ (truthy (assoc "success" fields) = true -> Http.status r = 200).
Proof.
  intros D H Hout Hpre Hpost Hp outcome.
  assert (Hm : Pose.jsonMatch (String.concat "" stdout) = Some (String "{" (mid +:+ "}"))).
  { rewrite Hout. now apply jsonMatch_between. }
  split; [exact Hm|].
  destruct (parse_output_object JSON_parse _ _ _ Hm Hp) as (r & Hr & Hok & _).
  exists r. split; [|split].
  - unfold outcome. rewrite (detect_closes _ _ _ _ _ _ _ _ D). simpl.
    unfold Pose.on_close. now rewrite (existsSync_true _ _ H), Hr.
  - rewrite <- Hr. apply parse_output_match. rewrite Hm.
    pose proof (jsonMatch_between "" mid "" eq_refl eq_refl) as K.
    simpl in K. rewrite append_empty in K. exact K.
  - intros Hs. now destruct (Hok Hs).
Qed.

Lemma detect_json_between_text_witness :
  let text := String "{" ((Json.quoted "success" +:+ ": true") +:+ "}") in
  let outcome := Pose.detect Json.parse Pose.join app_dir deployed_disk (Some upload)
                   (Pose.Closes (Some 0%Z) ["Loading weights} "; text; " done {"] []) in
  Pose.jsonMatch (String.concat "" ["Loading weights} "; text; " done {"]) = Some text
  /\ exists r,
       Pose.response outcome = Some r
       /\ Pose.parse_output Json.parse text = Normal r
       /\ (truthy (assoc "success" [("success", JBool true)]) = true -> Http.status r = 200).
Proof.
  apply (detect_json_between_text Json.parse Pose.join app_dir deployed_disk upload
           ["Loading weights} "; String "{" ((Json.quoted "success" +:+ ": true") +:+ "}");
            " done {"] []
           "Loading weights} " (Json.quoted "success" +:+ ": true") " done {"
           [("success", JBool true)]).
  - exact deployed_disk_deployed.
  - exact upload_on_deployed_disk.
  - vm_compute; reflexivity.
  - reflexivity.
  - reflexivity.
  - vm_compute; reflexivity.
Defined.

(** C5 fails on the code: the pattern is greedy and starts at the first
    opening brace of the whole output.  When the text before the JSON
    object holds an opening brace, the text handed to [JSON.parse] starts
    there, and when [JSON.parse] rejects it the answer is the 500 of a
    parse failure, though the object alone is answered 200. *)
Theorem detect_braces_before_json
    (JSON_parse : string -> Completion JsValue)
    (path_join : string -> string -> string) (dirname : string)
    (disk : gset string) (imagePath : string) (stdout stderr : list string)
    (before log mid post : string) (fields : list (string * JsValue))
    (error : JsError) :
  deployed path_join dirname disk -> imagePath ∈ disk ->
  String.concat "" stdout
  = before +:+ String "{" (log +:+ String "{" (mid +:+ "}")) +:+ post ->
  occurs "{" before = false -> occurs "}" post = false ->
  JSON_parse (String "{" (mid +:+ "}")) = Normal (JObj fields) ->
  truthy (assoc "success" fields) = true ->
  JSON_parse (String "{" (log +:+ String "{" (mid +:+ "}"))) = Throw error ->
  (exists r, Pose.parse_output JSON_parse (String "{" (mid +:+ "}")) = Normal r
             /\ Http.status r = 200)
  /\ Pose.jsonMatch (String.concat "" stdout)
     = Some (String "{" (log +:+ String "{" (mid +:+ "}")))
  /\ Pose.response (Pose.detect JSON_parse path_join dirname disk (Some imagePath)
                      (Pose.Closes (Some 0%Z) stdout stderr))
     = Some (Http.status_json 500
               (Pose.failure ("Failed to parse sequential analysis results: "
                                +:+ message error +:+ ". Output: "
                                +:+ String.concat "" stdout))).
Proof.
  intros D H Hout Hpre Hpost Hp Hs He.
  assert (Hm : Pose.jsonMatch (String.concat "" stdout)
               = Some (String "{" (log +:+ String "{" (mid +:+ "}")))).
  { rewrite Hout.
    pose proof (jsonMatch_between before (log +:+ String "{" mid) post Hpre Hpost) as K.
    rewrite append_assoc in K. exact K. }
  split; [|split; [exact Hm|]].
  - pose proof (jsonMatch_between "" mid "" eq_refl eq_refl) as K.
    rewrite append_empty in K.
    change (Pose.jsonMatch (String "{" (mid +:+ "}")) = Some (String "{" (mid +:+ "}")))
      in K.
    destruct (parse_output_object JSON_parse _ _ _ K Hp) as (r & Hr & Hok & _).
    exists r. split; [exact Hr|]. now destruct (Hok Hs).
  - rewrite (detect_closes _ _ _ _ _ _ _ _ D). simpl.
    unfold Pose.on_close, Pose.parse_output.
    rewrite (existsSync_true _ _ H), Hm, He. reflexivity.
Qed.

Lemma detect_braces_before_json_witness :
  let text := String "{" ((Json.quoted "success" +:+ ": true") +:+ "}") in
  let stdout := ["Using devices {cuda:0} "; text; " done"] in
  exists r,
    Json.parse text = Normal (JObj [("success", JBool true)])
    /\ Pose.jsonMatch (String.concat "" stdout) = Some ("{cuda:0} " +:+ text)
    /\ Pose.response
         (Pose.detect Json.parse Pose.join app_dir deployed_disk (Some upload)
            (Pose.Closes (Some 0%Z) stdout []))
       = Some r
    /\ Http.status r = 500
    /\ get_opt (Http.body r) "success" = JBool false.
Proof.
  assert (E : exists e, Json.parse
                          (String "{" ("cuda:0} "
                             +:+ String "{" ((Json.quoted "success" +:+ ": true") +:+ "}")))
                        = Throw e).
  { vm_compute. eexists. reflexivity. }
  destruct E as (e & He).
  destruct (detect_braces_before_json Json.parse Pose.join app_dir deployed_disk upload
              ["Using devices {cuda:0} ";
               String "{" ((Json.quoted "success" +:+ ": true") +:+ "}"); " done"] []
              "Using devices " "cuda:0} " (Json.quoted "success" +:+ ": true") " done"
              [("success", JBool true)] e
              deployed_disk_deployed upload_on_deployed_disk eq_refl eq_refl eq_refl
              eq_refl eq_refl He) as (_ & Hm & Hr).
  eexists. split; [vm_compute; reflexivity|]. split; [exact Hm|].
  split; [exact Hr|]. split; reflexivity.
Defined.

(** ** The scan mappers *)

Lemma is_severe_Normal (inj : JsValue) (b : bool) :
  Scans.is_severe inj = Normal b -> b = severe inj.
Proof.
  unfold Scans.is_severe, severe.
  destruct inj; simpl; intros H; try discriminate; now injection H as <-.
Qed.

Lemma some_is_severe (items : list JsValue) (b : bool) :
  Js.some Scans.is_severe items = Normal b -> b = existsb severe items.
Proof.
  induction items as [|x items IH]; simpl; intros H.
  - now injection H as <-.
  - destruct (Scans.is_severe x) as [bx|e] eqn:Ex; simpl in H; [|discriminate].
    apply is_severe_Normal in Ex as ->.
    destruct (severe x); simpl; [now injection H as <-|now apply IH].
Qed.

Lemma filter_is_severe (items kept : list JsValue) :
  Js.filter Scans.is_severe items = Normal kept -> kept = List.filter severe items.
Proof.
  revert kept. induction items as [|x items IH]; simpl; intros kept H.
  - now injection H as <-.
  - destruct (Scans.is_severe x) as [bx|e] eqn:Ex; simpl in H; [|discriminate].
    apply is_severe_Normal in Ex as ->.
    destruct (Js.filter Scans.is_severe items) as [k|e]; simpl in H; [|discriminate].
    injection H as <-. now rewrite (IH k eq_refl).
Qed.

Lemma gt_true (x : option Q) (c : Q) :
  Js.gt x c = true <-> (Js.double c < Js.double (default 0 x))%Q.
Proof.
  unfold Js.gt, default. destruct x as [q|]; cbn [from_option id];
    [|change (Js.double 0) with 0%Q]; rewrite negb_true_iff;
    (split; intros H;
     [ apply Qnot_le_lt; intros L; apply Qle_bool_iff in L; congruence
     | match goal with |- ?b = false => destruct b eqn:E end; [|reflexivity];
       apply Qle_bool_iff in E; exfalso; exact (Qlt_not_le _ _ H E) ]).
Qed.

(** The two thresholds as doubles: 0.5 is one, 0.8 is not, and a
    confidence a little above 0.8 that rounds to the same double is not
    above it. *)
Lemma gt_on_doubles :
  (Js.double (5 # 10) == 1 # 2)%Q
  /\ (Js.double (8 # 10) == 3602879701896397 # 4503599627370496)%Q
  /\ Js.gt (Some (80000000000000001 # 100000000000000000)) (8 # 10) = false
  /\ Js.gt (Some (8000000000000001 # 10000000000000000)) (8 # 10) = true.
Proof. repeat split; vm_compute; reflexivity. Qed.

Lemma double_thresholds : (Js.double (5 # 10) < Js.double (8 # 10))%Q.
Proof. vm_compute. reflexivity. Qed.

(** What each mapper sets [severity] from.  [getScans] sets it from the
    injury entries alone: "high" when some entry is severe, "medium" when
    the array is not empty and no entry is, "low" otherwise.  [getScanById]
    and [createScan] set it from the analysis confidence alone: "high"
    above 0.8, "medium" above 0.5, "low" otherwise, compared as doubles. *)
Lemma scan_severity (scan : Scans.ScanRow) :
  (forall mapped, Scans.getScans_map scan = Normal mapped ->
     Scans.severity mapped =
     JStr (match Scans.injury_detections scan with
           | JArr (inj :: rest) =>
               if existsb severe (inj :: rest) then "high" else "medium"
           | _ => "low"
           end))
  /\ (forall mapped,
        Scans.getScanById_map scan = Normal mapped
        \/ Scans.createScan_map scan = Normal mapped ->
        ((Js.double (8 # 10) < Js.double (confidence scan))%Q ->
         Scans.severity mapped = JStr "high")
        /\ (~ (Js.double (8 # 10) < Js.double (confidence scan))%Q ->
            (Js.double (5 # 10) < Js.double (confidence scan))%Q ->
            Scans.severity mapped = JStr "medium")
        /\ (~ (Js.double (5 # 10) < Js.double (confidence scan))%Q ->
            Scans.severity mapped = JStr "low")).
Proof.
  split.
  - intros mapped. unfold Scans.getScans_map.
    destruct (Scans.injuries scan) as [names|e]; simpl; [|discriminate].
    destruct (Scans.injury_detections scan) as [| |b|q|s|items|fields]; simpl;
      rewrite ?andb_false_r; simpl;
      try (intros H; injection H as <-; reflexivity).
    destruct items as [|inj rest]; simpl.
    { intros H; injection H as <-; reflexivity. }
    destruct (Scans.is_severe inj) as [b|e] eqn:Ei; simpl; [|discriminate].
    apply is_severe_Normal in Ei as ->.
    destruct (severe inj); simpl.
    { intros H; injection H as <-; reflexivity. }
    destruct (Js.some Scans.is_severe rest) as [b|e] eqn:Er; simpl; [|discriminate].
    apply some_is_severe in Er as ->.
    intros H; injection H as <-. reflexivity.
  - intros mapped H.
    assert (K : Scans.severity mapped =
                JStr (if Js.gt (Scans.analysis_confidence scan) (8 # 10) then "high"
                      else if Js.gt (Scans.analysis_confidence scan) (5 # 10) then "medium"
                      else "low")).
    { unfold Scans.getScanById_map, Scans.createScan_map in H.
      destruct (Scans.injuries scan) as [names|e]; simpl in H;
        [|destruct H; discriminate].
      destruct H as [H|H]; injection H as <-; reflexivity. }
    rewrite K. clear K H. unfold confidence.
    destruct (Js.gt (Scans.analysis_confidence scan) (8 # 10)) eqn:E8.
    { apply gt_true in E8. split; [reflexivity|]. split; [intros N; contradiction|].
      intros N. exfalso. apply N.
      apply Qlt_trans with (Js.double (8 # 10)); [exact double_thresholds|exact E8]. }
    assert (N8 : ~ (Js.double (8 # 10)
                    < Js.double (default 0 (Scans.analysis_confidence scan)))%Q).
    { intros L. apply gt_true in L. congruence. }
    destruct (Js.gt (Scans.analysis_confidence scan) (5 # 10)) eqn:E5.
    { apply gt_true in E5. repeat split; intros; (reflexivity || contradiction). }
    assert (N5 : ~ (Js.double (5 # 10)
                    < Js.double (default 0 (Scans.analysis_confidence scan)))%Q).
    { intros L. apply gt_true in L. congruence. }
    repeat split; intros; (reflexivity || contradiction).
Qed.

(** ** Reports *)

Lemma select_scan_Some (db : Reports.Database) (scanId userId : string)
    (scan : Scans.ScanRow) :
  Reports.select_scan db scanId userId = Some scan ->
  In scan (Reports.scans db) /\ Scans.id scan = scanId /\ Scans.user_id scan = userId.
Proof.
  unfold Reports.select_scan.
  destruct (List.filter _ (Reports.scans db)) as [|row [|row' rows]] eqn:E; try discriminate.
  intros H. injection H as ->.
  assert (M : In scan (List.filter
                         (fun row => String.eqb (Scans.id row) scanId
                                     && String.eqb (Scans.user_id row) userId)
                         (Reports.scans db))) by (rewrite E; now left).
  apply filter_In in M as [M F]. apply andb_true_iff in F as [F1 F2].
  apply String.eqb_eq in F1, F2. now repeat split.
Qed.

Lemma select_scan_not_owned (db : Reports.Database) (scanId userId : string) :
  ~ owned db scanId userId -> Reports.select_scan db scanId userId = None.
Proof.
  intros N. destruct (Reports.select_scan db scanId userId) as [scan|] eqn:E;
    [|reflexivity].
  exfalso. apply N. exists scan. now apply select_scan_Some.
Qed.

Lemma truthy_provided (x : option string) :
  truthy (of_str x) = true <-> provided x.
Proof.
  unfold provided. destruct x as [s|]; simpl.
  - rewrite negb_true_iff. split.
    + intros H. exists s. split; [reflexivity|]. intros ->. discriminate.
    + intros (s' & [= <-] & N). now apply String.eqb_neq.
  - split; [discriminate|]. now intros (s & ? & _).
Qed.

Lemma requireAuth_rejects (jwt_verify : string -> Completion JsValue)
    (authHeader : option string) (rejected : Http.Response) :
  AuthRoutes.requireAuth jwt_verify authHeader = inl rejected ->
  Http.status rejected = 401 /\ get_opt (Http.body rejected) "success" = JBool false.
Proof.
  unfold AuthRoutes.requireAuth. destruct authHeader as [h|].
  - destruct (negb (Cors.startsWith h "Bearer ")).
    + intros [= <-]. now split.
    + destruct (_ ← jwt_verify _; _) as [user|e]; [discriminate|].
      intros [= <-]. now split.
  - intros [= <-]. now split.
Qed.

(** C8, as the code has it: a request that [requireAuth] lets through and
    whose [scanId] names no scan of the resolved user writes no row and is
    answered with [success: false] and no scan data: 404 "Scan not found
    or access denied" when [scanId], [roosterId] and a non-blank [title]
    are given, and 400 when one of them is missing.  A request that
    [requireAuth] turns away gets its 401 and writes no row either. *)
Theorem createReport_scan_not_owned (jwt_verify : string -> Completion JsValue)
    (db : Reports.Database) (authorization : option string)
    (body : Reports.CreateReportRequest) :
  (forall scanId, Reports.Request.scanId body = Some scanId ->
     ~ owned db scanId (Auth.getUserIdFromAuth authorization)) ->
  let answer := AuthRoutes.post_reports jwt_verify db authorization body in
  snd answer = db
  /\ get_opt (Http.body (fst answer)) "success" = JBool false
  /\ (forall user, AuthRoutes.requireAuth jwt_verify authorization = inr user ->
      (provided (Reports.Request.scanId body) ->
       provided (Reports.Request.roosterId body) ->
       provided (option_map Reports.trim (Reports.Request.title body)) ->
       fst answer = Http.status_json 404
                      (JObj [("error", JStr "Scan not found or access denied");
                             ("success", JBool false)]))
      /\ (~ (provided (Reports.Request.scanId body)
             /\ provided (Reports.Request.roosterId body)
             /\ provided (option_map Reports.trim (Reports.Request.title body))) ->
          fst answer = Http.status_json 400
                         (JObj [("error", JStr "scanId, roosterId, and title are required");
                                ("success", JBool false)])))
  /\ (forall rejected, AuthRoutes.requireAuth jwt_verify authorization = inl rejected ->
      fst answer = rejected /\ Http.status rejected = 401).
Proof.
  intros N answer. unfold answer, AuthRoutes.post_reports.
  destruct (AuthRoutes.requireAuth jwt_verify authorization) as [rejected|user] eqn:G.
  { destruct (requireAuth_rejects _ _ _ G) as (H401 & Hs). simpl.
    split; [reflexivity|]. split; [exact Hs|]. split; [intros u [=]|].
    intros r [= <-]. now split. }
  unfold Reports.createReport, Reports.createReport_try.
  destruct (truthy (of_str (Reports.Request.scanId body))) eqn:E1;
  destruct (truthy (of_str (Reports.Request.roosterId body))) eqn:E2;
  destruct (truthy (of_str (option_map Reports.trim (Reports.Request.title body)))) eqn:E3;
    simpl.
  2-8: (split; [reflexivity|]; split; [reflexivity|]; split; [|intros r [=]];
        intros u _; split;
        [ intros P1 P2 P3; apply truthy_provided in P1, P2, P3; congruence
        | intros _; reflexivity ]).
  apply truthy_provided in E1, E2, E3.
  destruct E1 as (scanId & Hs & Hne). rewrite Hs. simpl.
  rewrite (select_scan_not_owned db scanId _ (N scanId Hs)). simpl.
  split; [reflexivity|]. split; [reflexivity|]. split; [|intros r [=]].
  intros u _. split; [reflexivity|].
  intros Q. exfalso. apply Q. repeat split; try assumption.
  exists scanId. now split.
Qed.

Lemma nobody_owns_scan_2 :
  forall scanId, Some "scan-2" = Some scanId ->
    ~ owned example_db scanId (Auth.getUserIdFromAuth (Some "Bearer good-token")).
Proof.
  intros scanId [= <-] (scan & [<-|[<-|[]]] & Hid & Hu); discriminate.
Qed.

Lemma createReport_scan_not_owned_witness :
  let body := report_request (Some "scan-2") (Some "rooster-1") (Some " Checkup ") in
  let answer := AuthRoutes.post_reports example_verify example_db
                  (Some "Bearer good-token") body in
  (exists user, AuthRoutes.requireAuth example_verify (Some "Bearer good-token") = inr user)
  /\ snd answer = example_db
  /\ fst answer = Http.status_json 404
                    (JObj [("error", JStr "Scan not found or access denied");
                           ("success", JBool false)]).
Proof.
  pose proof (createReport_scan_not_owned example_verify example_db
                (Some "Bearer good-token")
                (report_request (Some "scan-2") (Some "rooster-1") (Some " Checkup "))
                nobody_owns_scan_2) as (Hdb & _ & H & _).
  split; [eexists; reflexivity|]. split; [exact Hdb|].
  apply (proj1 (H _ eq_refl)); eexists; (split; [reflexivity|discriminate]).
Defined.

(** C8 fails as stated: a request with a token [requireAuth] accepts, for
    somebody else's scan, that leaves [roosterId] and [title] out is
    answered 400, not 404. *)
Lemma createReport_not_owned_400 :
  let body := report_request (Some "scan-2") None None in
  let answer := AuthRoutes.post_reports example_verify example_db
                  (Some "Bearer good-token") body in
  (exists user, AuthRoutes.requireAuth example_verify (Some "Bearer good-token") = inr user)
  /\ In foreign_scan (Reports.scans example_db)
  /\ Scans.id foreign_scan = "scan-2"
  /\ (Scans.user_id foreign_scan
      =? Auth.getUserIdFromAuth (Some "Bearer good-token"))%string = false
  /\ Http.status (fst answer) = 400
  /\ snd answer = example_db.
Proof.
  split; [eexists; reflexivity|]. split; [right; now left|]. repeat split.
Qed.

Lemma injury_counts_Normal (scan : Scans.ScanRow) (counts : nat * nat) :
  Reports.injury_counts scan = Normal counts ->
  (forall items, Scans.injury_detections scan = JArr items ->
     fst counts = length items /\ snd counts = length (List.filter severe items))
  /\ (isArray (Scans.injury_detections scan) = false -> counts = (0, 0)).
Proof.
  unfold Reports.injury_counts.
  destruct (Scans.injury_detections scan) as [| |b|q|s|items|fields]; simpl.
  1,2,7: intros [= <-]; split; [discriminate|reflexivity].
  1-3: unfold or; destruct (truthy _); simpl; intros [= <-];
       (split; [discriminate|reflexivity]).
  destruct (Js.filter Scans.is_severe items) as [kept|e] eqn:E; simpl; [|discriminate].
  apply filter_is_severe in E as ->. intros [= <-].
  split; [|discriminate]. intros items' [= <-]. now split.
Qed.

(** C9: a report that was created (201) belongs to a scan of the resolved
    user that was in [scans] when the handler ran; the row appended to
    [health_reports] has for [total_injuries_detected] the number of
    entries of that scan's [injury_detections] and for
    [high_priority_injuries] the number of those whose [severity] is
    "severe" (both 0 when it is not an array); the answer carries the same
    row, and [scans] is left as it was. *)
Theorem createReport_counts (db : Reports.Database) (authorization : option string)
    (body : Reports.CreateReportRequest) :
  let answer := Reports.createReport db authorization body in
  Http.status (fst answer) = 201 ->
  exists scan report,
    In scan (Reports.scans db)
    /\ Reports.Request.scanId body = Some (Scans.id scan)
    /\ Scans.user_id scan = Auth.getUserIdFromAuth authorization
    /\ Reports.scan_id (Reports.data report) = Scans.id scan
    /\ Reports.health_reports (snd answer) = (Reports.health_reports db ++ [report])%list
    /\ Reports.scans (snd answer) = Reports.scans db
    /\ fst answer = Http.status_json 201
                      (JObj [("data", Reports.mappedReport report); ("success", JBool true)])
    /\ (forall items, Scans.injury_detections scan = JArr items ->
          Reports.total_injuries_detected (Reports.data report) = length items
          /\ Reports.high_priority_injuries (Reports.data report)
             = length (List.filter severe items))
    /\ (isArray (Scans.injury_detections scan) = false ->
          Reports.total_injuries_detected (Reports.data report) = 0
          /\ Reports.high_priority_injuries (Reports.data report) = 0).
Proof.
  intros answer. unfold answer, Reports.createReport, Reports.createReport_try.
  destruct (negb _ || negb _ || negb _) eqn:V; simpl; [discriminate|].
  apply orb_false_iff in V as [V _]. apply orb_false_iff in V as [V _].
  apply negb_false_iff, truthy_provided in V. destruct V as (scanId & Hs & _).
  rewrite Hs. simpl.
  destruct (Reports.select_scan db scanId _) as [scan|] eqn:S; simpl; [|discriminate].
  apply select_scan_Some in S as (Hin & <- & Hu).
  destruct (Reports.injury_counts scan) as [counts|e] eqn:C; simpl; [|discriminate].
  unfold Reports.insert_report.
  destruct (Reports.accepts db _); simpl; [|discriminate].
  intros _. apply injury_counts_Normal in C as [Carr Cnot].
  eexists scan, _.
  split; [exact Hin|]. split; [reflexivity|]. split; [exact Hu|].
  split; [|split; [reflexivity|]]; [reflexivity|].
  split; [reflexivity|]. split; [reflexivity|]. simpl. split.
  - exact Carr.
  - intros H. now rewrite (Cnot H).
Qed.

Lemma createReport_counts_witness :
  let body := report_request (Some "scan-1") (Some "rooster-1") (Some " Checkup ") in
  let answer := Reports.createReport example_db None body in
  exists scan report,
    In scan (Reports.scans example_db)
    /\ Reports.Request.scanId body = Some (Scans.id scan)
    /\ Scans.user_id scan = Auth.getUserIdFromAuth None
    /\ Reports.scan_id (Reports.data report) = Scans.id scan
    /\ Reports.health_reports (snd answer) = (Reports.health_reports example_db ++ [report])%list
    /\ Reports.scans (snd answer) = Reports.scans example_db
    /\ fst answer = Http.status_json 201
                      (JObj [("data", Reports.mappedReport report); ("success", JBool true)])
    /\ (forall items, Scans.injury_detections scan = JArr items ->
          Reports.total_injuries_detected (Reports.data report) = length items
          /\ Reports.high_priority_injuries (Reports.data report)
             = length (List.filter severe items))
    /\ (isArray (Scans.injury_detections scan) = false ->
          Reports.total_injuries_detected (Reports.data report) = 0
          /\ Reports.high_priority_injuries (Reports.data report) = 0).
Proof.
  apply (createReport_counts example_db None
           (report_request (Some "scan-1") (Some "rooster-1") (Some " Checkup "))).
  reflexivity.
Defined.

(** The counts of the report created from [severe_scan]: two entries, one
    of them severe. *)
Example createReport_counts_example :
  let answer := Reports.createReport example_db None
                  (report_request (Some "scan-1") (Some "rooster-1") (Some " Checkup ")) in
  List.map (fun report => (Reports.title (Reports.data report),
                           Reports.total_injuries_detected (Reports.data report),
                           Reports.high_priority_injuries (Reports.data report)))
           (Reports.health_reports (snd answer))
  = [("Checkup", 2, 1)].
Proof. reflexivity. Qed.

(** * Further properties *)

(** ** The match of the regular expression *)

Lemma upto_last_close_rest (s m : string) :
  Pose.upto_last_close s = Some m ->
  exists c, s = m +:+ c /\ occurs "}" c = false.
Proof.
  revert m. induction s as [|x r IH]; simpl; intros m H; [discriminate|].
  destruct (Pose.upto_last_close r) as [m'|] eqn:E.
  - injection H as <-. destruct (IH m' eq_refl) as (c & -> & Hc).
    exists c. split; [reflexivity|exact Hc].
  - destruct (Ascii.eqb x "}") eqn:Ex; [|discriminate].
    injection H as <-. exists r. split; [reflexivity|].
    clear IH Ex. induction r as [|y r IH]; [reflexivity|].
    simpl in E |- *. destruct (Pose.upto_last_close r); [discriminate|].
    destruct (Ascii.eqb y "}"); [discriminate|]. now apply IH.
Qed.

Lemma jsonMatch_needs_close (r : string) :
  Pose.upto_last_close r = None -> Pose.jsonMatch r = None.
Proof.
  intros H. destruct (Pose.jsonMatch r) as [m|] eqn:E; [|reflexivity].
  destruct (jsonMatch_Some r m E) as (a & b & c & -> & Hr).
  exfalso. apply (upto_last_close_None r H (a +:+ String "{" b) c).
  rewrite Hr. simpl. now rewrite !append_assoc.
Qed.

(** X1: the text handed to [JSON.parse] is the piece of the output from its
    first opening brace to its last closing brace, and the handler finds
    one exactly when the first opening brace has a closing brace after
    it. *)
Theorem jsonMatch_first_to_last (s m : string) :
  Pose.jsonMatch s = Some m <->
  exists a b c, s = a +:+ String "{" (b +:+ "}") +:+ c
    /\ m = String "{" (b +:+ "}")
    /\ occurs "{" a = false /\ occurs "}" c = false.
Proof.
  split.
  - revert m. induction s as [|x r IH]; simpl; intros m H; [discriminate|].
    destruct (Ascii.eqb x "{") eqn:Ex.
    + apply Ascii.eqb_eq in Ex as ->.
      destruct (Pose.upto_last_close r) as [m'|] eqn:E.
      * injection H as <-.
        destruct (upto_last_close_prefix r m' E) as (b & c0 & -> & _).
        destruct (upto_last_close_rest r _ E) as (c & -> & Hc).
        exists "", b, c. now repeat split.
      * now rewrite (jsonMatch_needs_close r E) in H.
    + destruct (IH m H) as (a & b & c & -> & -> & Ha & Hc).
      exists (String x a), b, c. repeat split; [|exact Hc].
      simpl. now rewrite Ex, Ha.
  - intros (a & b & c & -> & -> & Ha & Hc). now apply jsonMatch_between.
Qed.

(** ** What the pose handler answers, and what it leaves behind *)

Lemma parse_output_status (JSON_parse : string -> Completion JsValue)
    (output : string) (r : Http.Response) :
  Pose.parse_output JSON_parse output = Normal r ->
  (Http.status r = 200 /\ get_opt (Http.body r) "success" = JBool true)
  \/ (Http.status r = 500 /\ get_opt (Http.body r) "success" = JBool false).
Proof.
  unfold Pose.parse_output.
  destruct (Pose.jsonMatch output) as [text|]; [|discriminate].
  destruct (JSON_parse text) as [result|e]; simpl; [|discriminate].
  destruct result as [| |b|q|s|items|fields]; simpl; try discriminate;
    try (intros [= <-]; right; now split).
  destruct (truthy (assoc "success" fields)); simpl; intros [= <-];
    [left|right]; now split.
Qed.

(** X2: of the answers the handler sends.  For every request that multer
    hands on to the handler, with a file or without, and whatever the disk
    and the child do, an answer of the handler has status 200 exactly when
    its body says [success: true]; every other answer of the handler is a
    400 or a 500 whose body says [success: false].  An upload that multer
    refuses does not reach the handler, and its answer is not one of
    these. *)
Theorem detect_status_matches_success
    (JSON_parse : string -> Completion JsValue)
    (path_join : string -> string -> string) (dirname : string)
    (disk : gset string) (file : option string) (child : Pose.ChildProcess)
    (r : Http.Response) :
  Pose.response (Pose.detect JSON_parse path_join dirname disk file child) = Some r ->
  (Http.status r = 200 /\ get_opt (Http.body r) "success" = JBool true)
  \/ ((Http.status r = 400 \/ Http.status r = 500)
      /\ get_opt (Http.body r) "success" = JBool false).
Proof.
  unfold Pose.detect. destruct file as [imagePath|]; simpl.
  2: { intros [= <-]. right. split; [now left|reflexivity]. }
  destruct (Pose.existsSync disk (Pose.modelPath _ _)); simpl.
  2: { intros [= <-]. left. now split. }
  destruct (Pose.existsSync disk (Pose.bumblefootModelPath _ _)); simpl.
  2: { intros [= <-]. right. split; [now right|reflexivity]. }
  destruct (Pose.existsSync disk (Pose.sequentialScriptPath _ _)); simpl.
  2: { intros [= <-]. right. split; [now right|reflexivity]. }
  destruct child as [code stdout stderr| |e]; simpl; try discriminate.
  unfold Pose.on_close. destruct (Pose.existsSync disk imagePath); simpl; [|discriminate].
  assert (F : forall msg, Some (Http.status_json 500 (Pose.failure msg)) = Some r ->
            (Http.status r = 200 /\ get_opt (Http.body r) "success" = JBool true)
            \/ ((Http.status r = 400 \/ Http.status r = 500)
                /\ get_opt (Http.body r) "success" = JBool false)).
  { intros msg [= <-]. right. split; [now right|reflexivity]. }
  destruct code as [[| |]|]; simpl; try apply F.
  destruct (Pose.parse_output JSON_parse _) as [r'|e] eqn:E; simpl; [|apply F].
  intros [= <-]. destruct (parse_output_status _ _ _ E) as [H|[H1 H2]]; [now left|].
  right. split; [now right|exact H2].
Qed.

Lemma detect_status_matches_success_witness :
  Http.status (Http.json Pose.mockPayload) = 200
  /\ get_opt (Http.body (Http.json Pose.mockPayload)) "success" = JBool true
  \/ (Http.status (Http.json Pose.mockPayload) = 400
      \/ Http.status (Http.json Pose.mockPayload) = 500)
     /\ get_opt (Http.body (Http.json Pose.mockPayload)) "success" = JBool false.
Proof.
  apply (detect_status_matches_success Json.parse Pose.join app_dir bare_disk
           (Some upload) Pose.Hangs).
  vm_compute. reflexivity.
Defined.

(** X3: when the parsed result's own [success] is not truthy, the answer is a
    500 that carries the result's [error] and [stage], or "Sequential
    analysis failed" and "unknown" where the result has none. *)
Theorem detect_analysis_failed
    (JSON_parse : string -> Completion JsValue)
    (path_join : string -> string -> string) (dirname : string)
    (disk : gset string) (imagePath : string) (stdout stderr : list string)
    (text : string) (fields : list (string * JsValue)) :
  deployed path_join dirname disk -> imagePath ∈ disk ->
  Pose.jsonMatch (String.concat "" stdout) = Some text ->
  JSON_parse text = Normal (JObj fields) ->
  truthy (assoc "success" fields) = false ->
  exists error stage,
    Pose.response (Pose.detect JSON_parse path_join dirname disk (Some imagePath)
                     (Pose.Closes (Some 0%Z) stdout stderr))
    = Some (Http.status_json 500
              (JObj [("success", JBool false); ("error", error); ("stage", stage)]))
    /\ (truthy (assoc "error" fields) = true -> error = assoc "error" fields)
    /\ (truthy (assoc "error" fields) = false -> error = JStr "Sequential analysis failed")
    /\ (truthy (assoc "stage" fields) = true -> stage = assoc "stage" fields)
    /\ (truthy (assoc "stage" fields) = false -> stage = JStr "unknown").
Proof.
  intros D H Hm Hp Hs.
  exists (or (assoc "error" fields) (JStr "Sequential analysis failed")),
         (or (assoc "stage" fields) (JStr "unknown")).
  split.
  - rewrite (detect_closes _ _ _ _ _ _ _ _ D). simpl.
    unfold Pose.on_close, Pose.parse_output.
    rewrite (existsSync_true _ _ H), Hm, Hp. simpl. now rewrite Hs.
  - unfold or. repeat split; intros E; now rewrite E.
Qed.

Lemma detect_analysis_failed_witness :
  exists error stage,
    Pose.response (Pose.detect Json.parse Pose.join app_dir deployed_disk (Some upload)
                     (Pose.Closes (Some 0%Z) ["stage 1 "; failed_report] []))
    = Some (Http.status_json 500
              (JObj [("success", JBool false); ("error", error); ("stage", stage)]))
    /\ error = JStr "No rooster detected" /\ stage = JStr "unknown".
Proof.
  destruct (detect_analysis_failed Json.parse Pose.join app_dir deployed_disk upload
              ["stage 1 "; failed_report] [] failed_report
              [("success", JBool false); ("error", JStr "No rooster detected")]
              deployed_disk_deployed upload_on_deployed_disk
              ltac:(vm_compute; reflexivity) ltac:(vm_compute; reflexivity) eq_refl)
    as (error & stage & Hr & He & _ & _ & Hst).
  exists error, stage. split; [exact Hr|]. split; [now apply He|now apply Hst].
Defined.


(** X5: a request goes unanswered in three cases only, all after the spawn:
    the child never closes, it cannot be started, or the upload is gone
    from the disk when the child closes. *)
Theorem detect_unanswered
    (JSON_parse : string -> Completion JsValue)
    (path_join : string -> string -> string) (dirname : string)
    (disk : gset string) (file : option string) (child : Pose.ChildProcess) :
  Pose.response (Pose.detect JSON_parse path_join dirname disk file child) = None <->
  exists imagePath,
    file = Some imagePath /\ deployed path_join dirname disk
    /\ (child = Pose.Hangs
        \/ (exists e, child = Pose.FailsToStart e)
        \/ ((imagePath ∉ disk)
            /\ exists code stdout stderr, child = Pose.Closes code stdout stderr)).
Proof.
  unfold Pose.detect, deployed, Pose.existsSync. split.
  - destruct file as [imagePath|]; [|discriminate].
    repeat (case_bool_decide; simpl; [|discriminate]).
    intros R. exists imagePath. split; [reflexivity|]. split; [now repeat split|].
    destruct child as [code stdout stderr| |e]; [|now left|right; left; now exists e].
    right. right. unfold Pose.on_close, Pose.existsSync in R. simpl in R.
    case_bool_decide; [|split; [assumption|now exists code, stdout, stderr]].
    exfalso. destruct code as [[| |]|]; simpl in R; try discriminate.
    now destruct (Pose.parse_output JSON_parse _).
  - intros (imagePath & -> & (Hm & Hb & Hs) & H).
    rewrite !bool_decide_eq_true_2 by assumption. simpl.
    destruct H as [->|[(e & ->)|(Hn & code & stdout & stderr & ->)]]; try reflexivity.
    simpl. unfold Pose.on_close, Pose.existsSync.
    now rewrite bool_decide_eq_false_2.
Qed.

Lemma resolved_user (authHeader : option string) :
  Auth.getUserIdFromAuth authHeader = "00000000-0000-0000-0000-000000000001".
Proof.
  destruct authHeader as [h|]; [|reflexivity]. unfold Auth.getUserIdFromAuth.
  now destruct (negb _ || negb _).
Qed.

(** ** [trim] *)

Lemma trimStart_skip (s : string) :
  Reports.trimStart s
  = match Reports.skip_space s with
    | Some r => Reports.trimStart r
    | None => s
    end.
Proof.
  destruct s as [|c [|d [|e r]]]; simpl; try reflexivity;
    destruct (Reports.is_space c); try reflexivity;
    destruct (Reports.is_space2 c d); try reflexivity;
    destruct (Reports.is_space3 c d e); reflexivity.
Qed.

Lemma all_space_skip (s : string) :
  Reports.all_space s
  = match s with
    | EmptyString => true
    | _ => match Reports.skip_space s with
           | Some r => Reports.all_space r
           | None => false
           end
    end.
Proof.
  destruct s as [|c [|d [|e r]]]; simpl; try reflexivity;
    destruct (Reports.is_space c); try reflexivity;
    destruct (Reports.is_space2 c d); try reflexivity;
    destruct (Reports.is_space3 c d e); reflexivity.
Qed.

Lemma skip_space_shorter (s r : string) :
  Reports.skip_space s = Some r -> String.length r < String.length s.
Proof.
  destruct s as [|c [|d [|e t]]]; simpl; try discriminate;
    destruct (Reports.is_space c); try discriminate;
    try (intros [= <-]; simpl; lia);
    destruct (Reports.is_space2 c d); try discriminate;
    try (intros [= <-]; simpl; lia);
    destruct (Reports.is_space3 c d e); try discriminate;
    intros [= <-]; simpl; lia.
Qed.

Lemma skip_space_append (a r b : string) :
  Reports.skip_space a = Some r -> Reports.skip_space (a +:+ b) = Some (r +:+ b).
Proof.
  destruct a as [|c [|d [|e t]]]; simpl; try discriminate;
    destruct (Reports.is_space c); try discriminate;
    try (intros [= <-]; reflexivity);
    destruct (Reports.is_space2 c d); try discriminate;
    try (intros [= <-]; reflexivity);
    destruct (Reports.is_space3 c d e); try discriminate;
    intros [= <-]; reflexivity.
Qed.

Lemma trimStart_no_space (s : string) :
  Reports.skip_space (Reports.trimStart s) = None.
Proof.
  remember (String.length s) as n eqn:E.
  revert s E. induction (lt_wf n) as [n _ IH]. intros s ->.
  rewrite trimStart_skip.
  destruct (Reports.skip_space s) as [r|] eqn:K; [|exact K].
  exact (IH _ (skip_space_shorter _ _ K) r eq_refl).
Qed.

Lemma trimStart_fixed (s : string) :
  Reports.skip_space s = None -> Reports.trimStart s = s.
Proof. intros H. rewrite trimStart_skip. now rewrite H. Qed.

Lemma all_space_append (a b : string) :
  Reports.all_space a = true -> Reports.all_space b = true ->
  Reports.all_space (a +:+ b) = true.
Proof.
  remember (String.length a) as n eqn:E.
  revert a E. induction (lt_wf n) as [n _ IH]. intros a -> Ha Hb.
  destruct a as [|c t]; [exact Hb|].
  rewrite all_space_skip in Ha.
  destruct (Reports.skip_space (String c t)) as [r|] eqn:K; [|discriminate].
  rewrite all_space_skip. simpl String.append.
  change (String c (t +:+ b)) with (String c t +:+ b).
  rewrite (skip_space_append _ _ b K).
  exact (IH _ (skip_space_shorter _ _ K) r eq_refl Ha Hb).
Qed.

Lemma trimEnd_split (s : string) :
  exists w, s = Reports.trimEnd s +:+ w /\ Reports.all_space w = true.
Proof.
  induction s as [|c r (w & E & H)].
  - now exists "".
  - cbn [Reports.trimEnd]. destruct (Reports.all_space (String c r)) eqn:A.
    + now exists (String c r).
    + exists w. split; [|exact H]. simpl. now rewrite <- E.
Qed.

Lemma trimEnd_idempotent (s : string) :
  Reports.trimEnd (Reports.trimEnd s) = Reports.trimEnd s.
Proof.
  induction s as [|c r IH]; [reflexivity|].
  cbn [Reports.trimEnd]. destruct (Reports.all_space (String c r)) eqn:A; [reflexivity|].
  cbn [Reports.trimEnd].
  destruct (Reports.all_space (String c (Reports.trimEnd r))) eqn:B.
  - exfalso. destruct (trimEnd_split r) as (w & E & H).
    pose proof (all_space_append _ _ B H) as K.
    change (String c (Reports.trimEnd r) +:+ w)
      with (String c (Reports.trimEnd r +:+ w)) in K.
    rewrite <- E in K. congruence.
  - now rewrite IH.
Qed.

Lemma trimEnd_no_space (s : string) :
  Reports.skip_space s = None -> Reports.skip_space (Reports.trimEnd s) = None.
Proof.
  intros H. destruct (Reports.skip_space (Reports.trimEnd s)) as [r|] eqn:K; [|reflexivity].
  destruct (trimEnd_split s) as (w & E & _).
  apply (skip_space_append _ _ w) in K. rewrite <- E in K. congruence.
Qed.

Lemma trim_idempotent (s : string) : Reports.trim (Reports.trim s) = Reports.trim s.
Proof.
  unfold Reports.trim.
  rewrite (trimStart_fixed _ (trimEnd_no_space _ (trimStart_no_space s))).
  apply trimEnd_idempotent.
Qed.

(** [trim] strips the white space that is not ASCII as well, and leaves
    what is between. *)
Lemma trim_strips_all_white_space :
  Reports.trim (blank +:+ " a" +:+ blank +:+ "b " +:+ blank) = "a" +:+ blank +:+ "b"
  /\ Reports.trim blank = "".
Proof. split; vm_compute; reflexivity. Qed.

Lemma truthy_JStr (s : string) : truthy (JStr s) = true <-> s <> "".
Proof.
  simpl. rewrite negb_true_iff. split.
  - intros H ->. discriminate.
  - intros H. now apply String.eqb_neq.
Qed.

Lemma trimmed_or_null_Some (x : option string) (s : string) :
  Reports.trimmed_or_null x = Some s -> s <> "" /\ Reports.trim s = s.
Proof.
  unfold Reports.trimmed_or_null. destruct x as [t|]; [|discriminate].
  destruct (truthy (JStr (Reports.trim t))) eqn:E; [|discriminate].
  intros [= <-]. split; [now apply truthy_JStr|apply trim_idempotent].
Qed.

(** ** What [createReport] writes *)

(** X6: [createReport] answers 201, 400, 404 or 500, and unless it answers 201
    the database is left exactly as it was. *)
Theorem createReport_writes_only_on_201 (db : Reports.Database)
    (authorization : option string) (body : Reports.CreateReportRequest) :
  let answer := Reports.createReport db authorization body in
  (Http.status (fst answer) = 201
   \/ (snd answer = db
       /\ (Http.status (fst answer) = 400 \/ Http.status (fst answer) = 404
           \/ Http.status (fst answer) = 500)
       /\ get_opt (Http.body (fst answer)) "success" = JBool false)).
Proof.
  intros answer. unfold answer, Reports.createReport, Reports.createReport_try.
  destruct (negb _ || negb _ || negb _); simpl.
  { right. split; [reflexivity|]. split; [now left|reflexivity]. }
  destruct (Reports.select_scan db _ _) as [scan|]; simpl.
  2: { right. split; [reflexivity|]. split; [right; now left|reflexivity]. }
  destruct (Reports.injury_counts scan) as [counts|e]; simpl.
  2: { right. split; [reflexivity|]. split; [right; now right|reflexivity]. }
  unfold Reports.insert_report. destruct (Reports.accepts db _); simpl; [now left|].
  right. split; [reflexivity|]. split; [right; now right|reflexivity].
Qed.

(** X7: [createReport] keeps the table well formed: when every row of
    [health_reports] names a scan and a rooster, belongs to the placeholder
    user, is a draft and has trimmed, non-empty texts, so does every row
    after the request, whatever the request holds. *)
Theorem createReport_keeps_reports_well_formed (db : Reports.Database)
    (authorization : option string) (body : Reports.CreateReportRequest) :
  Forall well_formed_report (Reports.health_reports db) ->
  Forall well_formed_report
    (Reports.health_reports (snd (Reports.createReport db authorization body))).
Proof.
  intros W. unfold Reports.createReport, Reports.createReport_try.
  destruct (truthy (of_str (Reports.Request.scanId body))) eqn:E1; simpl; [|exact W].
  destruct (truthy (of_str (Reports.Request.roosterId body))) eqn:E2; simpl; [|exact W].
  destruct (truthy (of_str (option_map Reports.trim (Reports.Request.title body))))
    eqn:E3; simpl; [|exact W].
  destruct (Reports.select_scan db _ _) as [scan|]; simpl; [|exact W].
  destruct (Reports.injury_counts scan) as [counts|e]; simpl; [|exact W].
  unfold Reports.insert_report. destruct (Reports.accepts db _); simpl; [|exact W].
  apply Forall_app. split; [exact W|]. constructor; [|constructor].
  apply truthy_provided in E1 as (s1 & H1 & N1).
  apply truthy_provided in E2 as (s2 & H2 & N2).
  apply truthy_provided in E3 as (s3 & H3 & N3).
  rewrite H1, H2. destruct (Reports.Request.title body) as [t|]; [|discriminate].
  injection H3 as <-.
  unfold well_formed_report; simpl.
  split; [exact N1|]. split; [exact N2|].
  split; [apply resolved_user|].
  split; [split; [exact N3|apply trim_idempotent]|].
  do 3 (split; [intros s Hs; now apply trimmed_or_null_Some in Hs|]).
  split; [|reflexivity].
  destruct (truthy (of_str (Reports.Request.reportType body))) eqn:E4; [|discriminate].
  apply truthy_provided in E4 as (s4 & -> & N4). exact N4.
Qed.

Lemma createReport_keeps_reports_well_formed_witness :
  Forall well_formed_report
    (Reports.health_reports
       (snd (Reports.createReport example_db None
               (report_request (Some "scan-1") (Some "rooster-1") (Some " Checkup "))))).
Proof.
  apply (createReport_keeps_reports_well_formed example_db None
           (report_request (Some "scan-1") (Some "rooster-1") (Some " Checkup "))).
  constructor.
Defined.

(** ** When the scan mappers throw *)

Lemma injury_type_cases (inj : JsValue) :
  (nullish inj = true /\ exists e, Scans.injury_type inj = Throw e)
  \/ (nullish inj = false /\ exists v, Scans.injury_type inj = Normal v).
Proof.
  destruct inj; simpl; try (right; split; [reflexivity|]; eexists; reflexivity);
    left; (split; [reflexivity|]; eexists; reflexivity).
Qed.

Lemma is_severe_total (inj : JsValue) :
  nullish inj = false -> Scans.is_severe inj = Normal (severe inj).
Proof. destruct inj; simpl; intros H; try discriminate; reflexivity. Qed.

Lemma map_injury_type (items : list JsValue) :
  (existsb nullish items = true /\ exists e, Js.map Scans.injury_type items = Throw e)
  \/ (existsb nullish items = false
      /\ exists names, Js.map Scans.injury_type items = Normal names).
Proof.
  induction items as [|x items IH]; simpl.
  - right. split; [reflexivity|]. now exists [].
  - destruct (injury_type_cases x) as [[-> (e & ->)]|[-> (v & ->)]]; simpl.
    + left. split; [reflexivity|]. now exists e.
    + destruct IH as [[-> (e & ->)]|[-> (names & ->)]]; simpl.
      * left. split; [reflexivity|]. now exists e.
      * right. split; [reflexivity|]. now eexists.
Qed.

Lemma some_is_severe_total (items : list JsValue) :
  existsb nullish items = false ->
  Js.some Scans.is_severe items = Normal (existsb severe items).
Proof.
  induction items as [|x items IH]; simpl; [reflexivity|].
  intros H. apply orb_false_iff in H as [Hx Hr].
  rewrite (is_severe_total x Hx). simpl.
  destruct (severe x); simpl; [reflexivity|now apply IH].
Qed.

Lemma filter_is_severe_total (items : list JsValue) :
  existsb nullish items = false ->
  Js.filter Scans.is_severe items = Normal (List.filter severe items).
Proof.
  induction items as [|x items IH]; simpl; [reflexivity|].
  intros H. apply orb_false_iff in H as [Hx Hr].
  rewrite (is_severe_total x Hx). simpl. rewrite (IH Hr). simpl.
  now destruct (severe x).
Qed.

Lemma injuries_cases (scan : Scans.ScanRow) :
  (has_null_injury scan = true /\ exists e, Scans.injuries scan = Throw e)
  \/ (has_null_injury scan = false /\ exists names, Scans.injuries scan = Normal names).
Proof.
  unfold has_null_injury, Scans.injuries.
  destruct (Scans.injury_detections scan) as [| |b|q|s|items|fields]; simpl;
    try (right; split; [reflexivity|]; eexists; reflexivity).
  destruct (map_injury_type items) as [[-> (e & ->)]|[-> (names & ->)]]; simpl.
  - left. split; [reflexivity|]. now exists e.
  - right. split; [reflexivity|]. now eexists.
Qed.

Lemma getScans_map_cases (scan : Scans.ScanRow) :
  (has_null_injury scan = true /\ exists e, Scans.getScans_map scan = Throw e)
  \/ (has_null_injury scan = false /\ exists mapped, Scans.getScans_map scan = Normal mapped).
Proof.
  unfold Scans.getScans_map.
  destruct (injuries_cases scan) as [[H (e & ->)]|[H (names & ->)]]; simpl.
  - left. split; [exact H|]. now exists e.
  - right. split; [exact H|]. unfold has_null_injury in H.
    destruct (Scans.injury_detections scan) as [| |b|q|s|items|fields]; simpl;
      rewrite ?andb_false_r; simpl; try (eexists; reflexivity).
    simpl in H. destruct items as [|x items]; simpl; [eexists; reflexivity|].
    pose proof (some_is_severe_total (x :: items) H) as K. simpl in K.
    destruct (Scans.is_severe x) as [bx|e]; simpl in K |- *; [|discriminate].
    destruct bx; simpl; [eexists; reflexivity|]. rewrite K. simpl. eexists; reflexivity.
Qed.

(** X8: the three scan mappers throw on the same rows: those whose
    [injury_detections] is an array with a [null] or [undefined] entry.
    On every other row each of them returns a mapped scan. *)
Theorem scan_mappers_throw_on_null_entries (scan : Scans.ScanRow) :
  (has_null_injury scan = true /\
   (exists e, Scans.getScans_map scan = Throw e)
   /\ (exists e, Scans.getScanById_map scan = Throw e)
   /\ (exists e, Scans.createScan_map scan = Throw e))
  \/ (has_null_injury scan = false /\
      (exists mapped, Scans.getScans_map scan = Normal mapped)
      /\ (exists mapped, Scans.getScanById_map scan = Normal mapped)
      /\ (exists mapped, Scans.createScan_map scan = Normal mapped)).
Proof.
  destruct (getScans_map_cases scan) as [[H G]|[H G]]; [left|right];
    (split; [exact H|]; split; [exact G|]);
    unfold Scans.getScanById_map, Scans.createScan_map;
    destruct (injuries_cases scan) as [[H' (e & ->)]|[H' (names & ->)]];
    simpl; try congruence; split; eexists; reflexivity.
Qed.

(** C4 fails on the code: [getScanById] and [createScan] never read the
    injury entries.  A scan with a severe entry and a confidence that is
    not above 0.8 is "high" for [getScans], and for [getScanById] and
    [createScan] it is "medium" or "low", by the 0.5 threshold alone. *)
Theorem scan_severity_ignores_severe_entries (scan : Scans.ScanRow)
    (items : list JsValue) :
  Scans.injury_detections scan = JArr items ->
  existsb nullish items = false ->
  existsb severe items = true ->
  ~ (Js.double (8 # 10) < Js.double (confidence scan))%Q ->
  exists listed single created,
    Scans.getScans_map scan = Normal listed
    /\ Scans.getScanById_map scan = Normal single
    /\ Scans.createScan_map scan = Normal created
    /\ Scans.severity listed = JStr "high"
    /\ Scans.severity single = Scans.severity created
    /\ ((Js.double (5 # 10) < Js.double (confidence scan))%Q
        /\ Scans.severity single = JStr "medium"
        \/ ~ (Js.double (5 # 10) < Js.double (confidence scan))%Q
           /\ Scans.severity single = JStr "low").
Proof.
  intros Hi Hn Hs N8.
  assert (H : has_null_injury scan = false).
  { unfold has_null_injury. rewrite Hi. exact Hn. }
  destruct (getScans_map_cases scan) as [[K _]|[_ (listed & Hl)]]; [congruence|].
  destruct (injuries_cases scan) as [[K _]|[_ (names & Hj)]]; [congruence|].
  assert (Hg : exists single, Scans.getScanById_map scan = Normal single).
  { unfold Scans.getScanById_map. rewrite Hj. simpl. eexists. reflexivity. }
  assert (Hc : exists created, Scans.createScan_map scan = Normal created).
  { unfold Scans.createScan_map. rewrite Hj. simpl. eexists. reflexivity. }
  destruct Hg as (single & Hg). destruct Hc as (created & Hc).
  exists listed, single, created.
  destruct (scan_severity scan) as (L & S).
  destruct (S single (or_introl Hg)) as (_ & M1 & L1).
  destruct (S created (or_intror Hc)) as (_ & M2 & L2).
  split; [exact Hl|]. split; [exact Hg|]. split; [exact Hc|]. split.
  - rewrite (L listed Hl), Hi.
    destruct items as [|inj rest]; [discriminate|]. now rewrite Hs.
  - destruct (Qlt_le_dec (Js.double (5 # 10)) (Js.double (confidence scan))) as [G|G].
    + rewrite (M1 N8 G), (M2 N8 G). split; [reflexivity|]. left. now split.
    + apply Qle_not_lt in G. rewrite (L1 G), (L2 G). split; [reflexivity|].
      right. now split.
Qed.

Lemma scan_severity_ignores_severe_entries_witness :
  exists listed single created,
    Scans.getScans_map severe_scan = Normal listed
    /\ Scans.getScanById_map severe_scan = Normal single
    /\ Scans.createScan_map severe_scan = Normal created
    /\ Scans.severity listed = JStr "high"
    /\ Scans.severity single = JStr "low"
    /\ Scans.severity created = JStr "low".
Proof.
  assert (N8 : ~ (Js.double (8 # 10) < Js.double (confidence severe_scan))%Q).
  { intros L. vm_compute in L. discriminate. }
  destruct (scan_severity_ignores_severe_entries severe_scan _ eq_refl eq_refl eq_refl N8)
    as (listed & single & created & Hl & Hg & Hc & Hh & He & [[G _]|[_ Hlow]]).
  { vm_compute in G. discriminate. }
  exists listed, single, created.
  split; [exact Hl|]. split; [exact Hg|]. split; [exact Hc|]. split; [exact Hh|].
  split; [exact Hlow|]. rewrite <- He. exact Hlow.
Defined.

(** ** [getScans] and [getScanById] *)

Lemma Forall2_In_left {A B : Type} (P : A -> B -> Prop)
    (l : list A) (k : list B) (x : A) :
  Forall2 P l k -> In x l -> exists y, In y k /\ P x y.
Proof.
  induction 1 as [|a b l k Hab _ IH]; intros Hin; [destruct Hin|].
  destruct Hin as [<-|Hin].
  - exists b. split; [now left|exact Hab].
  - destruct (IH Hin) as (y & Hy & Hp). exists y. split; [now right|exact Hp].
Qed.

Lemma map_rows_cases (rows : list Scans.ScanRow) :
  (existsb has_null_injury rows = true
   /\ exists e, ScanRoutes.map_rows Scans.getScans_map rows = Throw e)
  \/ (existsb has_null_injury rows = false
      /\ exists mapped, ScanRoutes.map_rows Scans.getScans_map rows = Normal mapped
           /\ Forall2 (fun scan m => Scans.getScans_map scan = Normal m) rows mapped).
Proof.
  induction rows as [|row rows IH]; simpl.
  - right. split; [reflexivity|]. exists []. split; [reflexivity|constructor].
  - destruct (getScans_map_cases row) as [[-> (e & ->)]|[-> (m & Hm)]]; simpl.
    + left. split; [reflexivity|]. now exists e.
    + rewrite Hm. simpl.
      destruct IH as [[-> (e & ->)]|[-> (ms & -> & L)]]; simpl.
      * left. split; [reflexivity|]. now exists e.
      * right. split; [reflexivity|]. eexists. split; [reflexivity|].
        now constructor.
Qed.

(** X9: [GET /api/scans] is all or nothing.  It answers 500 when the
    database answers with an error, and when one scan of the resolved user
    has a [null] or [undefined] entry in its [injury_detections];
    otherwise it answers 200 with the scans of that user, each mapped by
    [getScans]'s mapper, in the order the database gives them. *)
Theorem getScans_all_or_nothing
    (order : list Scans.ScanRow -> list Scans.ScanRow)
    (store : ScanRoutes.ScanStore) (error : option string)
    (authorization : option string) :
  (forall rows, Permutation (order rows) rows) ->
  let mine := order (ScanRoutes.of_user (Auth.getUserIdFromAuth authorization)
                       (ScanRoutes.scans store)) in
  let answer := ScanRoutes.getScans order store error authorization in
  let failed := Http.status_json 500 (ScanRoutes.apiError "Failed to fetch scans") in
  (forall scan, In scan mine <->
                In scan (ScanRoutes.scans store)
                /\ Scans.user_id scan = Auth.getUserIdFromAuth authorization)
  /\ (error <> None -> answer = failed)
  /\ ((exists scan, In scan mine /\ has_null_injury scan = true) -> answer = failed)
  /\ (error = None ->
      (forall scan, In scan mine -> has_null_injury scan = false) ->
      exists mapped,
        answer = Http.json (ScanRoutes.apiResponse (JArr mapped))
        /\ Forall2 (fun scan m => Scans.getScans_map scan = Normal m) mine mapped).
Proof.
  intros P mine answer failed. split.
  { intros scan. unfold mine, ScanRoutes.of_user. split.
    - intros H. apply (Permutation_in _ (P _)) in H.
      apply filter_In in H as [H E]. now apply String.eqb_eq in E.
    - intros [H E]. apply (Permutation_in _ (Permutation_sym (P _))).
      apply filter_In. split; [exact H|]. now apply String.eqb_eq. }
  unfold answer, ScanRoutes.getScans. fold mine. fold failed.
  destruct error as [code|].
  { split; [reflexivity|]. split; [reflexivity|]. intros [=]. }
  split; [intros N; now destruct N|].
  destruct (map_rows_cases mine) as [[E (e & ->)]|[E (mapped & -> & L)]].
  - split; [reflexivity|]. intros _ A.
    apply existsb_exists in E as (scan & Hin & Hn).
    rewrite (A scan Hin) in Hn. discriminate.
  - split.
    + intros (scan & Hin & Hn). exfalso.
      assert (K : existsb has_null_injury mine = true).
      { apply existsb_exists. now exists scan. }
      congruence.
    + intros _ _. exists mapped. now split.
Qed.

Lemma getScans_all_or_nothing_witness :
  let store := {| ScanRoutes.scans := [mild_scan; foreign_scan; broken_scan];
                  ScanRoutes.accepts := ScanRoutes.accepts example_store;
                  ScanRoutes.generate := ScanRoutes.generate example_store;
                  ScanRoutes.numeric := ScanRoutes.numeric example_store |} in
  ScanRoutes.getScans (@rev Scans.ScanRow) store None None
  = Http.status_json 500 (ScanRoutes.apiError "Failed to fetch scans")
  /\ exists mapped listed,
       Scans.getScans_map severe_scan = Normal mapped
       /\ ScanRoutes.getScans (@rev Scans.ScanRow) example_store None None
          = Http.json (ScanRoutes.apiResponse (JArr listed))
       /\ In mapped listed.
Proof.
  split.
  - apply (getScans_all_or_nothing (@rev Scans.ScanRow)
             {| ScanRoutes.scans := [mild_scan; foreign_scan; broken_scan];
                ScanRoutes.accepts := ScanRoutes.accepts example_store;
                ScanRoutes.generate := ScanRoutes.generate example_store;
                ScanRoutes.numeric := ScanRoutes.numeric example_store |} None None).
    + intros rows. apply Permutation_sym, Permutation_rev.
    + exists broken_scan. split; [now left|reflexivity].
  - destruct (getScans_all_or_nothing (@rev Scans.ScanRow) example_store None None)
      as (_ & _ & _ & H).
    { intros rows. apply Permutation_sym, Permutation_rev. }
    assert (A : forall scan,
              In scan (rev (ScanRoutes.of_user (Auth.getUserIdFromAuth None)
                              (ScanRoutes.scans example_store))) ->
              has_null_injury scan = false).
    { intros scan Hin. vm_compute in Hin.
      repeat (destruct Hin as [<-|Hin]; [reflexivity|]). destruct Hin. }
    destruct (H eq_refl A) as (listed & Hl & F).
    assert (Hm : In severe_scan
                   (rev (ScanRoutes.of_user (Auth.getUserIdFromAuth None)
                           (ScanRoutes.scans example_store)))).
    { now left. }
    destruct (Forall2_In_left _ _ _ _ F Hm) as (mapped & Hin & Hmap).
    exists mapped, listed. now split.
Defined.

(** X10: [GET /api/scans/:id] answers 200 only with a stored scan that
    has the requested id and belongs to the resolved user, mapped by
    [getScanById]'s mapper; it answers 404 when no scan with that id
    belongs to that user or the database says [PGRST116], and 500 when the
    database answers with any other error. *)
Theorem getScanById_own_scan_only (store : ScanRoutes.ScanStore)
    (error : option string) (authorization : option string) (id : string) :
  let answer := ScanRoutes.getScanById store error authorization id in
  (Http.status answer = 200 ->
   error = None
   /\ exists scan mapped,
        In scan (ScanRoutes.scans store)
        /\ Scans.id scan = id
        /\ Scans.user_id scan = Auth.getUserIdFromAuth authorization
        /\ Scans.getScanById_map scan = Normal mapped
        /\ answer = Http.json (ScanRoutes.apiResponse mapped)
        /\ get_opt mapped "id" = JStr id
        /\ get_opt mapped "userId" = JStr (Auth.getUserIdFromAuth authorization))
  /\ (error = None ->
      (forall scan, In scan (ScanRoutes.scans store) -> Scans.id scan = id ->
         Scans.user_id scan <> Auth.getUserIdFromAuth authorization) ->
      answer = Http.status_json 404 (ScanRoutes.apiError "Scan not found"))
  /\ (error = Some "PGRST116" ->
      answer = Http.status_json 404 (ScanRoutes.apiError "Scan not found"))
  /\ (forall code, error = Some code -> code <> "PGRST116" ->
      answer = Http.status_json 500 (ScanRoutes.apiError "Failed to get scan")).
Proof.
  intros answer. unfold answer, ScanRoutes.getScanById, ScanRoutes.of_user.
  destruct error as [code|].
  { destruct (String.eqb_spec code "PGRST116") as [->|N].
    - split; [discriminate|]. split; [discriminate|]. split; [reflexivity|].
      intros c [= <-] K. now destruct K.
    - split; [discriminate|]. split; [discriminate|]. split; [congruence|].
      reflexivity. }
  destruct (List.filter _ (List.filter _ (ScanRoutes.scans store)))
    as [|scan [|scan' rows]] eqn:E.
  - split; [discriminate|]. split; [reflexivity|]. split; [discriminate|]. intros c [=].
  - assert (M : In scan (List.filter (fun row => String.eqb (Scans.id row) id)
                           (List.filter
                              (fun row => String.eqb (Scans.user_id row)
                                            (Auth.getUserIdFromAuth authorization))
                              (ScanRoutes.scans store)))) by (rewrite E; now left).
    apply filter_In in M as [M Hid]. apply filter_In in M as [Hin Hu].
    apply String.eqb_eq in Hid, Hu. split; [|split; [|split]].
    + unfold Scans.getScanById_map.
      destruct (Scans.injuries scan) as [names|e] eqn:Ei; simpl; [|discriminate].
      intros _. split; [reflexivity|]. exists scan. eexists. rewrite Ei. simpl.
      repeat split; try eassumption; try reflexivity.
      * simpl. now rewrite Hid.
      * simpl. now rewrite Hu.
    + intros _ N. exfalso. exact (N scan Hin Hid Hu).
    + discriminate.
    + intros c [=].
  - split; [discriminate|]. split; [reflexivity|]. split; [discriminate|]. intros c [=].
Qed.

Lemma getScanById_own_scan_only_witness :
  ScanRoutes.getScanById example_store None None "scan-2"
  = Http.status_json 404 (ScanRoutes.apiError "Scan not found")
  /\ ScanRoutes.getScanById example_store (Some "PGRST301") None "scan-1"
     = Http.status_json 500 (ScanRoutes.apiError "Failed to get scan").
Proof.
  split.
  - apply (proj1 (proj2 (getScanById_own_scan_only example_store None None "scan-2")));
      [reflexivity|].
    intros scan [<-|[<-|[]]] Hid; [discriminate Hid|]. discriminate.
  - apply (proj2 (proj2 (proj2 (getScanById_own_scan_only example_store
                                   (Some "PGRST301") None "scan-1"))) "PGRST301");
      [reflexivity|discriminate].
Defined.

(** ** [createScan] *)

(** What an entry written by [createScan] looks like. *)
Lemma truthy_or (a b : JsValue) : truthy b = true -> truthy (or a b) = true.
Proof. intros H. unfold or. now destruct (truthy a) eqn:E. Qed.

Lemma scanData_object (userId : string) (body : ScanRoutes.CreateScanRequest) :
  truthy (ScanRoutes.Request.results body) = true ->
  exists data, ScanRoutes.scanData userId body = Normal data.
Proof.
  intros T. unfold ScanRoutes.scanData.
  destruct (ScanRoutes.Request.results body) as [| |b|q|s|items|fields];
    try discriminate; simpl;
    try (eexists; reflexivity).
  destruct (truthy (assoc "injury_classification" fields)) eqn:E; simpl;
    [|eexists; reflexivity].
  destruct (assoc "injury_classification" fields); try discriminate; simpl;
    eexists; reflexivity.
Qed.

(** The entries [createScan] writes, read back: their [type]s are the
    request's injuries in order, followed by "classification_result" when
    the results carry a truthy [injury_classification]; none of them is
    [null] and none has a [severity]; each has a truthy [confidence]. *)
Lemma scanData_entries (userId : string)
    (body : ScanRoutes.CreateScanRequest) (data : ScanRoutes.ScanData) :
  ScanRoutes.scanData userId body = Normal data ->
  List.map (fun inj => get_opt inj "type") (ScanRoutes.injury_detections data)
  = (List.map JStr (default [] (ScanRoutes.Request.injuries body))
     ++ (if truthy (get_opt (ScanRoutes.Request.results body) "injury_classification")
         then [JStr "classification_result"] else []))%list
  /\ Forall (fun inj => nullish inj = false
                        /\ get_opt inj "severity" = JUndefined
                        /\ truthy (get_opt inj "confidence") = true)
       (ScanRoutes.injury_detections data)
  /\ truthy (ScanRoutes.analysis_confidence data) = true
  /\ truthy (ScanRoutes.processing_time_ms data) = true
  /\ truthy (ScanRoutes.model_version data) = true.
Proof.
  unfold ScanRoutes.scanData.
  destruct (ScanRoutes.Request.results body) as [| |b|q|s|items|fields] eqn:R;
    simpl; try discriminate.
  1-4: intros [= <-]; simpl;
       destruct (ScanRoutes.Request.injuries body) as [names|]; simpl;
       (split; [rewrite ?app_nil_r, ?map_map; reflexivity|]);
       (split; [|now repeat split]);
       [induction names; simpl; constructor; [now repeat split|assumption]
       |constructor].
  set (poseConfidence := or (or (assoc "pose_confidence" fields)
                                (assoc "combined_confidence" fields)) (JNum (75 # 100))).
  set (analysisType := or (assoc "analysis_type" fields) (JStr "basic_scan")).
  assert (TP : truthy poseConfidence = true) by (now apply truthy_or).
  assert (F : Forall (fun inj => nullish inj = false
                                 /\ get_opt inj "severity" = JUndefined
                                 /\ truthy (get_opt inj "confidence") = true)
                (match ScanRoutes.Request.injuries body with
                 | Some names =>
                     List.map (fun injury => JObj [("type", JStr injury);
                                                   ("confidence", poseConfidence);
                                                   ("source", analysisType)]) names
                 | None => []
                 end)).
  { destruct (ScanRoutes.Request.injuries body) as [names|]; [|constructor].
    induction names; simpl; constructor; [now repeat split|assumption]. }
  assert (M : List.map (fun inj => get_opt inj "type")
                (match ScanRoutes.Request.injuries body with
                 | Some names =>
                     List.map (fun injury => JObj [("type", JStr injury);
                                                   ("confidence", poseConfidence);
                                                   ("source", analysisType)]) names
                 | None => []
                 end)
              = List.map JStr (default [] (ScanRoutes.Request.injuries body))).
  { destruct (ScanRoutes.Request.injuries body) as [names|]; [|reflexivity].
    simpl. now rewrite map_map. }
  assert (T3 : truthy (or (assoc "processing_time_estimate" fields)
                          (JNum (if is_str analysisType "sequential_validation"
                                 then 2500 else 1000))) = true
               /\ truthy (or (assoc "model_version" fields)
                             (JStr (if is_str analysisType "sequential_validation"
                                    then "YOLO-v8-Sequential-1.0"
                                    else "YOLO-v8-Basic-1.0"))) = true).
  { split; apply truthy_or; now destruct (is_str analysisType _). }
  destruct (truthy (assoc "injury_classification" fields)) eqn:E; simpl.
  - destruct (assoc "injury_classification" fields) as [| |b|q|s|items|cfields] eqn:C;
      try discriminate; simpl; intros [= <-]; simpl;
      (split; [rewrite map_app, M; reflexivity|]);
      (split; [|split; [exact TP|exact T3]]);
      (apply Forall_app; split; [exact F|]); (constructor; [|constructor]);
      (split; [reflexivity|]; split; [reflexivity|]); simpl; now apply truthy_or.
  - intros [= <-]; simpl. split; [now rewrite app_nil_r|].
    split; [exact F|]. split; [exact TP|exact T3].
Qed.

Lemma scan_mappers_throw_rows (scan : Scans.ScanRow) :
  has_null_injury scan = false ->
  exists mapped, Scans.createScan_map scan = Normal mapped.
Proof.
  intros H. unfold Scans.createScan_map.
  destruct (injuries_cases scan) as [[H' _]|[_ (names & ->)]]; [congruence|].
  simpl. eexists; reflexivity.
Qed.

Lemma getScans_map_severity (scan : Scans.ScanRow) :
  has_null_injury scan = false ->
  exists mapped,
    Scans.getScans_map scan = Normal mapped
    /\ Scans.severity mapped =
       JStr (match Scans.injury_detections scan with
             | JArr (inj :: rest) =>
                 if existsb severe (inj :: rest) then "high" else "medium"
             | _ => "low"
             end).
Proof.
  intros H. unfold Scans.getScans_map.
  destruct (injuries_cases scan) as [[H' _]|[_ (names & ->)]]; [congruence|]. simpl.
  unfold has_null_injury in H.
  destruct (Scans.injury_detections scan) as [| |b|q|s|items|fields]; simpl;
    rewrite ?andb_false_r; simpl; try (eexists; split; reflexivity).
  simpl in H. destruct items as [|x items]; simpl; [eexists; split; reflexivity|].
  pose proof (some_is_severe_total (x :: items) H) as K. simpl in K.
  destruct (Scans.is_severe x) as [bx|e] eqn:Ex; simpl in K |- *; [|discriminate].
  apply is_severe_Normal in Ex as ->.
  destruct (severe x); simpl; [eexists; split; reflexivity|].
  rewrite K. simpl. eexists; split; reflexivity.
Qed.

Lemma clean_entries (items : list JsValue) :
  Forall (fun inj => nullish inj = false
                     /\ get_opt inj "severity" = JUndefined
                     /\ truthy (get_opt inj "confidence") = true) items ->
  existsb nullish items = false
  /\ existsb severe items = false
  /\ List.filter severe items = [].
Proof.
  induction 1 as [|x items (Hn & Hs & _) _ (IH1 & IH2 & IH3)]; simpl; [now repeat split|].
  unfold severe at 1 3. rewrite Hn, Hs. simpl. now repeat split.
Qed.

Lemma scanData_fixed (userId : string) (body : ScanRoutes.CreateScanRequest)
    (data : ScanRoutes.ScanData) :
  ScanRoutes.scanData userId body = Normal data ->
  ScanRoutes.user_id data = userId /\ ScanRoutes.status data = "completed".
Proof.
  unfold ScanRoutes.scanData.
  destruct (ScanRoutes.Request.results body); try discriminate; simpl;
    try (intros [= <-]; now split).
  destruct (truthy (assoc "injury_classification" fields)); simpl;
    [|intros [= <-]; now split].
  destruct (assoc "injury_classification" fields); simpl; try discriminate;
    intros [= <-]; now split.
Qed.

Lemma createScan_unfold (store : ScanRoutes.ScanStore) (authorization : option string)
    (body : ScanRoutes.CreateScanRequest) :
  truthy (ScanRoutes.Request.results body) = true ->
  exists data,
    ScanRoutes.scanData (Auth.getUserIdFromAuth authorization) body = Normal data
    /\ has_null_injury (ScanRoutes.stored store data) = false
    /\ exists mapped,
         Scans.createScan_map (ScanRoutes.stored store data) = Normal mapped
         /\ ScanRoutes.createScan store authorization body =
            if ScanRoutes.accepts store data
            then (Http.status_json 201 (ScanRoutes.apiResponse mapped),
                  {| ScanRoutes.scans :=
                       (ScanRoutes.scans store ++ [ScanRoutes.stored store data])%list;
                     ScanRoutes.accepts := ScanRoutes.accepts store;
                     ScanRoutes.generate := ScanRoutes.generate store;
                     ScanRoutes.numeric := ScanRoutes.numeric store |})
            else (Http.status_json 500 (ScanRoutes.apiError "Failed to create scan"), store).
Proof.
  intros T. destruct (scanData_object (Auth.getUserIdFromAuth authorization) body T)
    as (data & D).
  exists data. split; [exact D|].
  destruct (scanData_entries _ _ _ D) as (_ & F & _).
  destruct (clean_entries _ F) as (Hn & _ & _).
  assert (N : has_null_injury (ScanRoutes.stored store data) = false).
  { unfold has_null_injury. simpl. exact Hn. }
  split; [exact N|].
  destruct (scan_mappers_throw_rows (ScanRoutes.stored store data) N) as (mapped & M).
  exists mapped. split; [exact M|].
  unfold ScanRoutes.createScan. rewrite T, D. simpl.
  unfold ScanRoutes.insert_scan. destruct (ScanRoutes.accepts store data); [|reflexivity].
  now rewrite M.
Qed.

(** X11: [POST /api/scans] answers 400 without results, and otherwise 201 or
    500; unless it answers 201 the table is left exactly as it was, and
    when it answers 201 exactly one row was appended. *)
Theorem createScan_writes_only_on_201 (store : ScanRoutes.ScanStore)
    (authorization : option string) (body : ScanRoutes.CreateScanRequest) :
  let answer := ScanRoutes.createScan store authorization body in
  (truthy (ScanRoutes.Request.results body) = false /\
   answer = (Http.status_json 400 (ScanRoutes.apiError "Scan results are required"), store))
  \/ (truthy (ScanRoutes.Request.results body) = true /\
      ((Http.status (fst answer) = 201
        /\ exists scan, ScanRoutes.scans (snd answer)
                        = (ScanRoutes.scans store ++ [scan])%list)
       \/ answer = (Http.status_json 500 (ScanRoutes.apiError "Failed to create scan"),
                    store))).
Proof.
  intros answer. unfold answer.
  destruct (truthy (ScanRoutes.Request.results body)) eqn:T.
  - right. split; [reflexivity|].
    destruct (createScan_unfold store authorization body T)
      as (data & _ & _ & mapped & _ & ->).
    destruct (ScanRoutes.accepts store data); [left|now right].
    split; [reflexivity|]. now eexists.
  - left. split; [reflexivity|]. unfold ScanRoutes.createScan. now rewrite T.
Qed.

(** X12: a scan written by [POST /api/scans] never counts as high priority:
    it belongs to the resolved user and is "completed"; the [type]s of
    its [injury_detections] are the request's injuries in order, followed
    by "classification_result" when the results carry a truthy
    [injury_classification]; no entry is severe, so a report on it counts
    all its entries and no high-priority one, and [getScans] maps it to
    "medium" when it has entries and to "low" when it has none, never to
    "high". *)
Theorem createScan_never_high_priority (store : ScanRoutes.ScanStore)
    (authorization : option string) (body : ScanRoutes.CreateScanRequest) :
  let answer := ScanRoutes.createScan store authorization body in
  Http.status (fst answer) = 201 ->
  exists scan items mapped,
    ScanRoutes.scans (snd answer) = (ScanRoutes.scans store ++ [scan])%list
    /\ Scans.user_id scan = Auth.getUserIdFromAuth authorization
    /\ Scans.status scan = JStr "completed"
    /\ Scans.injury_detections scan = JArr items
    /\ List.map (fun inj => get_opt inj "type") items
       = (List.map JStr (default [] (ScanRoutes.Request.injuries body))
          ++ (if truthy (get_opt (ScanRoutes.Request.results body) "injury_classification")
              then [JStr "classification_result"] else []))%list
    /\ existsb severe items = false
    /\ Reports.injury_counts scan = Normal (length items, 0)
    /\ Scans.getScans_map scan = Normal mapped
    /\ Scans.severity mapped = JStr (match items with [] => "low" | _ => "medium" end).
Proof.
  intros answer. unfold answer.
  destruct (truthy (ScanRoutes.Request.results body)) eqn:T.
  2: { unfold ScanRoutes.createScan. rewrite T. discriminate. }
  destruct (createScan_unfold store authorization body T)
    as (data & D & N & mapped & _ & ->).
  destruct (ScanRoutes.accepts store data); [|discriminate]. intros _.
  destruct (scanData_entries _ _ _ D) as (Ht & F & _).
  destruct (clean_entries _ F) as (Hn & Hs & Hf).
  destruct (getScans_map_severity _ N) as (m & Hm & Hsev).
  exists (ScanRoutes.stored store data), (ScanRoutes.injury_detections data), m.
  destruct (scanData_fixed _ _ _ D) as (Hu & Hst).
  split; [reflexivity|]. split; [exact Hu|]. split; [simpl; now rewrite Hst|].
  split; [reflexivity|]. split; [exact Ht|]. split; [exact Hs|]. split.
  - unfold Reports.injury_counts. simpl. rewrite (filter_is_severe_total _ Hn). simpl.
    now rewrite Hf.
  - split; [exact Hm|]. rewrite Hsev.
    change (Scans.injury_detections (ScanRoutes.stored store data))
      with (JArr (ScanRoutes.injury_detections data)).
    destruct (ScanRoutes.injury_detections data) as [|x items]; [reflexivity|].
    now rewrite Hs.
Qed.

Lemma createScan_never_high_priority_witness :
  let answer := ScanRoutes.createScan example_store None
                  (scan_request bumblefoot_results (Some ["limp"; "swelling"])) in
  exists scan items mapped,
    ScanRoutes.scans (snd answer) = (ScanRoutes.scans example_store ++ [scan])%list
    /\ Scans.user_id scan = Auth.getUserIdFromAuth None
    /\ Scans.status scan = JStr "completed"
    /\ Scans.injury_detections scan = JArr items
    /\ List.map (fun inj => get_opt inj "type") items
       = [JStr "limp"; JStr "swelling"; JStr "classification_result"]
    /\ existsb severe items = false
    /\ Reports.injury_counts scan = Normal (length items, 0)
    /\ Scans.getScans_map scan = Normal mapped
    /\ Scans.severity mapped = JStr (match items with [] => "low" | _ => "medium" end).
Proof.
  apply (createScan_never_high_priority example_store None
           (scan_request bumblefoot_results (Some ["limp"; "swelling"]))).
  vm_compute. reflexivity.
Defined.

(** ** Roosters *)

(** X13: [POST /api/roosters] with a missing, empty or blank name answers 400
    and leaves the table as it was; more generally the table changes only
    with a 201, by exactly one row, whose name is the trimmed name of the
    request and is not empty. *)
Theorem createRooster_name_required (store : Roosters.RoosterStore)
    (authorization : option string) (body : Roosters.CreateRoosterRequest) :
  let answer := Roosters.createRooster store authorization body in
  (~ provided (option_map Reports.trim (Roosters.Request.name body)) ->
   answer = (Http.status_json 400 (Roosters.apiError "Name is required"), store))
  /\ (Http.status (fst answer) <> 201 -> snd answer = store)
  /\ (Http.status (fst answer) = 201 ->
      exists rooster,
        Roosters.roosters (snd answer) = (Roosters.roosters store ++ [rooster])%list
        /\ trimmed (Roosters.name (Roosters.data rooster))
        /\ Some (Roosters.name (Roosters.data rooster))
           = option_map Reports.trim (Roosters.Request.name body)
        /\ Roosters.status (Roosters.data rooster) <> ""
        /\ Roosters.user_id (Roosters.data rooster) = Auth.getUserIdFromAuth authorization).
Proof.
  intros answer. unfold answer, Roosters.createRooster.
  destruct (truthy (of_str (option_map Reports.trim (Roosters.Request.name body)))) eqn:E;
    simpl.
  - apply truthy_provided in E. split; [intros N; contradiction|].
    destruct (Roosters.accepts store _); simpl.
    + split; [intros N; now contradiction N|]. intros _. eexists. split; [reflexivity|].
      destruct E as (s & Hs & Hne).
      destruct (Roosters.Request.name body) as [n|] eqn:Hn; [|discriminate].
      injection Hs as <-. unfold Roosters.roosterData. simpl. rewrite Hn. simpl.
      split; [split; [exact Hne|apply trim_idempotent]|].
      split; [reflexivity|]. split; [|reflexivity].
      destruct (Reports.trimmed_or_null (Roosters.Request.status body)) as [st|] eqn:S;
        simpl; [|discriminate].
      now apply trimmed_or_null_Some in S as [S _].
    + split; [reflexivity|discriminate].
  - split; [reflexivity|]. split; [reflexivity|discriminate].
Qed.

Lemma createRooster_name_required_witness :
  Roosters.createRooster example_roosters None (rooster_request (Some "   ") None None)
  = (Http.status_json 400 (Roosters.apiError "Name is required"), example_roosters)
  /\ Roosters.createRooster example_roosters None (rooster_request (Some blank) None None)
     = (Http.status_json 400 (Roosters.apiError "Name is required"), example_roosters).
Proof.
  split.
  - apply (proj1 (createRooster_name_required example_roosters None
                    (rooster_request (Some "   ") None None))).
    intros (s & [= <-] & N). now apply N.
  - apply (proj1 (createRooster_name_required example_roosters None
                    (rooster_request (Some blank) None None))).
    intros (s & [= <-] & N). now apply N.
Defined.

(** X14: round trip: the rooster [POST /api/roosters] answered with is among
    the roosters [GET /api/roosters] lists afterwards, field for field;
    the listing fails, with a 500, only when the database answers it with
    an error. *)
Theorem createRooster_then_getRoosters
    (order : list Roosters.RoosterRow -> list Roosters.RoosterRow)
    (store : Roosters.RoosterStore) (error : option string)
    (authorization authorization' : option string)
    (body : Roosters.CreateRoosterRequest) (created : JsValue) :
  (forall rows, Permutation (order rows) rows) ->
  fst (Roosters.createRooster store authorization body)
  = Http.status_json 201 (Roosters.apiResponse created) ->
  let listing :=
    Roosters.getRoosters order
      (snd (Roosters.createRooster store authorization body)) error authorization' in
  (error = None ->
   exists listed,
     listing = Http.json (Roosters.apiResponse (JArr listed)) /\ In created listed)
  /\ (error <> None ->
      listing = Http.status_json 500 (Roosters.apiError "Failed to fetch roosters")).
Proof.
  intros P H listing. unfold listing. clear listing.
  destruct error as [code|]; [split; [discriminate|reflexivity]|].
  split; [intros _|intros N; now destruct N].
  revert H. unfold Roosters.createRooster, Roosters.getRoosters.
  destruct (negb _); simpl; [discriminate|].
  destruct (Roosters.accepts store _); simpl; [|discriminate].
  intros [= <-]. eexists. split; [reflexivity|].
  apply in_map. apply (Permutation_in _ (Permutation_sym (P _))).
  apply filter_In. split; [apply in_or_app; right; now left|].
  simpl. rewrite !resolved_user. apply String.eqb_refl.
Qed.

Lemma createRooster_then_getRoosters_witness :
  let body := rooster_request (Some " Kelso ") (Some "Kelso") (Some "") in
  exists created listed,
    fst (Roosters.createRooster example_roosters None body)
    = Http.status_json 201 (Roosters.apiResponse created)
    /\ id_of created = JStr "rooster-3"
    /\ get_opt created "name" = JStr "Kelso"
    /\ Roosters.getRoosters (@rev Roosters.RoosterRow)
         (snd (Roosters.createRooster example_roosters None body)) None
         (Some "Bearer x")
       = Http.json (Roosters.apiResponse (JArr listed))
    /\ In created listed.
Proof.
  eexists.
  destruct (proj1 (createRooster_then_getRoosters (@rev Roosters.RoosterRow)
                     example_roosters None None (Some "Bearer x")
                     (rooster_request (Some " Kelso ") (Some "Kelso") (Some "")) _
                     (fun rows => Permutation_sym (Permutation_rev rows)) eq_refl)
              eq_refl)
    as (listed & Hl & Hin).
  exists listed. split; [reflexivity|]. split; [reflexivity|]. split; [reflexivity|].
  split; [exact Hl|exact Hin].
Defined.





(** X16: after a delete that was answered [deleted: true], [GET /api/roosters]
    lists no rooster with that id; the listing fails, with a 500, only
    when the database answers it with an error. *)
Theorem deleteRooster_then_getRoosters
    (order : list Roosters.RoosterRow -> list Roosters.RoosterRow)
    (store : Roosters.RoosterStore) (error : option string)
    (authorization authorization' : option string) (id : string) :
  (forall rows, Permutation (order rows) rows) ->
  Http.status (fst (Roosters.deleteRooster store authorization id)) = 200 ->
  let listing :=
    Roosters.getRoosters order
      (snd (Roosters.deleteRooster store authorization id)) error authorization' in
  (error = None ->
   exists listed,
     listing = Http.json (Roosters.apiResponse (JArr listed))
     /\ Forall (fun mapped => id_of mapped <> JStr id) listed)
  /\ (error <> None ->
      listing = Http.status_json 500 (Roosters.apiError "Failed to fetch roosters")).
Proof.
  intros P H listing. unfold listing. clear listing.
  destruct error as [code|]; [split; [discriminate|reflexivity]|].
  split; [intros _|intros N; now destruct N].
  revert H. unfold Roosters.deleteRooster, Roosters.getRoosters.
  destruct (existsb _ _); simpl; [discriminate|]. intros _.
  eexists. split; [reflexivity|].
  apply List.Forall_forall. intros mapped Hin.
  apply in_map_iff in Hin as (row & <- & Hin).
  apply (Permutation_in _ (P _)) in Hin.
  apply filter_In in Hin as [Hin Hu]. apply filter_In in Hin as [_ Hn].
  unfold id_of. simpl. intros [= E].
  rewrite !resolved_user in *. rewrite E, Hu in Hn.
  rewrite String.eqb_refl in Hn. discriminate.
Qed.

Lemma deleteRooster_then_getRoosters_witness :
  exists listed,
    Roosters.getRoosters (@rev Roosters.RoosterRow)
      (snd (Roosters.deleteRooster example_roosters None "rooster-1")) None None
    = Http.json (Roosters.apiResponse (JArr listed))
    /\ Forall (fun mapped => id_of mapped <> JStr "rooster-1") listed.
Proof.
  apply (proj1 (deleteRooster_then_getRoosters (@rev Roosters.RoosterRow)
                  example_roosters None None None "rooster-1"
                  (fun rows => Permutation_sym (Permutation_rev rows)) eq_refl)).
  reflexivity.
Defined.

(** ** What [updateRooster] may write *)

Lemma assoc_put (k k' : string) (v : JsValue) (u : list (string * JsValue)) :
  assoc k (Json.put k' v u) = if String.eqb k k' then v else assoc k u.
Proof.
  induction u as [|[k0 v0] u IH]; simpl; [reflexivity|].
  destruct (String.eqb_spec k' k0) as [->|N]; simpl.
  - now destruct (String.eqb k k0).
  - destruct (String.eqb_spec k k0) as [->|N'].
    + apply not_eq_sym, String.eqb_neq in N. now rewrite N.
    + exact IH.
Qed.

Lemma settled_set_trimmed (column : string) (x : option string)
    (u : list (string * JsValue)) :
  ~ In column key_columns -> settled u -> settled (Roosters.set_trimmed column x u).
Proof.
  intros Hk [T K]. unfold Roosters.set_trimmed.
  destruct (Reports.trimmed_or_null x) as [s|] eqn:E; [|now split].
  apply trimmed_or_null_Some in E. split; intros k Hin; rewrite assoc_put.
  - destruct (String.eqb k column); [right; now exists s|now apply T].
  - destruct (String.eqb_spec k column) as [->|_]; [contradiction|now apply K].
Qed.

Lemma settled_put_other (column : string) (v : JsValue) (u : list (string * JsValue)) :
  ~ In column key_columns -> ~ In column text_columns ->
  settled u -> settled (Json.put column v u).
Proof.
  intros Hk Ht [T K]. split; intros k Hin; rewrite assoc_put.
  - destruct (String.eqb_spec k column) as [->|_]; [contradiction|now apply T].
  - destruct (String.eqb_spec k column) as [->|_]; [contradiction|now apply K].
Qed.

Lemma other_columns (c : string) :
  In c ["age_months"; "weight_grams"; "birth_date"; "acquisition_date"] ->
  ~ In c key_columns /\ ~ In c text_columns.
Proof.
  intros Hc. simpl in Hc.
  repeat (destruct Hc as [<-|Hc];
          [split; intros H; simpl in H;
           repeat (destruct H as [H|H]; [discriminate|]); contradiction|]).
  contradiction.
Qed.

Lemma text_columns_not_key (c : string) : In c text_columns -> ~ In c key_columns.
Proof.
  intros Hc. simpl in Hc.
  repeat (destruct Hc as [<-|Hc];
          [intros H; simpl in H;
           repeat (destruct H as [H|H]; [discriminate|]); contradiction|]).
  contradiction.
Qed.

(** X17: [PUT /api/roosters/:id] cannot blank a text column, and cannot touch
    the columns that identify a row: in the object it hands to the
    database, each of [name], [breed], [color], [gender],
    [registration_number], [bloodline], [status], [notes] and
    [avatar_image_url] is absent or a trimmed, non-empty string, and [id],
    [user_id], [created_at] and [updated_at] are absent. *)
Theorem updateData_never_blanks (body : Roosters.UpdateRoosterRequest) :
  (forall column,
     In column ["name"; "breed"; "color"; "gender"; "registration_number"; "bloodline";
                "status"; "notes"; "avatar_image_url"] ->
     assoc column (Roosters.updateData body) = JUndefined
     \/ exists s, assoc column (Roosters.updateData body) = JStr s /\ trimmed s)
  /\ (forall column, In column ["id"; "user_id"; "created_at"; "updated_at"] ->
        assoc column (Roosters.updateData body) = JUndefined).
Proof.
  change (settled (Roosters.updateData body)).
  assert (D : forall c x u, In c ["age_months"; "weight_grams"] -> settled u ->
              settled (Roosters.set_defined c x u)).
  { intros c x u Hc S. unfold Roosters.set_defined.
    assert (P : settled (Json.put c x u)).
    { destruct (other_columns c) as [NK NT]; [simpl in *; tauto|].
      now apply settled_put_other. }
    now destruct x. }
  assert (Y : forall c x u, In c ["birth_date"; "acquisition_date"] -> settled u ->
              settled (Roosters.set_truthy c x u)).
  { intros c x u Hc S. unfold Roosters.set_truthy.
    destruct (Roosters.text_or_null x); [|exact S].
    destruct (other_columns c) as [NK NT]; [simpl in *; tauto|].
    now apply settled_put_other. }
  unfold Roosters.updateData.
  repeat first
    [ apply settled_set_trimmed; [apply text_columns_not_key; simpl; tauto|]
    | apply D; [simpl; tauto|]
    | apply Y; [simpl; tauto|] ].
  split; intros k _; [left|]; reflexivity.
Qed.

(** ** [analyzePoseForInjuries] *)

Lemma analyzePoseForInjuries_findings
    (Math_atan2 : Q -> Q -> Q) (Math_PI : Q)
    (keypoints : list PoseAnalysis.PoseKeypoint) :
  exists missing wing foot head,
    PoseAnalysis.analyzePoseForInjuries Math_atan2 Math_PI keypoints
    = findings missing wing foot head
    /\ (forall m, missing = Some m ->
          exists names, m = "Unable to detect critical body parts: " +:+ names).
Proof.
  unfold PoseAnalysis.analyzePoseForInjuries.
  set (missingCritical := List.filter _ PoseAnalysis.criticalPoints).
  exists (if Nat.ltb 0 (length missingCritical)
          then Some ("Unable to detect critical body parts: "
                       +:+ PoseAnalysis.join ", " missingCritical)
          else None).
  destruct (Nat.ltb 0 (length missingCritical));
  [ set (m := PoseAnalysis.join ", " missingCritical) |];
  (destruct (negb (Nat.eqb _ _)); [exists true|exists false]);
  (destruct (List.find (fun kp => String.eqb (PoseAnalysis.name kp) "left_foot") keypoints)
     as [leftFoot|];
   destruct (List.find (fun kp => String.eqb (PoseAnalysis.name kp) "right_foot") keypoints)
     as [rightFoot|];
   [destruct (PoseAnalysis.gt (Qabs (PoseAnalysis.y leftFoot - PoseAnalysis.y rightFoot)) 50);
      [exists true|exists false]
   |exists false|exists false|exists false]);
  (destruct (List.find (fun kp => String.eqb (PoseAnalysis.name kp) "eye") keypoints)
     as [eye|];
   destruct (List.find (fun kp => String.eqb (PoseAnalysis.name kp) "beak_tip") keypoints)
     as [beak|];
   [destruct (PoseAnalysis.gt (Qabs _) 45); [exists true|exists false]
   |exists false|exists false|exists false]);
  (split; [reflexivity|]); intros m' H; try discriminate H;
  injection H as <-; now exists m.
Qed.

(** X18: the risk level is "low" exactly when no issue was detected, which is
    exactly when the recommendations are the two of a healthy rooster;
    otherwise they end with the two that send to the veterinarian, after
    at most three specific ones.  At most four issues are detected. *)
Theorem analyzePoseForInjuries_low_iff_no_issue
    (Math_atan2 : Q -> Q -> Q) (Math_PI : Q)
    (keypoints : list PoseAnalysis.PoseKeypoint) :
  let analysis := PoseAnalysis.analyzePoseForInjuries Math_atan2 Math_PI keypoints in
  (PoseAnalysis.risk_level analysis = "low" <-> PoseAnalysis.detected_issues analysis = [])
  /\ (PoseAnalysis.detected_issues analysis = [] <->
      PoseAnalysis.recommendations analysis
      = ["Rooster appears healthy based on pose analysis";
         "Continue regular health monitoring"])
  /\ (PoseAnalysis.detected_issues analysis = []
      \/ exists specific,
           PoseAnalysis.recommendations analysis
           = (specific ++ ["Consult with veterinarian for detailed examination";
                           "Monitor rooster behavior and movement patterns"])%list
           /\ length specific <= 3)
  /\ length (PoseAnalysis.detected_issues analysis) <= 4
  /\ In (PoseAnalysis.risk_level analysis) ["low"; "medium"; "high"].
Proof.
  intros analysis. unfold analysis.
  destruct (analyzePoseForInjuries_findings Math_atan2 Math_PI keypoints)
    as (missing & wing & foot & head & -> & _).
  destruct missing as [m|], wing, foot, head; simpl.
  all: split; [split; intros H; (discriminate H || reflexivity)|].
  all: split; [split; intros H; (discriminate H || reflexivity)|].
  all: split;
         [first [ solve [left; reflexivity]
                | solve [right; exists []; split; [reflexivity|simpl; lia]]
                | solve [right; eexists [_]; split; [reflexivity|simpl; lia]]
                | solve [right; eexists [_; _]; split; [reflexivity|simpl; lia]]
                | solve [right; eexists [_; _; _]; split; [reflexivity|simpl; lia]] ]|].
  all: split; [lia|tauto].
Qed.

(** X19: an abnormal head position caps the risk: when a wing asymmetry is
    among the detected issues, the risk level is "high" unless an
    abnormal head position is detected as well, and then it is "medium";
    and the risk level is "high" only with a wing asymmetry. *)
Theorem analyzePoseForInjuries_head_caps_risk
    (Math_atan2 : Q -> Q -> Q) (Math_PI : Q)
    (keypoints : list PoseAnalysis.PoseKeypoint) :
  let analysis := PoseAnalysis.analyzePoseForInjuries Math_atan2 Math_PI keypoints in
  let wing := "Wing asymmetry detected - possible wing injury" in
  let head := "Abnormal head positioning detected" in
  (In head (PoseAnalysis.detected_issues analysis) ->
   PoseAnalysis.risk_level analysis = "medium")
  /\ (In wing (PoseAnalysis.detected_issues analysis) ->
      ~ In head (PoseAnalysis.detected_issues analysis) ->
      PoseAnalysis.risk_level analysis = "high")
  /\ (PoseAnalysis.risk_level analysis = "high" ->
      In wing (PoseAnalysis.detected_issues analysis)
      /\ ~ In head (PoseAnalysis.detected_issues analysis)).
Proof.
  intros analysis wing_issue head_issue. unfold analysis, wing_issue, head_issue.
  destruct (analyzePoseForInjuries_findings Math_atan2 Math_PI keypoints)
    as (missing & wing & foot & head & -> & P).
  assert (Nw : forall m, missing = Some m ->
                 m <> "Wing asymmetry detected - possible wing injury"
                 /\ m <> "Abnormal head positioning detected").
  { intros m Hm. destruct (P m Hm) as (names & ->). split; discriminate. }
  destruct missing as [m|]; [destruct (Nw m eq_refl) as [N1 N2]|];
    destruct wing, foot, head; simpl;
    (split; [|split]); intros; try reflexivity; try discriminate;
    repeat match goal with
           | H : _ \/ _ |- _ => destruct H
           | H : False |- _ => contradiction
           | H : ?a = ?b |- _ => first [discriminate H | contradiction]
           | H : ~ _ |- _ => exfalso; apply H; simpl; tauto
           end;
    try (split; [simpl; tauto|]; intros K; simpl in K;
         repeat (destruct K as [K|K]; [first [discriminate K|contradiction]|]);
         contradiction).
Qed.

(** ** The CORS middleware *)

Lemma ends_with_unfold (suffix s : string) :
  Cors.ends_with suffix s
  = (String.eqb s suffix
     || match s with
        | String _ r => Cors.ends_with suffix r
        | EmptyString => false
        end).
Proof. now destruct s. Qed.

Lemma ends_with_suffix (h suffix : string) : Cors.ends_with suffix (h +:+ suffix) = true.
Proof.
  induction h as [|c h IH].
  - change ("" +:+ suffix) with suffix. now rewrite ends_with_unfold, String.eqb_refl.
  - change (String c h +:+ suffix) with (String c (h +:+ suffix)).
    rewrite ends_with_unfold, IH. apply orb_true_r.
Qed.

Lemma after_prefix (p r : string) : Cors.after p (p +:+ r) = Some r.
Proof.
  induction p as [|c p IH]; simpl; [now destruct r|]. now rewrite Ascii.eqb_refl.
Qed.

Lemma any_then_projects_middle (m : string) :
  forallb (fun c => negb (Cors.line_terminator c)) (list_ascii_of_string m) = true ->
  Cors.any_then_projects (m +:+ "-josh-lacags-projects.vercel.app") = true.
Proof.
  induction m as [|c m IH]; intros H; [reflexivity|].
  simpl in H. apply andb_true_iff in H as [Hc Hm].
  change (Cors.any_then_projects (String c (m +:+ "-josh-lacags-projects.vercel.app")) = true).
  cbn [Cors.any_then_projects]. rewrite Hc, (IH Hm). apply orb_true_r.
Qed.

Lemma preview_deployment_anywhere (a rest : string) :
  Cors.any_then_projects rest = true ->
  Cors.preview_deployment (a +:+ "rooster-scan-" +:+ rest) = true.
Proof.
  intros H. induction a as [|c a IH].
  - change ("" +:+ "rooster-scan-" +:+ rest) with ("rooster-scan-" +:+ rest).
    destruct ("rooster-scan-" +:+ rest) as [|c0 s0] eqn:E; [discriminate E|].
    cbn [Cors.preview_deployment]. rewrite <- E, after_prefix, H. reflexivity.
  - change (Cors.preview_deployment (String c (a +:+ "rooster-scan-" +:+ rest)) = true).
    cbn [Cors.preview_deployment]. rewrite IH. apply orb_true_r.
Qed.

(** X20: the two patterns of the allow-list are anchored at the end only: an
    origin is let in, echoed back and allowed credentials whenever it ends
    in "ngrok-free.dev", and whenever it holds "rooster-scan-" and ends in
    "-josh-lacags-projects.vercel.app", whatever stands before. *)
Theorem cors_suffix_is_enough (before middle method : string) :
  let tunnel := before +:+ "ngrok-free.dev" in
  let preview := before +:+ "rooster-scan-" +:+ middle +:+ "-josh-lacags-projects.vercel.app" in
  In ("Access-Control-Allow-Origin", tunnel) (fst (Cors.cors (Some tunnel) method))
  /\ In ("Access-Control-Allow-Credentials", "true") (fst (Cors.cors (Some tunnel) method))
  /\ (forallb (fun c => negb (Cors.line_terminator c)) (list_ascii_of_string middle) = true ->
      In ("Access-Control-Allow-Origin", preview) (fst (Cors.cors (Some preview) method))
      /\ In ("Access-Control-Allow-Credentials", "true")
           (fst (Cors.cors (Some preview) method))).
Proof.
  intros tunnel preview.
  assert (A : forall origin,
            existsb (fun o => match o with
                              | Cors.Matching test => test origin
                              | Cors.Exactly o => String.eqb o origin
                              end) Cors.allowedOrigins = true ->
            In ("Access-Control-Allow-Origin", origin) (fst (Cors.cors (Some origin) method))
            /\ In ("Access-Control-Allow-Credentials", "true")
                 (fst (Cors.cors (Some origin) method))).
  { intros origin E. unfold Cors.cors. simpl default. rewrite E.
    destruct (String.eqb method "OPTIONS"); simpl; tauto. }
  assert (T : existsb (fun o => match o with
                                | Cors.Matching test => test tunnel
                                | Cors.Exactly o => String.eqb o tunnel
                                end) Cors.allowedOrigins = true).
  { unfold Cors.allowedOrigins. cbn [existsb]. unfold tunnel.
    rewrite ends_with_suffix. now rewrite !orb_true_r. }
  destruct (A tunnel T) as [A1 A2]. split; [exact A1|]. split; [exact A2|].
  intros M. apply A. unfold Cors.allowedOrigins. cbn [existsb]. unfold preview.
  rewrite (preview_deployment_anywhere before _ (any_then_projects_middle middle M)).
  now rewrite !orb_true_r.
Qed.

Lemma cors_suffix_is_enough_witness :
  In ("Access-Control-Allow-Origin",
      "https://attacker.example.rooster-scan-x-josh-lacags-projects.vercel.app")
     (fst (Cors.cors
             (Some "https://attacker.example.rooster-scan-x-josh-lacags-projects.vercel.app")
             "POST"))
  /\ In ("Access-Control-Allow-Credentials", "true")
       (fst (Cors.cors
               (Some "https://attacker.example.rooster-scan-x-josh-lacags-projects.vercel.app")
               "POST")).
Proof.
  apply (proj2 (proj2 (cors_suffix_is_enough "https://attacker.example." "x" "POST"))).
  reflexivity.
Defined.

(** X21: the allow-origin header is never a wildcard: when the middleware sets
    it, its value is the [Origin] the request came with, which is not
    empty.  The credentials header is always set.  An [OPTIONS] request
    ends there with a 200 and every other request is handed on. *)
Theorem cors_echoes_the_origin (origin_header : option string) (method : string) :
  let headers := fst (Cors.cors origin_header method) in
  let step := snd (Cors.cors origin_header method) in
  (forall value, In ("Access-Control-Allow-Origin", value) headers ->
     origin_header = Some value /\ value <> "")
  /\ In ("Access-Control-Allow-Credentials", "true") headers
  /\ (method = "OPTIONS" /\ step = Cors.End_ 200
      \/ method <> "OPTIONS" /\ step = Cors.Next).
Proof.
  intros headers step. unfold headers, step, Cors.cors.
  set (allowed := existsb _ Cors.allowedOrigins).
  assert (E : allowed = true -> exists o, origin_header = Some o /\ o <> "").
  { unfold allowed. destruct origin_header as [[|c o]|]; simpl default;
      [discriminate|intros _; eexists; split; [reflexivity|discriminate]|discriminate]. }
  assert (H : forall value,
            In ("Access-Control-Allow-Origin", value)
               ((if allowed
                 then [("Access-Control-Allow-Origin", default "" origin_header)] else [])
                ++ [("Access-Control-Allow-Methods", "GET, POST, PUT, DELETE, OPTIONS");
                    ("Access-Control-Allow-Headers",
                     "Content-Type, Authorization, ngrok-skip-browser-warning");
                    ("Access-Control-Allow-Credentials", "true")])%list ->
            origin_header = Some value /\ value <> "").
  { intros value Hin. destruct allowed.
    - destruct (E eq_refl) as (o & -> & No). simpl in Hin.
      destruct Hin as [[= <-]|[K|[K|[K|[]]]]]; try discriminate K. now split.
    - simpl in Hin. destruct Hin as [K|[K|[K|[]]]]; discriminate K. }
  destruct (String.eqb_spec method "OPTIONS") as [->|N]; simpl.
  - split; [exact H|]. split; [|left; now split].
    apply in_or_app. right. simpl. tauto.
  - split; [exact H|]. split; [|right; now split].
    apply in_or_app. right. simpl. tauto.
Qed.

(** ** The gate of [requireAuth] *)

Lemma substring_all (s : string) : String.substring 0 (String.length s) s = s.
Proof. induction s as [|c s IH]; simpl; [reflexivity|now rewrite IH]. Qed.

Lemma startsWith_split (p s : string) :
  Cors.startsWith s p = true -> s = p +:+ Auth.substring (String.length p) s.
Proof.
  revert s. induction p as [|a p IH]; intros s H.
  - unfold Auth.substring. simpl. now rewrite Nat.sub_0_r, substring_all.
  - destruct s as [|b s]; [discriminate|]. simpl in H.
    apply andb_true_iff in H as [Hab Hs]. apply Ascii.eqb_eq in Hab as ->.
    simpl. f_equal. exact (IH s Hs).
Qed.

Lemma startsWith_append (p r : string) : Cors.startsWith (p +:+ r) p = true.
Proof.
  induction p as [|a p IH]; simpl; [now destruct r|]. now rewrite Ascii.eqb_refl.
Qed.

Lemma substring_append (p r : string) : Auth.substring (String.length p) (p +:+ r) = r.
Proof.
  unfold Auth.substring. induction p as [|a p IH]; simpl.
  - now rewrite Nat.sub_0_r, substring_all.
  - exact IH.
Qed.

(** X22: [requireAuth] lets a request through exactly when its header is
    "Bearer " followed by a token that [jwt.verify] accepts; it answers
    every other request with a 401.  [getSession] names a user on exactly
    the same requests, and answers 200 on all. *)
Theorem requireAuth_gate (jwt_verify : string -> Completion JsValue)
    (authHeader : option string) :
  let signed_in :=
    exists token decoded,
      authHeader = Some ("Bearer " +:+ token)
      /\ jwt_verify token = Normal decoded /\ nullish decoded = false in
  ((exists user, AuthRoutes.requireAuth jwt_verify authHeader = inr user) <-> signed_in)
  /\ ((exists rejected, AuthRoutes.requireAuth jwt_verify authHeader = inl rejected
                        /\ Http.status rejected = 401
                        /\ get_opt (Http.body rejected) "success" = JBool false)
      <-> ~ signed_in)
  /\ Http.status (AuthRoutes.getSession jwt_verify authHeader) = 200
  /\ (get_opt (Http.body (AuthRoutes.getSession jwt_verify authHeader)) "user" <> JNull
      <-> signed_in).
Proof.
  intros signed_in. unfold AuthRoutes.requireAuth, AuthRoutes.getSession.
  destruct authHeader as [h|].
  2: { assert (N : ~ signed_in) by (intros (t & d & H & _); discriminate H).
       repeat split; try (intros (u & H); discriminate H); try tauto;
         try (intros _; eexists; repeat split; reflexivity).
       all: try (intros H; now contradiction H). }
  destruct (Cors.startsWith h "Bearer ") eqn:S; simpl.
  2: { assert (N : ~ signed_in).
       { intros (t & d & E & _).
         assert (Eh : h = "Bearer " +:+ t) by congruence. rewrite Eh in S.
         now rewrite (startsWith_append "Bearer " t) in S. }
       repeat split; try (intros (u & H); discriminate H); try tauto;
         try (intros _; eexists; repeat split; reflexivity).
       all: try (intros H; now contradiction H). }
  apply startsWith_split in S. simpl String.length in S.
  destruct (jwt_verify (Auth.substring 7 h)) as [decoded|e] eqn:V; simpl.
  2: { assert (N : ~ signed_in).
       { intros (t & d & E & Hv & _).
         assert (Eh : h = "Bearer " +:+ t) by congruence. rewrite Eh in V.
         pose proof (substring_append "Bearer " t) as K.
         change (String.length "Bearer ") with 7 in K. rewrite K in V. congruence. }
       repeat split; try (intros (u & H); discriminate H); try tauto;
         try (intros _; eexists; repeat split; reflexivity).
       all: try (intros H; now contradiction H). }
  destruct (nullish decoded) eqn:Nd.
  - assert (N : ~ signed_in).
    { intros (t & d & E & Hv & Hn).
      assert (Eh : h = "Bearer " +:+ t) by congruence. rewrite Eh in V.
      pose proof (substring_append "Bearer " t) as K.
         change (String.length "Bearer ") with 7 in K. rewrite K in V. congruence. }
    destruct decoded; try discriminate Nd; simpl;
      (repeat split; try (intros (u & H); discriminate H); try tauto;
       try (intros _; eexists; repeat split; reflexivity));
      try (intros H; now contradiction H).
  - assert (Y : signed_in).
    { exists (Auth.substring 7 h), decoded. split; [now f_equal|]. now split. }
    destruct decoded; try discriminate Nd; simpl;
      (repeat split; try (intros _; exact Y); try (intros _; eexists; reflexivity);
       try discriminate; try tauto;
       try (intros (r & H & _); discriminate H)).
Qed.

Lemma handlers_ignore_the_header (authorization : option string) :
  (forall db body, Reports.createReport db authorization body
                   = Reports.createReport db None body)
  /\ (forall store body, ScanRoutes.createScan store authorization body
                         = ScanRoutes.createScan store None body)
  /\ (forall store body, Roosters.createRooster store authorization body
                         = Roosters.createRooster store None body).
Proof.
  repeat split; intros;
    unfold Reports.createReport, Reports.createReport_try, ScanRoutes.createScan,
      Roosters.createRooster;
    now rewrite !resolved_user.
Qed.

(** X23: the identity the gate verifies is not the identity that is written:
    a request [requireAuth] turns away changes nothing, and a request it
    lets through is handled by [createReport], [createScan] and
    [createRooster] exactly as one with no [Authorization] header, so
    what is written belongs to the placeholder user whoever the token
    names. *)
Theorem routes_behind_the_gate (jwt_verify : string -> Completion JsValue)
    (authorization : option string) :
  (forall rejected, AuthRoutes.requireAuth jwt_verify authorization = inl rejected ->
     (forall db body,
        AuthRoutes.post_reports jwt_verify db authorization body = (rejected, db))
     /\ (forall store body,
           AuthRoutes.post_scans jwt_verify store authorization body = (rejected, store))
     /\ (forall store body,
           AuthRoutes.post_roosters jwt_verify store authorization body = (rejected, store)))
  /\ (forall user, AuthRoutes.requireAuth jwt_verify authorization = inr user ->
        (forall db body,
           AuthRoutes.post_reports jwt_verify db authorization body
           = Reports.createReport db None body)
        /\ (forall store body,
              AuthRoutes.post_scans jwt_verify store authorization body
              = ScanRoutes.createScan store None body)
        /\ (forall store body,
              AuthRoutes.post_roosters jwt_verify store authorization body
              = Roosters.createRooster store None body)).
Proof.
  destruct (handlers_ignore_the_header authorization) as (H1 & H2 & H3).
  unfold AuthRoutes.post_reports, AuthRoutes.post_scans, AuthRoutes.post_roosters.
  split; intros x E; rewrite E; repeat split; intros; auto.
Qed.

Lemma routes_behind_the_gate_witness :
  exists user report,
    AuthRoutes.requireAuth example_verify (Some "Bearer good-token") = inr user
    /\ get_opt user "id" = JStr somebody_else
    /\ Reports.health_reports
         (snd (AuthRoutes.post_reports example_verify example_db (Some "Bearer good-token")
                 (report_request (Some "scan-1") (Some "rooster-1") (Some "Checkup"))))
       = [report]
    /\ Reports.user_id (Reports.data report) = placeholder.
Proof.
  eexists. eexists.
  split; [reflexivity|]. split; [reflexivity|].
  rewrite (proj1 (proj2 (routes_behind_the_gate example_verify (Some "Bearer good-token"))
                    _ eq_refl)).
  split; reflexivity.
Defined.

(** ** [uploadImage] *)

Lemma split_dot_nonempty (s : string) : Upload.split_dot s <> [].
Proof.
  induction s as [|c s IH]; simpl; [discriminate|].
  destruct (Ascii.eqb c "."); [discriminate|].
  destruct (Upload.split_dot s); [contradiction|discriminate].
Qed.

Lemma split_dot_plain (s : string) : occurs "." s = false -> Upload.split_dot s = [s].
Proof.
  induction s as [|c s IH]; simpl; [reflexivity|].
  intros H. apply orb_false_iff in H as [Hc Hs]. now rewrite Hc, (IH Hs).
Qed.

Lemma split_dot_single (s segment : string) :
  Upload.split_dot s = [segment] -> s = segment.
Proof.
  revert segment. induction s as [|c s IH]; simpl; intros segment H.
  - now injection H as <-.
  - pose proof (split_dot_nonempty s) as NE.
    destruct (Ascii.eqb c ".").
    + destruct (Upload.split_dot s); [contradiction|discriminate].
    + destruct (Upload.split_dot s) as [|seg [|seg' rest]]; try discriminate;
        [contradiction|].
      injection H as <-. now rewrite (IH seg eq_refl).
Qed.

(** The extension is what follows the last dot of the name, and the whole
    name when it has no dot. *)
Lemma pop_split_dot (s : string) :
  occurs "." (Upload.pop (Upload.split_dot s)) = false
  /\ (s = Upload.pop (Upload.split_dot s)
      \/ exists stem, s = stem +:+ String "." (Upload.pop (Upload.split_dot s))).
Proof.
  unfold Upload.pop. induction s as [|c s (IHd & IH)]; simpl.
  - split; [reflexivity|now left].
  - pose proof (split_dot_nonempty s) as NE.
    destruct (Ascii.eqb c ".") eqn:Ec.
    + apply Ascii.eqb_eq in Ec as ->.
      destruct (Upload.split_dot s) as [|seg rest] eqn:E; [contradiction|].
      change (List.last ("" :: seg :: rest) "") with (List.last (seg :: rest) "").
      split; [exact IHd|]. right. destruct IH as [Hs|(stem & Hs)].
      * exists "". simpl. now f_equal.
      * exists (String "." stem). simpl. now f_equal.
    + destruct (Upload.split_dot s) as [|seg [|seg' rest]] eqn:E; [contradiction| |].
      * apply split_dot_single in E as ->. simpl in IHd |- *.
        rewrite Ec, IHd. split; [reflexivity|now left].
      * change (List.last (String c seg :: seg' :: rest) "")
          with (List.last (seg :: seg' :: rest) "").
        split; [exact IHd|]. right. destruct IH as [Hs|(stem & Hs)].
        -- exfalso. rewrite <- Hs in IHd.
           rewrite (split_dot_plain s IHd) in E. discriminate E.
        -- exists (String c stem). simpl. now f_equal.
Qed.

(** X24: [POST /api/upload] stores at most one object and overwrites none.
    Answered 200, the file is in the bucket, with its bytes and content
    type, at "roosters/<uuid>.<ext>", a path that was free, where <ext> is
    what follows the last dot of the original name (the whole name when it
    has no dot); every other object is as it was, and the answer carries
    the public URL of that path.  Answered otherwise (400 without a file,
    500 when the bucket refuses) the bucket is as it was. *)
Theorem uploadImage_stores_once (uuid : string) (getPublicUrl : string -> string)
    (takes : string -> string -> bool)
    (bucket : gmap string (string * string)) (file : option Upload.File) :
  let answer := Upload.uploadImage uuid getPublicUrl takes bucket file in
  (Http.status (fst answer) = 200 /\
   exists f ext,
     file = Some f
     /\ Upload.filePath uuid f = "roosters/" +:+ uuid +:+ "." +:+ ext
     /\ occurs "." ext = false
     /\ (Upload.originalname f = ext
         \/ exists stem, Upload.originalname f = stem +:+ String "." ext)
     /\ bucket !! Upload.filePath uuid f = None
     /\ snd answer !! Upload.filePath uuid f = Some (Upload.buffer f, Upload.mimetype f)
     /\ (forall path, path <> Upload.filePath uuid f -> snd answer !! path = bucket !! path)
     /\ get_opt (get_opt (Http.body (fst answer)) "data") "url"
        = JStr (getPublicUrl (Upload.filePath uuid f)))
  \/ ((Http.status (fst answer) = 400 /\ file = None
       \/ Http.status (fst answer) = 500 /\ file <> None)
      /\ snd answer = bucket).
Proof.
  intros answer. unfold answer, Upload.uploadImage.
  destruct file as [f|]; [|right; split; [left; now split|reflexivity]].
  unfold Upload.upload.
  destruct (bucket !! Upload.filePath uuid f) eqn:L;
    [right; split; [right; now split|reflexivity]|].
  destruct (takes _ _); [|right; split; [right; now split|reflexivity]].
  left. split; [reflexivity|].
  exists f, (Upload.pop (Upload.split_dot (Upload.originalname f))).
  destruct (pop_split_dot (Upload.originalname f)) as [Hd Hs].
  split; [reflexivity|]. split; [reflexivity|]. split; [exact Hd|]. split; [exact Hs|].
  split; [exact L|]. simpl. split; [apply lookup_insert_eq|].
  split; [|reflexivity]. intros path N. now apply lookup_insert_ne.
Qed.

(** ** Education *)

Lemma categoryCounts_from (acc : gmap Education.Category nat)
    (rows : list Education.Content) (c : Education.Category) :
  default 0 (foldl Education.count_category acc rows !! c)
  = default 0 (acc !! c) + length (in_category c rows).
Proof.
  revert acc. induction rows as [|item rows IH]; intros acc; simpl; [lia|].
  rewrite IH. unfold Education.count_category at 1. rewrite lookup_insert.
  unfold in_category. simpl.
  case_decide as E; case_bool_decide as B; try congruence; simpl;
    try rewrite E; lia.
Qed.

Lemma categoryCounts_positive (acc : gmap Education.Category nat)
    (rows : list Education.Content) :
  (forall c n, acc !! c = Some n -> 0 < n) ->
  forall c n, foldl Education.count_category acc rows !! c = Some n -> 0 < n.
Proof.
  revert acc. induction rows as [|item rows IH]; intros acc P c n; simpl; [apply P|].
  apply IH. intros c' n'. unfold Education.count_category. rewrite lookup_insert.
  case_decide; [intros [= <-]; lia|apply P].
Qed.

(** X25: [/meta/categories] counts right: a category is a key of the result
    exactly when some row has it, and its value is the number of rows that
    have it. *)
Theorem categoryCounts_counts (rows : list Education.Content) (c : Education.Category) :
  Education.categoryCounts rows !! c
  = match in_category c rows with
    | [] => None
    | found => Some (length found)
    end.
Proof.
  pose proof (categoryCounts_from ∅ rows c) as H.
  pose proof (categoryCounts_positive ∅ rows) as P.
  unfold Education.categoryCounts.
  rewrite lookup_empty in H. simpl in H.
  destruct (foldl Education.count_category ∅ rows !! c) as [n|] eqn:E; simpl in H.
  - assert (0 < n) by (apply (P ltac:(intros c' n'; now rewrite lookup_empty) c n E)).
    destruct (in_category c rows); simpl in H |- *; [lia|]. now rewrite H.
  - destruct (in_category c rows); simpl in H; [reflexivity|discriminate].
Qed.

(** X26: [GET /api/education/:id].  When the database answers the select
    and exactly one published row has that id, the answer is 200 with
    that row as it was stored before the request; if the update of the
    view count went through, every row of that id then has one view more
    than that row had (one, when it had none) and nothing else has
    changed, and if it did not, the table is as it was.  When no single
    published row has that id, or the database says [PGRST116], the answer
    is 404; on any other error it is 500; and the table changes only
    with a 200. *)
Theorem getContent_counts_the_view (table : list Education.Content)
    (error : option string) (counted : bool) (id : string) :
  let answer := Education.getContent table error counted id in
  let missing :=
    Http.status_json 404 (JObj [("error", JStr "Educational content not found");
                                ("success", JBool false)]) in
  let failed :=
    Http.status_json 500 (JObj [("error", JStr "Failed to fetch educational content");
                                ("success", JBool false)]) in
  (forall content, error = None -> published id table = [content] ->
     In content table /\ Education.id content = id
     /\ Education.is_published content = true
     /\ fst answer = Http.json (JObj [("data", Education.row content);
                                      ("success", JBool true)])
     /\ get_opt (Education.row content) "view_count"
        = of_num (Education.view_count content)
     /\ (counted = false -> snd answer = table)
     /\ (counted = true ->
         Forall2 (fun before after =>
                    Education.id after = Education.id before
                    /\ Education.is_published after = Education.is_published before
                    /\ Education.category after = Education.category before
                    /\ Education.columns after = Education.columns before
                    /\ (Education.id before <> id -> after = before)
                    /\ (Education.id before = id ->
                        exists seen,
                          Education.view_count after = Some seen
                          /\ (seen == default 0 (Education.view_count content) + 1)%Q))
           table (snd answer)))
  /\ (error = None -> (forall content, published id table <> [content]) ->
      answer = (missing, table))
  /\ (error = Some "PGRST116" -> answer = (missing, table))
  /\ (forall code, error = Some code -> code <> "PGRST116" -> answer = (failed, table))
  /\ (Http.status (fst answer) <> 200 -> snd answer = table).
Proof.
  intros answer missing failed. unfold answer, Education.getContent.
  fold missing. fold failed. fold (published id table).
  destruct error as [code|].
  { destruct (String.eqb_spec code "PGRST116") as [->|N].
    - split; [intros c [=]|]. split; [intros [=]|]. split; [reflexivity|].
      split; [|reflexivity]. intros c [= <-] K. now destruct K.
    - split; [intros c [=]|]. split; [intros [=]|]. split; [congruence|].
      split; reflexivity. }
  destruct (published id table) as [|content [|more rest]] eqn:E.
  - split; [intros c _ [=]|]. split; [reflexivity|]. split; [intros [=]|].
    split; [intros c [=]|reflexivity].
  - assert (M : In content (published id table)) by (rewrite E; now left).
    apply filter_In in M as [Hin Hc]. apply andb_true_iff in Hc as [Hid Hp].
    apply String.eqb_eq in Hid.
    split; [|split; [|split; [|split]]].
    + intros c _ [= <-].
      split; [exact Hin|]. split; [exact Hid|]. split; [exact Hp|].
      split; [reflexivity|]. split; [reflexivity|].
      split; [intros ->; reflexivity|]. intros ->. simpl snd.
      unfold Education.set_view_count. clear E Hin.
      induction table as [|row table IH]; simpl; constructor; [|exact IH].
      destruct (String.eqb_spec (Education.id row) id) as [Hr|Hr]; simpl.
      * repeat split; try reflexivity; [intros N; contradiction|].
        intros _. eexists. split; [reflexivity|].
        unfold Reports.number_or_null.
        destruct (Education.view_count content) as [q|]; simpl; [|reflexivity].
        destruct (Qeq_bool q 0) eqn:Z; simpl; [|reflexivity].
        apply Qeq_bool_eq in Z. now rewrite Z.
      * repeat split; try reflexivity. intros K. contradiction.
    + intros _ N. now destruct (N content).
    + intros [=].
    + intros c [=].
    + simpl. intros N. now destruct N.
  - split; [intros c _ [=]|]. split; [reflexivity|]. split; [intros [=]|].
    split; [intros c [=]|reflexivity].
Qed.

Lemma getContent_counts_the_view_witness :
  exists content after draft,
    published "article-1" example_content = [content]
    /\ Http.status (fst (Education.getContent example_content None true "article-1")) = 200
    /\ snd (Education.getContent example_content None true "article-1") = [after; draft]
    /\ Education.view_count content = None
    /\ Education.view_count after = Some (0 + 1)%Q
    /\ In draft example_content
    /\ snd (Education.getContent example_content None false "article-1") = example_content
    /\ Http.status (fst (Education.getContent example_content (Some "PGRST301") true
                           "article-1")) = 500.
Proof.
  destruct (getContent_counts_the_view example_content None true "article-1")
    as (H & _).
  destruct (getContent_counts_the_view example_content None false "article-1")
    as (H' & _).
  destruct (getContent_counts_the_view example_content (Some "PGRST301") true "article-1")
    as (_ & _ & _ & K & _).
  destruct (H _ eq_refl eq_refl) as (_ & _ & _ & Hr & _).
  destruct (H' _ eq_refl eq_refl) as (_ & _ & _ & _ & _ & Hu & _).
  do 3 eexists. split; [reflexivity|]. split; [now rewrite Hr|].
  split; [reflexivity|]. split; [reflexivity|]. split; [reflexivity|].
  split; [right; now left|]. split; [now apply Hu|].
  now rewrite (K "PGRST301" eq_refl).
Defined.
